(** * UTC to TDB conversion (jwst/lib/utc_to_tdb.py)

    A shallow embedding of the module that converts the start, mid and end
    times of an INT_TIMES table from UTC to TDB, together with the
    properties its design document states about it.

    - Python floats: the numeric code is written once over an interface of
      scalar operations and read at two instances, the real numbers, where
      the algebraic properties are proved, and binary64 floats, where the
      functions run as the Python code does.
    - Exceptions: a function that can raise returns a [result]; the
      functions that work on the open file live in a state-and-exception
      monad [Py] over the file's HDUs and the log.
    - astropy and the optional [timeconversion] module: the four things
      the module takes from them are the fields of [Externals].
    - The FITS file: a list of HDUs, each a header (EXTNAME and numeric
      cards) and its data, a table (row count and named columns of
      floats) or [None].

    The first part holds the definitions, the second the properties. *)

From Stdlib Require Import Reals Lra ZArith Ascii String.
From Stdlib Require PrimFloat Uint63.
From stdpp Require Import gmap strings list.

Set Default Proof Using "Type".

(** ** Scalars *)

Class Scalar (F : Type) := {
  of_Z : Z → F;
  fadd : F → F → F;
  fsub : F → F → F;
  fmul : F → F → F;
  fdiv : F → F → F;
  fsqrt : F → F
}.

Declare Scope scalar_scope.
Delimit Scope scalar_scope with sc.
Infix "+" := fadd : scalar_scope.
Infix "-" := fsub : scalar_scope.
Infix "*" := fmul : scalar_scope.
Infix "/" := fdiv : scalar_scope.

(** Real arithmetic: the idealised reading of the float64 code. *)
#[export] Instance R_scalar : Scalar R := {|
  of_Z := IZR;
  fadd := Rplus;
  fsub := Rminus;
  fmul := Rmult;
  fdiv := Rdiv;
  fsqrt := sqrt
|}.

(** IEEE 754 binary64, as numpy's float64. *)
Definition float_of_Z (z : Z) : PrimFloat.float :=
  match z with
  | Z0 => PrimFloat.zero
  | Zpos _ => PrimFloat.of_uint63 (Uint63.of_Z z)
  | Zneg p => PrimFloat.opp (PrimFloat.of_uint63 (Uint63.of_Z (Zpos p)))
  end.

#[export] Instance float_scalar : Scalar PrimFloat.float := {|
  of_Z := float_of_Z;
  fadd := PrimFloat.add;
  fsub := PrimFloat.sub;
  fmul := PrimFloat.mul;
  fdiv := PrimFloat.div;
  fsqrt := PrimFloat.sqrt
|}.

(** ** Exceptions and results *)

Inductive exn : Type :=
  | RuntimeError (msg : string)
  | KeyError (key : string)
  | ValueError (msg : string)
  | TypeError (msg : string)
  | AttributeError (msg : string)
  | ErfaError (msg : string)
  | IndexError.

Definition result (A : Type) : Type := (exn + A)%type.
Definition Ok {A} (x : A) : result A := inr x.
Definition Err {A} (e : exn) : result A := inl e.

#[export] Instance result_ret : MRet result := λ A x, Ok x.
#[export] Instance result_bind : MBind result := λ A B f m,
  match m with
  | inl e => inl e
  | inr x => f x
  end.
#[export] Instance result_fmap : FMap result := λ A B f m,
  match m with
  | inl e => inl e
  | inr x => inr (f x)
  end.

(** numpy broadcasting of two arrays along their first axis: equal lengths
    combine element by element, a length-one operand is repeated, and any
    other pair of lengths raises ValueError. *)
Definition broadcast_msg : string := "operands could not be broadcast together".

Definition broadcast {A B C} (f : A → B → C) (xs : list A) (ys : list B)
  : result (list C) :=
  if decide (length xs = length ys) then Ok (zip_with f xs ys)
  else match xs, ys with
       | [x], _ => Ok (f x <$> ys)
       | _, [y] => Ok ((λ x, f x y) <$> xs)
       | _, _ => Err (ValueError broadcast_msg)
       end.

(** An array as broadcasting reads it: a length-one array has its one
    element at every index. *)
Definition bcast {A} (l : list A) (i : nat) : option A :=
  match l with
  | [x] => Some x
  | _ => l !! i
  end.



(** ** The numeric core *)

Inductive body := Earth | Sun.

Inductive shape := scalar | array.

Section Core.
Context {F : Type} {Sc : Scalar F}.
Local Open Scope scalar_scope.

Definition vec3 : Type := (F * F * F)%type.

Definition vadd (a b : vec3) : vec3 :=
  let '(ax, ay, az) := a in let '(bx, by_, bz) := b in
  (ax + bx, ay + by_, az + bz).
Definition vsub (a b : vec3) : vec3 :=
  let '(ax, ay, az) := a in let '(bx, by_, bz) := b in
  (ax - bx, ay - by_, az - bz).
Definition vdiv (a : vec3) (k : F) : vec3 :=
  let '(ax, ay, az) := a in (ax / k, ay / k, az / k).
(** [(u * v).sum(axis=-1)] on one row. *)
Definition dot (u v : vec3) : F :=
  let '(ux, uy, uz) := u in let '(vx, vy, vz) := v in
  (ux * vx + uy * vy) + uz * vz.
Definition norm (v : vec3) : F := fsqrt (dot v v).

(** What the module takes from astropy and from the optional
    [timeconversion] module.  [Time_utc_tt] is
    [Time(x, format="mjd", scale="utc").tt.value] on one value;
    [SkyCoord_cartesian ra dec] is the Cartesian representation of
    [SkyCoord(ra, dec, distance=1, frame='icrs', unit='deg')];
    [get_body_barycentric jpl b t] is the barycentric position of [b] at
    TT MJD [t] in SI units (metres), from the JPL ephemeris when [jpl];
    [timeconversion] is [None] when the import failed. *)
Class Externals := {
  Time_utc_tt : F → result F;
  SkyCoord_cartesian : F → F → result vec3;
  get_body_barycentric : bool → body → F → vec3;
  timeconversion : option (F * F → list F → result (list F * list F))
}.
Context {Ex : Externals}.

(** Whether the import of [timeconversion] succeeded. *)
Definition USE_TIMECONVERSION : bool :=
  match timeconversion with Some _ => true | None => false end.

Definition tval (s : shape) : Type :=
  match s with scalar => F | array => list F end.

(** [to_tt]: a float gives a float, an array gives an array. *)
Definition to_tt {s : shape} : tval s → result (tval s) :=
  match s with
  | scalar => λ utc_time, Time_utc_tt utc_time
  | array => λ utc_time, mapM Time_utc_tt utc_time
  end.

(** [t = Time(times, format="mjd", scale="tt")] is taken to accept
    [times], as it does every array of finite numbers; the constructor's
    refusal of a value that is not finite is not part of this
    definition, so what is said of the cases in which the function
    returns is said in real arithmetic. *)
Definition get_jwst_position2 (times : list F) (jwstpos : list vec3)
    (use_jpl_ephemeris : bool) : result (list vec3 * list vec3) :=
  let bary_earth := get_body_barycentric use_jpl_ephemeris Earth <$> times in
  let bary_sun := get_body_barycentric use_jpl_ephemeris Sun <$> times in
  let sun_earth := zip_with vsub bary_earth bary_sun in
  let barysun_centerearth_pos := (λ v, vdiv v (of_Z 1000)) <$> bary_earth in
  let centersun_centerearth_pos := (λ v, vdiv v (of_Z 1000)) <$> sun_earth in
  let centerearth_jwst := jwstpos in
  b ← broadcast vadd barysun_centerearth_pos centerearth_jwst;
  h ← broadcast vadd centersun_centerearth_pos centerearth_jwst;
  mret (b, h).

Definition get_target_vector2 (targetcoord : F * F) : result vec3 :=
  let '(ra, dec) := targetcoord in
  vector ← SkyCoord_cartesian ra dec;
  mret (vdiv vector (fsqrt (dot vector vector))).

(** [astropy.constants.c.value], in m/s. *)
Definition c_value : F := of_Z 299792458.

Definition compute_bary_helio_time2 (targetcoord : F * F) (times : list F)
    (jwstpos : list vec3) (use_jpl_ephemeris : bool)
    : result (list F * list F) :=
  tvector ← get_target_vector2 targetcoord;
  '(jwst_bary_vectors, jwst_sun_vectors) ←
      get_jwst_position2 times jwstpos use_jpl_ephemeris;
  let proj_bary_dist := dot tvector <$> jwst_bary_vectors in
  let proj_sun_dist := dot tvector <$> jwst_sun_vectors in
  let cspeed := c_value / of_Z 1000 in
  b ← broadcast fadd times
        ((λ d, d / cspeed / of_Z 86400) <$> proj_bary_dist);
  h ← broadcast fadd times
        ((λ d, d / cspeed / of_Z 86400) <$> proj_sun_dist);
  mret (b, h).

Definition linear_pos (tt_times : list F) (eph_time : F)
    (jwst_pos jwst_vel : vec3) : list vec3 :=
  let '(px, py, pz) := jwst_pos in
  let '(vx, vy, vz) := jwst_vel in
  (λ t, let dt := t - eph_time in
        (px + dt * vx, py + dt * vy, pz + dt * vz)) <$> tt_times.

End Core.

Arguments vec3 F : clear implicits.
Arguments Externals F : clear implicits.

(** ** The FITS file and the interpreter state *)

Inductive level := DEBUG | INFO | WARNING.

(** [str.upper()] on ASCII text. *)
Definition ascii_upper (c : ascii) : ascii :=
  let n := nat_of_ascii c in
  if (97 <=? n)%nat && (n <=? 122)%nat then ascii_of_nat (n - 32) else c.

Fixpoint upper (s : string) : string :=
  match s with
  | EmptyString => EmptyString
  | String c r => String (ascii_upper c) (upper r)
  end.

Section File.
Context {F : Type}.

(** A header: the EXTNAME card when it holds a string, and the numeric
    cards by keyword, the keywords spelled as the module spells them. *)
Record Header := {
  EXTNAME : option string;
  cards : gmap string F
}.

(** A table: [len(data)] and the columns that [data.field(name)] reads,
    by the names the module gives; a name with no column is a KeyError. *)
Record Table := {
  nrows : nat;
  columns : gmap string (list F)
}.

(** An HDU: its header and its [data], which is [None] when the HDU has
    no data. *)
Record HDU := {
  header : Header;
  data : option Table
}.

(** The table of an HDU in the statements that speak of rows and columns:
    that of [data], with no row and no column when there is no data.  The
    functions below read [data] itself. *)
Definition no_table : Table := {| nrows := 0; columns := ∅ |}.

Definition table (h : HDU) : Table := default no_table (data h).

(** [len(None)] and [None.field]. *)
Definition len_none_msg : string := "object of type 'NoneType' has no len()".

Definition field_none_msg : string :=
  "'NoneType' object has no attribute 'field'".

(** The open [HDUList] object [fd] and what has been logged so far. *)
Record World := {
  fd : list HDU;
  fd_closed : bool;
  log : list (level * string)
}.

Definition Py (A : Type) : Type := World → result A * World.

#[export] Instance Py_ret : MRet Py := λ A x w, (inr x, w).
#[export] Instance Py_bind : MBind Py := λ A B f m w,
  match m w with
  | (inl e, w') => (inl e, w')
  | (inr x, w') => f x w'
  end.

#[export] Instance Py_fmap : FMap Py := λ A B f m w,
  match m w with
  | (inl e, w') => (inl e, w')
  | (inr x, w') => (inr (f x), w')
  end.

Definition raise {A} (e : exn) : Py A := λ w, (inl e, w).

Definition lift {A} (r : result A) : Py A := λ w, (r, w).

(** [try: body except ...: handler]; the handler is chosen by the
    exception, and an exception it does not cover goes on. *)
Definition try_except {A} (body : Py A) (handler : exn → option (Py A))
  : Py A := λ w,
  match body w with
  | (inl e, w') =>
      match handler e with
      | Some h => h w'
      | None => (inl e, w')
      end
  | (inr x, w') => (inr x, w')
  end.

Definition logged (w : World) (entries : list (level * string)) : World :=
  {| fd := fd w; fd_closed := fd_closed w; log := log w ++ entries |}.

Definition closed (w : World) : World :=
  {| fd := fd w; fd_closed := true; log := log w |}.

Definition with_fd (w : World) (hdus : list HDU) : World :=
  {| fd := hdus; fd_closed := fd_closed w; log := log w |}.

Definition log_at (lv : level) (msg : string) : Py unit := λ w,
  (inr (), logged w [(lv, msg)]).

Definition fd_len : Py nat := λ w, (inr (length (fd w)), w).

(** [fd.close()] *)
Definition fd_close : Py unit := λ w, (inr (), closed w).

(** [fd[i]] *)
Definition fd_get (i : nat) : Py HDU := λ w,
  match fd w !! i with
  | Some h => (inr h, w)
  | None => (inl IndexError, w)
  end.

(** [fd[i].header[key]] for a numeric card. *)
Definition header_get (i : nat) (key : string) : Py F :=
  h ← fd_get i;
  match cards (header h) !! key with
  | Some v => mret v
  | None => raise (KeyError key)
  end.

(** [fd[i].data.field(name)] *)
Definition data_field (i : nat) (name : string) : Py (list F) :=
  h ← fd_get i;
  match data h with
  | None => raise (AttributeError field_none_msg)
  | Some t =>
      match columns t !! name with
      | Some col => mret col
      | None => raise (KeyError name)
      end
  end.

(** The HDU [h] with [col] as its column [name]; a column is assigned
    only once [data.field(name)] has returned it, so [h] has data. *)
Definition set_column (h : HDU) (name : string) (col : list F) : HDU :=
  {| header := header h;
     data := Some {| nrows := nrows (table h);
                     columns := <[name := col]> (columns (table h)) |} |}.

(** [col[:] = values]: numpy copies [values] into the column when the
    lengths agree, repeats a single value, and raises otherwise. *)
Definition assign_slice (col values : list F) : result (list F) :=
  if decide (length values = length col) then Ok values
  else match values with
       | [v] => Ok ((λ _, v) <$> col)
       | _ => Err (ValueError broadcast_msg)
       end.

(** Writing a column of HDU [i] in place. *)
Definition fd_set_column (i : nat) (name : string) (col : list F)
  : Py unit := λ w,
  match fd w !! i with
  | Some h => (inr (), with_fd w (<[i := set_column h name col]> (fd w)))
  | None => (inl IndexError, w)
  end.

(** [fd[i].data.field(name)[:] = values] *)
Definition data_field_assign (i : nat) (name : string) (values : list F)
  : Py unit :=
  col ← data_field i name;
  new ← lift (assign_slice col values);
  fd_set_column i name new.

End File.

Arguments Header F : clear implicits.
Arguments Table F : clear implicits.
Arguments HDU F : clear implicits.
Arguments World F : clear implicits.
Arguments Py F A : clear implicits.

(** A value returned to the caller: a Python float or a numpy array. *)
Inductive pyval (F : Type) :=
  | PyFloat (x : F)
  | PyArray (a : list F).
Arguments PyFloat {F} x.
Arguments PyArray {F} a.

(** ** The module's functions on files *)

Section Module.
Context {F : Type} {Sc : Scalar F} {Ex : Externals F}.

Definition two_hdus_msg (extname_uc : string) : string :=
  "There are at least two HDUs with EXTNAME = " +:+ extname_uc
    +:+ "; there should only be one.".

Definition required_msg (extname : string) : string :=
  "An " +:+ extname +:+ " table is required.".

(** The body of [for i in range(1, nhdu)] over the remaining indices. *)
Fixpoint find_hdu_loop (extname_uc : string) (range : list nat)
    (hdunum : option nat) : Py F (option nat) :=
  match range with
  | [] => mret hdunum
  | i :: range' =>
      h ← fd_get i;
      let hdr := header h in
      if decide (EXTNAME hdr = Some extname_uc) then
        match hdunum with
        | Some _ => fd_close;; raise (RuntimeError (two_hdus_msg extname_uc))
        | None => find_hdu_loop extname_uc range' (Some i)
        end
      else find_hdu_loop extname_uc range' hdunum
  end.

Definition find_hdu (extname : string) : Py F nat :=
  let extname_uc := upper extname in
  nhdu ← fd_len;
  hdunum ← find_hdu_loop extname_uc (seq 1 (nhdu - 1)) None;
  match hdunum with
  | None => fd_close;; raise (RuntimeError (required_msg extname))
  | Some n =>
      h ← fd_get n;
      match data h with
      | None => raise (TypeError len_none_msg)
      | Some t =>
          if decide (nrows t < 1) then
            fd_close;; raise (RuntimeError (required_msg extname))
          else mret n
      end
  end.

Definition get_jwst_keywords : Py F (F * vec3 F * vec3 F) :=
  eph ← header_get (F := F) 0 "eph_time";
  eph_time ← lift (to_tt (s := scalar) eph);
  x ← header_get (F := F) 0 "jwst_x";
  y ← header_get (F := F) 0 "jwst_y";
  z ← header_get (F := F) 0 "jwst_z";
  let jwst_pos := (x, y, z) in
  dx ← header_get (F := F) 0 "jwst_dx";
  dy ← header_get (F := F) 0 "jwst_dy";
  dz ← header_get (F := F) 0 "jwst_dz";
  let jwst_vel := (dx, dy, dz) in
  mret (eph_time, jwst_pos, jwst_vel).

Definition sentinel : pyval F * pyval F * pyval F :=
  (PyFloat (of_Z 0), PyFloat (of_Z 0), PyFloat (of_Z 0)).

(** [fits.open(filename, mode="update")] gives the [fd] of the state. *)
Definition utc_tdb (filename : string)
  : Py F (pyval F * pyval F * pyval F) :=
  log_at INFO ("Processing file " +:+ filename);;
  targ_ra ← header_get (F := F) 0 "targ_ra";
  targ_dec ← header_get (F := F) 0 "targ_dec";
  let targetcoord := (targ_ra, targ_dec) in
  found ← try_except (Some <$> find_hdu "int_times")
             (λ e, match e with
                   | RuntimeError msg =>
                       Some (log_at WARNING msg;; fd_close;; mret None)
                   | _ => None
                   end);
  match found with
  | None => mret sentinel
  | Some hdunum =>
      utc_start ← data_field (F := F) hdunum "int_start_MJD_UTC";
      tt_start_times ← lift (to_tt (s := array) utc_start);
      utc_mid ← data_field (F := F) hdunum "int_mid_MJD_UTC";
      tt_mid_times ← lift (to_tt (s := array) utc_mid);
      utc_end ← data_field (F := F) hdunum "int_end_MJD_UTC";
      tt_end_times ← lift (to_tt (s := array) utc_end);
      '(tdb_start_times, tdb_mid_times, tdb_end_times) ←
        match timeconversion with
        | Some compute_bary_helio_time =>
            log_at DEBUG "Using the timeconversion module.";;
            s ← lift (fst <$> compute_bary_helio_time targetcoord tt_start_times);
            m ← lift (fst <$> compute_bary_helio_time targetcoord tt_mid_times);
            e ← lift (fst <$> compute_bary_helio_time targetcoord tt_end_times);
            mret (s, m, e)
        | None =>
            log_at WARNING "Couldn't import the timeconversion module;";;
            log_at WARNING
              "using astropy.coordinates, and JWST position and velocity keywords.";;
            '(eph_time, jwst_pos, jwst_vel) ← get_jwst_keywords;
            let jwstpos := linear_pos tt_start_times eph_time jwst_pos jwst_vel in
            s ← lift (fst <$> compute_bary_helio_time2
                                targetcoord tt_start_times jwstpos false);
            let jwstpos := linear_pos tt_mid_times eph_time jwst_pos jwst_vel in
            m ← lift (fst <$> compute_bary_helio_time2
                                targetcoord tt_mid_times jwstpos false);
            let jwstpos := linear_pos tt_end_times eph_time jwst_pos jwst_vel in
            e ← lift (fst <$> compute_bary_helio_time2
                                targetcoord tt_end_times jwstpos false);
            mret (s, m, e)
        end;
      missing ← try_except
                  (data_field_assign (F := F) hdunum "int_start_BJD_TDB" tdb_start_times;;
                   data_field_assign (F := F) hdunum "int_mid_BJD_TDB" tdb_mid_times;;
                   data_field_assign (F := F) hdunum "int_end_BJD_TDB" tdb_end_times;;
                   mret false)
                  (λ e, match e with
                        | KeyError _ => Some (mret true)
                        | _ => None
                        end);
      fd_close;;
      (if missing : bool then
         log_at WARNING "One or more of the *BJD_TDB columns do not exist,";;
         log_at WARNING "so the INT_TIMES table was not updated."
       else mret ());;
      mret (PyArray tdb_start_times, PyArray tdb_mid_times,
            PyArray tdb_end_times)
  end.

End Module.

(** ** Vocabulary of the properties *)

(** The quantities the properties speak of: the Earth vectors in km, the
    light time of a vector, the cards and columns of the file as functions
    of the state, the extensions that carry a name, and the stages
    [utc_tdb] goes through. *)
Section Views.
Context {F : Type} {Sc : Scalar F} {Ex : Externals F}.
Implicit Types w : World F.
Local Open Scope scalar_scope.

(** Earth relative to the barycentre, in km. *)
Definition bary_earth_km (jpl : bool) (t : F) : vec3 F :=
  vdiv (get_body_barycentric jpl Earth t) (of_Z 1000).

(** Earth relative to the Sun, in km: [sun_earth = bary_earth - bary_sun],
    then the conversion from metres. *)
Definition sun_earth_km (jpl : bool) (t : F) : vec3 F :=
  vdiv (vsub (get_body_barycentric jpl Earth t)
             (get_body_barycentric jpl Sun t)) (of_Z 1000).

(** The correction in days for a projected distance in km. *)
Definition light_days (u v : vec3 F) : F :=
  dot u v / (c_value / of_Z 1000) / of_Z 86400.

(** Reading a numeric card of HDU [i], as a function of the state. *)
Definition read_card w (i : nat) (key : string) : result F :=
  match fd w !! i with
  | None => Err IndexError
  | Some h => match cards (header h) !! key with
              | Some v => Ok v
              | None => Err (KeyError key)
              end
  end.

(** Reading a column of the table of HDU [i]. *)
Definition read_column w (i : nat) (name : string) : result (list F) :=
  match fd w !! i with
  | None => Err IndexError
  | Some h =>
      match data h with
      | None => Err (AttributeError field_none_msg)
      | Some t => match columns t !! name with
                  | Some col => Ok col
                  | None => Err (KeyError name)
                  end
      end
  end.

(** Whether HDU [i] carries the extension name [name]. *)
Definition is_named (hdus : list (HDU F)) (name : string) (i : nat) : bool :=
  match hdus !! i with
  | Some h => bool_decide (EXTNAME (header h) = Some name)
  | None => false
  end.

(** The extension HDUs (index 1 onward) called [name], in file order. *)
Definition hdus_named (hdus : list (HDU F)) (name : string) : list nat :=
  List.filter (is_named hdus name) (seq 1 (length hdus - 1)).

(** The platform keywords of the primary header, as [get_jwst_keywords]
    reads them. *)
Definition keywords w : result (F * vec3 F * vec3 F) :=
  eph ← read_card w 0 "eph_time";
  eph_time ← to_tt (s := scalar) eph;
  x ← read_card w 0 "jwst_x";
  y ← read_card w 0 "jwst_y";
  z ← read_card w 0 "jwst_z";
  dx ← read_card w 0 "jwst_dx";
  dy ← read_card w 0 "jwst_dy";
  dz ← read_card w 0 "jwst_dz";
  mret (eph_time, (x, y, z), (dx, dy, dz)).

(** The three UTC columns of HDU [h], converted to TT. *)
Definition tt_columns w (h : nat) : result (list F * list F * list F) :=
  utc_start ← read_column w h "int_start_MJD_UTC";
  tt_start ← to_tt (s := array) utc_start;
  utc_mid ← read_column w h "int_mid_MJD_UTC";
  tt_mid ← to_tt (s := array) utc_mid;
  utc_end ← read_column w h "int_end_MJD_UTC";
  tt_end ← to_tt (s := array) utc_end;
  mret (tt_start, tt_mid, tt_end).

(** What is logged when the provider is chosen. *)
Definition provider_log : list (level * string) :=
  match timeconversion with
  | Some _ => [(DEBUG, "Using the timeconversion module.")]
  | None =>
      [(WARNING, "Couldn't import the timeconversion module;");
       (WARNING,
        "using astropy.coordinates, and JWST position and velocity keywords.")]
  end.

(** The barycentric times of one column in the fallback path. *)
Definition fallback_bary (targetcoord : F * F) (kw : F * vec3 F * vec3 F)
    (tt_times : list F) : result (list F) :=
  let '(eph_time, jwst_pos, jwst_vel) := kw in
  fst <$> compute_bary_helio_time2 targetcoord tt_times
            (linear_pos tt_times eph_time jwst_pos jwst_vel) false.

(** The three barycentric arrays, by whichever provider is active. *)
Definition provider w (targetcoord : F * F) (ts tm te : list F)
  : result (list F * list F * list F) :=
  match timeconversion with
  | Some compute_bary_helio_time =>
      s ← fst <$> compute_bary_helio_time targetcoord ts;
      m ← fst <$> compute_bary_helio_time targetcoord tm;
      e ← fst <$> compute_bary_helio_time targetcoord te;
      mret (s, m, e)
  | None =>
      kw ← keywords w;
      s ← fallback_bary targetcoord kw ts;
      m ← fallback_bary targetcoord kw tm;
      e ← fallback_bary targetcoord kw te;
      mret (s, m, e)
  end.

(** The guarded write-back block. *)
Definition write_back (hdunum : nat) (s m e : list F) : Py F bool :=
  try_except
    (data_field_assign hdunum "int_start_BJD_TDB" s;;
     data_field_assign hdunum "int_mid_BJD_TDB" m;;
     data_field_assign hdunum "int_end_BJD_TDB" e;;
     mret false)
    (λ ex, match ex with
           | KeyError _ => Some (mret true)
           | _ => None
           end).

Definition missing_log (missing : bool) : list (level * string) :=
  if missing then
    [(WARNING, "One or more of the *BJD_TDB columns do not exist,");
     (WARNING, "so the INT_TIMES table was not updated.")]
  else [].

Definition utc_tdb_staged (filename : string) w
  : result (pyval F * pyval F * pyval F) * World F :=
  let w1 := logged w [(INFO, "Processing file " +:+ filename)] in
  match read_card w 0 "targ_ra" with
  | inl ex => (inl ex, w1)
  | inr targ_ra =>
  match read_card w 0 "targ_dec" with
  | inl ex => (inl ex, w1)
  | inr targ_dec =>
  match find_hdu "int_times" w1 with
  | (inl (RuntimeError msg), w2) =>
      (inr sentinel, closed (logged w2 [(WARNING, msg)]))
  | (inl ex, w2) => (inl ex, w2)
  | (inr hdunum, w2) =>
  match tt_columns w2 hdunum with
  | inl ex => (inl ex, w2)
  | inr (ts, tm, te) =>
  let w3 := logged w2 provider_log in
  match provider w2 (targ_ra, targ_dec) ts tm te with
  | inl ex => (inl ex, w3)
  | inr (s, m, e) =>
  match write_back hdunum s m e w3 with
  | (inl ex, w4) => (inl ex, w4)
  | (inr missing, w4) =>
      (inr (PyArray s, PyArray m, PyArray e),
       logged (closed w4) (missing_log missing))
  end end end end end end.

(** The INT_TIMES table is absent, is a table with no row, or is present
    in more than one extension. *)
Definition table_missing (hdus : list (HDU F)) : Prop :=
  hdus_named hdus "INT_TIMES" = [] ∨
  (∃ i h, hdus_named hdus "INT_TIMES" = [i] ∧ hdus !! i = Some h ∧
          data h ≠ None ∧ nrows (table h) = 0) ∨
  2 ≤ length (hdus_named hdus "INT_TIMES").

(** Extension [i] is the only one named INT_TIMES, and it has no data:
    [fd[i].data] is [None]. *)
Definition table_without_data (hdus : list (HDU F)) (i : nat) (h : HDU F)
  : Prop :=
  hdus_named hdus "INT_TIMES" = [i] ∧ hdus !! i = Some h ∧ data h = None.

(** The INT_TIMES table is extension [i], the only one of that name, and
    it has rows. *)
Definition table_at (hdus : list (HDU F)) (i : nat) (h : HDU F) : Prop :=
  hdus_named hdus "INT_TIMES" = [i] ∧ hdus !! i = Some h ∧
  0 < nrows (table h).

Definition processing (filename : string) : level * string :=
  (INFO, "Processing file " +:+ filename).

(** The platform position [linear_pos] gives at time [t]. *)
Definition extrapolated (kw : F * vec3 F * vec3 F) (t : F) : vec3 F :=
  let '(eph_time, (px, py, pz), (vx, vy, vz)) := kw in
  let dt := fsub t eph_time in
  (fadd px (fmul dt vx), fadd py (fmul dt vy), fadd pz (fmul dt vz)).

(** The barycentric time the fallback path gives for the TT time [t]. *)
Definition corrected_bary (u : vec3 F) (kw : F * vec3 F * vec3 F) (t : F) : F :=
  fadd t (light_days u (vadd (bary_earth_km false t) (extrapolated kw t))).

(** [s] is the fallback path's answer for the UTC column [cs]: one entry
    per row, each the corrected TT time of that row. *)
Definition fallback_column (u : vec3 F) (kw : F * vec3 F * vec3 F)
    (cs s : list F) : Prop :=
  length s = length cs ∧
  ∀ j c, cs !! j = Some c →
    ∃ t, Time_utc_tt c = Ok t ∧ s !! j = Some (corrected_bary u kw t).

(** The keywords [get_jwst_keywords] reads, in the order it reads them,
    and the columns [utc_tdb] reads and writes. *)
Definition keyword_names : list string :=
  ["eph_time"; "jwst_x"; "jwst_y"; "jwst_z"; "jwst_dx"; "jwst_dy"; "jwst_dz"].

Definition tdb_names : list string :=
  ["int_start_BJD_TDB"; "int_mid_BJD_TDB"; "int_end_BJD_TDB"].

Definition utc_names : list string :=
  ["int_start_MJD_UTC"; "int_mid_MJD_UTC"; "int_end_MJD_UTC"].

(** [h'] is [h] but for the contents of its TDB columns: the header, the
    row count and every other column are those of [h], every column, the
    TDB ones included, is there or not and has as many entries as in [h],
    and [h'] has data exactly when [h] has. *)
Definition only_tdb_changed (h h' : HDU F) : Prop :=
  header h' = header h ∧ nrows (table h') = nrows (table h) ∧
  (∀ name, name ∉ tdb_names →
           columns (table h') !! name = columns (table h) !! name) ∧
  (∀ name, length <$> columns (table h') !! name =
           length <$> columns (table h) !! name) ∧
  (data h' = None ↔ data h = None).

(** The state [w'] is [w] but for the TDB columns of HDU [i]. *)
Definition wrote_tdb_only (i : nat) (w w' : World F) : Prop :=
  fd_closed w' = fd_closed w ∧ log w' = log w ∧
  length (fd w') = length (fd w) ∧
  (∀ j, j ≠ i → fd w' !! j = fd w !! j) ∧
  (∀ h, fd w !! i = Some h →
        ∃ h', fd w' !! i = Some h' ∧ only_tdb_changed h h').


(** Two HDUs that both have data or both have none, and whose tables have
    the same column names, each column with as many entries in the one as
    in the other. *)
Definition same_lengths (h h2 : HDU F) : Prop :=
  (data h = None ↔ data h2 = None) ∧
  ∀ name, length <$> columns (table h) !! name =
          length <$> columns (table h2) !! name.

(** [hdus2] is [hdus] but for the contents of TDB columns. *)
Definition same_but_tdb (hdus hdus2 : list (HDU F)) : Prop :=
  length hdus2 = length hdus ∧
  ∀ j h, hdus !! j = Some h →
         ∃ h2, hdus2 !! j = Some h2 ∧ only_tdb_changed h h2.

End Views.

(** ** astropy over the reals *)

(** astropy's [SkyCoord(ra, dec, distance=1, frame='icrs', unit='deg')] in
    real arithmetic: the latitude is validated ([Latitude] raises
    ValueError outside [-90, 90] degrees) and the spherical coordinates are
    represented as [(cos dec cos ra, cos dec sin ra, sin dec)]. *)
Definition deg (x : R) : R := (x * PI / 180)%R.

Definition latitude_msg : string :=
  "Latitude angle(s) must be within -90 deg <= angle <= 90 deg".

Definition SkyCoord_R (ra dec : R) : result (vec3 R) :=
  if Rlt_dec dec (-90) then Err (ValueError latitude_msg)
  else if Rlt_dec 90 dec then Err (ValueError latitude_msg)
  else Ok ((cos (deg dec) * cos (deg ra))%R,
           (cos (deg dec) * sin (deg ra))%R,
           sin (deg dec)).

(** The externals over the reals: [SkyCoord_R], and any time conversion,
    ephemeris and [timeconversion] module. *)
Definition astropy_R (time : R → result R) (ephemeris : bool → body → R → vec3 R)
    (tc : option (R * R → list R → result (list R * list R)))
  : Externals R :=
  {| Time_utc_tt := time;
     SkyCoord_cartesian := SkyCoord_R;
     get_body_barycentric := ephemeris;
     timeconversion := tc |}.

(** The fallback path over the reals: no [timeconversion] module. *)
Definition fallback_R (time : R → result R)
    (ephemeris : bool → body → R → vec3 R) : Externals R :=
  astropy_R time ephemeris None.

(** ** astropy's time conversion *)

(** What [Time(utc, format="mjd", scale="utc").tt.value] raises: ValueError
    for a value that is not finite, and ErfaError for a date outside the
    calendar range. *)
Definition mjd_msg : string :=
  "Input values did not match the format class mjd".

Definition erfa_msg : string := "unacceptable date".

(** ** A sample file in binary64 *)

(** A file and stand-ins for the libraries on which the model runs as the
    Python code does: UTC to TT as astropy converts it outside the years
    1960 to 2016, the target direction sampled at (ra, dec) = (0, 0)
    behind astropy's latitude check, a constant pair of Earth and Sun
    positions in metres, and no [timeconversion] module. *)
Module Binary64.
Import PrimFloat.
Local Open Scope float_scope.
Set Warnings "-inexact-float".

(** astropy's [Time(utc, format="mjd", scale="utc").tt.value] where its
    outcome is known: a value that is not finite is refused (ValueError);
    a date whose Julian Date is outside the calendar range of ERFA,
    [-68569.5, 1e9], is unacceptable (ErfaError); before 1960 (MJD 36934)
    TT is UTC + 32.184 s; from 2017 (MJD 57754) on TT is
    UTC + 69.184 s, 32.184 s and 37 leap seconds.  From 1960 to 2016 the
    drift rates and the leap-second table apply: that stretch is
    [middle]. *)
(** Whether the Julian Date of the MJD [utc] is in the calendar range. *)
Definition in_calendar (utc : float) : bool :=
  negb ((utc + 2400000.5 <? -68569.5) || (1000000000 <? utc + 2400000.5)).

Definition utc_tt_astropy (middle : float → result float) (utc : float)
  : result float :=
  if negb (is_finite utc) then Err (ValueError mjd_msg)
  else if negb (in_calendar utc) then Err (ErfaError erfa_msg)
  else if utc <? 36934 then Ok (utc + 32184 / 1000 / 86400)
  else if 57754 <=? utc then Ok (utc + 69184 / 1000 / 86400)
  else middle utc.

(** The sample leaves the stretch from 1960 to 2016 out. *)
Definition outside_sample (utc : float) : result float :=
  Err (ValueError "time outside the sample").

Definition utc_tt_sample : float → result float :=
  utc_tt_astropy outside_sample.

Definition sky_sample (ra dec : float) : result (vec3 float) :=
  if (dec <? -90) || (90 <? dec) then Err (ValueError latitude_msg)
  else if (ra =? 0) && (dec =? 0) then Ok (1, 0, 0)
  else Err (ValueError "direction outside the sample").

Definition ephemeris_sample (jpl : bool) (b : body) (t : float) : vec3 float :=
  match b with
  | Earth => (-26000000000, 132000000000, 57000000000)
  | Sun => (-1000000000, 500000000, 200000000)
  end.

(** The libraries of the sample, whatever the conversion does from 1960
    to 2016. *)
Definition astropy_sample (middle : float → result float) : Externals float :=
  {| Time_utc_tt := utc_tt_astropy middle;
     SkyCoord_cartesian := sky_sample;
     get_body_barycentric := ephemeris_sample;
     timeconversion := None |}.

#[export] Instance fallback_sample : Externals float :=
  astropy_sample outside_sample.

Definition primary : HDU float :=
  {| header := {| EXTNAME := None;
                  cards := list_to_map
                    [("targ_ra", 0); ("targ_dec", 0); ("eph_time", 59000);
                     ("jwst_x", 1000000); ("jwst_y", 0); ("jwst_z", 0);
                     ("jwst_dx", 0.5); ("jwst_dy", 0); ("jwst_dz", 0)] |};
     data := None |}.

(** An INT_TIMES extension of two rows with the TDB columns named in
    [tdb], zero-filled. *)
Definition int_times (tdb : list string) : HDU float :=
  {| header := {| EXTNAME := Some "INT_TIMES"; cards := ∅ |};
     data := Some {| nrows := 2;
                     columns := list_to_map
                       ([("int_start_MJD_UTC", [59000; 59001]);
                         ("int_mid_MJD_UTC", [59000.25; 59001.25]);
                         ("int_end_MJD_UTC", [59000.5; 59001.5])]
                        ++ ((λ name, (name, [0; 0])) <$> tdb)) |} |}.

Definition opened (hdus : list (HDU float)) : World float :=
  {| fd := hdus; fd_closed := false; log := [] |}.

(** An extension named INT_TIMES that has no data. *)
Definition without_data : HDU float :=
  {| header := {| EXTNAME := Some "INT_TIMES"; cards := ∅ |};
     data := None |}.

(** A primary HDU with no card at all. *)
Definition bare : HDU float :=
  {| header := {| EXTNAME := None; cards := ∅ |};
     data := None |}.

(** The sample primary HDU without the card [key], and an HDU without
    the column [name]. *)
Definition without_card (key : string) : HDU float :=
  {| header := {| EXTNAME := None;
                  cards := delete key (cards (header primary)) |};
     data := data primary |}.

Definition without_column (name : string) (h : HDU float) : HDU float :=
  {| header := header h;
     data := Some {| nrows := nrows (table h);
                     columns := delete name (columns (table h)) |} |}.

(** Libraries that differ from [fallback_sample] in the JPL ephemeris
    only. *)
Definition ephemeris_jpl (jpl : bool) (b : body) (t : float) : vec3 float :=
  if jpl then (0, 0, 0) else ephemeris_sample jpl b t.

Definition fallback_jpl_sample : Externals float :=
  {| Time_utc_tt := utc_tt_sample;
     SkyCoord_cartesian := sky_sample;
     get_body_barycentric := ephemeris_jpl;
     timeconversion := None |}.

(** The TT times of the sample table and the barycentric times the
    fallback path computes for them. *)
Definition tt_start : list float := [59000.000800740738; 59001.000800740738].

Definition tt_mid : list float := [59000.250800740738; 59001.250800740738].

Definition tt_end : list float := [59000.500800740738; 59001.500800740738].

Definition tdb_start : list float := [58999.99983556685; 59000.999835566872].

Definition tdb_mid : list float := [59000.249835566858; 59001.249835566872].

Definition tdb_end : list float := [59000.499835566858; 59001.499835566879].

End Binary64.

(** ** A sample file over the reals *)

Module RealSample.
Local Open Scope R_scope.

(** astropy's UTC to TT over the reals, where its outcome is known: a
    date outside the calendar range is unacceptable, before 1960 TT is
    UTC + 32.184 s, from 2017 on TT is UTC + 69.184 s, and the stretch
    from 1960 to 2016 is left out of the sample. *)
Definition utc_tt_sample (utc : R) : result R :=
  if Rlt_dec (utc + 2400000.5) (-68569.5) then Err (ErfaError erfa_msg)
  else if Rlt_dec 1000000000 (utc + 2400000.5) then Err (ErfaError erfa_msg)
  else if Rlt_dec utc 36934 then Ok (utc + 32.184 / 86400)
  else if Rle_dec 57754 utc then Ok (utc + 69.184 / 86400)
  else Err (ValueError "time outside the sample").

Definition ephemeris_sample (jpl : bool) (b : body) (t : R) : vec3 R :=
  match b with
  | Earth => (-26000000000, 132000000000, 57000000000)
  | Sun => (-1000000000, 500000000, 200000000)
  end.

#[export] Instance fallback_sample : Externals R :=
  fallback_R utc_tt_sample ephemeris_sample.

(** A primary header whose target declination is [dec]. *)
Definition primary (dec : R) : HDU R :=
  {| header := {| EXTNAME := None;
                  cards := list_to_map
                    [("targ_ra", 0); ("targ_dec", dec); ("eph_time", 59000);
                     ("jwst_x", 1000000); ("jwst_y", 0); ("jwst_z", 0);
                     ("jwst_dx", 0.5); ("jwst_dy", 0); ("jwst_dz", 0)] |};
     data := None |}.

Definition int_times : HDU R :=
  {| header := {| EXTNAME := Some "INT_TIMES"; cards := ∅ |};
     data := Some {| nrows := 1;
                     columns := list_to_map
                       [("int_start_MJD_UTC", [59000]);
                        ("int_mid_MJD_UTC", [59000.25]);
                        ("int_end_MJD_UTC", [59000.5])] |} |}.

Definition opened (hdus : list (HDU R)) : World R :=
  {| fd := hdus; fd_closed := false; log := [] |}.

(** The direction of (ra, dec) = (0, 0), as the resolver returns it. *)
Definition origin : vec3 R :=
  let v := (cos (deg 0) * cos (deg 0), cos (deg 0) * sin (deg 0), sin (deg 0)) in
  vdiv v (sqrt (dot v v)).

End RealSample.

Ltac solve_length :=
  repeat first [rewrite length_fmap | rewrite length_zip_with]; lia.

(** * Properties *)

(** ** Results and broadcasting *)

Lemma broadcast_same_length {A B C} (f : A → B → C) xs ys :
  length xs = length ys → broadcast f xs ys = Ok (zip_with f xs ys).
Proof. intros Hlen. unfold broadcast. by rewrite decide_True. Qed.

Lemma bcast_lookup {A} (l : list A) i x : l !! i = Some x → bcast l i = Some x.
Proof.
  destruct l as [|a [|b l]]; [done| |done].
  destruct i as [|i]; simpl; [done|]. by rewrite lookup_nil.
Qed.

Lemma bcast_several {A} (l : list A) i : length l ≠ 1 → bcast l i = l !! i.
Proof. by destruct l as [|a [|b l]]. Qed.

Lemma bcast_fmap {A B} (f : A → B) (l : list A) i :
  bcast (f <$> l) i = f <$> bcast l i.
Proof.
  destruct l as [|a [|b l]]; [done|done|]. apply (list_lookup_fmap f (a :: b :: l)).
Qed.

(** Each element of a broadcast result combines the elements its operands
    have at that index. *)
Lemma broadcast_lookup {A B C} (f : A → B → C) xs ys zs i z :
  broadcast f xs ys = Ok zs → zs !! i = Some z →
  ∃ x y, bcast xs i = Some x ∧ bcast ys i = Some y ∧ z = f x y.
Proof.
  unfold broadcast. destruct (decide (length xs = length ys)) as [Hlen|Hlen].
  - intros [= <-]. rewrite lookup_zip_with.
    destruct (xs !! i) as [x|] eqn:Hx; [|done].
    destruct (ys !! i) as [y|] eqn:Hy; [|done].
    intros [= <-]. exists x, y.
    by rewrite (bcast_lookup xs i x), (bcast_lookup ys i y).
  - destruct xs as [|x [|x' xs]].
    + destruct ys as [|y [|y' ys]]; [done| |done].
      intros [= <-]. by rewrite lookup_nil.
    + intros [= <-]. rewrite list_lookup_fmap.
      destruct (ys !! i) as [y|] eqn:Hy; [|done].
      intros [= <-]. exists x, y. split; [done|].
      split; [by apply bcast_lookup|done].
    + destruct ys as [|y [|y' ys]]; [done| |done].
      intros Hzs Hz. set (l := x :: x' :: xs) in *.
      assert (zs = (λ a, f a y) <$> l) as -> by (by injection Hzs).
      rewrite list_lookup_fmap in Hz.
      destruct (l !! i) as [a|] eqn:Ha; [|done].
      injection Hz as <-. exists a, y. by rewrite bcast_several.
Qed.

Lemma mapM_result_length {A B} (f : A → result B) (l : list A) (k : list B) :
  mapM f l = Ok k → length k = length l.
Proof.
  revert k. induction l as [|x l IH]; intros k; simpl.
  - by intros [= <-].
  - destruct (f x) as [e|y]; simpl; [done|].
    destruct (mapM f l) as [e|k']; simpl; [done|].
    intros [= <-]. simpl. f_equal. by apply IH.
Qed.

Lemma mapM_result_lookup {A B} (f : A → result B) (l : list A) (k : list B) i x :
  mapM f l = Ok k → l !! i = Some x → ∃ y, f x = Ok y ∧ k !! i = Some y.
Proof.
  revert k i. induction l as [|a l IH]; intros k i; simpl; [done|].
  destruct (f a) as [e|y] eqn:Hfa; simpl; [done|].
  destruct (mapM f l) as [e|k'] eqn:Hl; simpl; [done|].
  intros [= <-]. destruct i as [|i]; simpl.
  - intros [= <-]. eauto.
  - intros Hi. by apply IH.
Qed.

Lemma mapM_result_total {A B} (f : A → result B) (g : A → B) (l : list A) :
  (∀ x, x ∈ l → f x = Ok (g x)) → mapM f l = Ok (g <$> l).
Proof.
  induction l as [|a l IH]; intros Hf; simpl; [done|].
  rewrite (Hf a) by constructor. simpl.
  rewrite IH; [done|]. intros x Hx. apply Hf. by constructor.
Qed.

Lemma fmap_zip_with_same {A B C D} (f g : A → B) (h : B → B → C) (k : C → D)
    (l : list A) :
  k <$> zip_with h (f <$> l) (g <$> l) = (λ x, k (h (f x) (g x))) <$> l.
Proof. induction l as [|x l IH]; simpl; [done|]. by f_equal. Qed.

(** ** The fallback position provider *)

Section Positions.
Context {F : Type} {Sc : Scalar F} {Ex : Externals F}.

Lemma get_jwst_position2_rows times jwstpos jpl :
  length jwstpos = length times →
  get_jwst_position2 times jwstpos jpl =
    Ok (zip_with vadd (bary_earth_km jpl <$> times) jwstpos,
        zip_with vadd (sun_earth_km jpl <$> times) jwstpos).
Proof.
  intros Hlen. unfold get_jwst_position2.
  rewrite !broadcast_same_length by solve_length.
  simpl. unfold Ok. do 2 f_equal.
  - by rewrite <- list_fmap_compose.
  - f_equal. apply fmap_zip_with_same.
Qed.

(** Whatever the shapes, a returned row combines the time and the platform
    position that broadcasting puts at that row. *)
Lemma get_jwst_position2_broadcast times jwstpos jpl bary helio i :
  get_jwst_position2 times jwstpos jpl = Ok (bary, helio) →
  (∀ b, bary !! i = Some b →
     ∃ t p, bcast times i = Some t ∧ bcast jwstpos i = Some p ∧
            b = vadd (bary_earth_km jpl t) p) ∧
  (∀ h, helio !! i = Some h →
     ∃ t p, bcast times i = Some t ∧ bcast jwstpos i = Some p ∧
            h = vadd (sun_earth_km jpl t) p).
Proof.
  unfold get_jwst_position2. cbv zeta.
  rewrite <- list_fmap_compose, fmap_zip_with_same.
  set (be := (_ ∘ _) <$> times). set (se := _ <$> times).
  destruct (broadcast vadd be jwstpos) as [e|b0] eqn:Hb; simpl; [done|].
  destruct (broadcast vadd se jwstpos) as [e|h0] eqn:Hh; simpl; [done|].
  unfold mret, result_ret, Ok. intros [= <- <-]. split.
  - intros b Hi.
    destruct (broadcast_lookup _ _ _ _ _ _ Hb Hi) as (x & p & Hx & Hp & ->).
    unfold be in Hx. rewrite bcast_fmap in Hx.
    destruct (bcast times i) as [t|]; [|done].
    injection Hx as <-. by exists t, p.
  - intros h Hi.
    destruct (broadcast_lookup _ _ _ _ _ _ Hh Hi) as (x & p & Hx & Hp & ->).
    unfold se in Hx. rewrite bcast_fmap in Hx.
    destruct (bcast times i) as [t|]; [|done].
    injection Hx as <-. by exists t, p.
Qed.

(** C4: the fallback provider keeps its two channels apart.  With one
    platform position per time it returns, row by row, the
    barycentre-to-Earth vector plus the platform position and the
    Sun-to-Earth vector plus the platform position; the Earth and Sun
    vectors are the ephemeris vectors divided by 1000, the Sun-to-Earth
    vector is their difference, and the Sun's ephemeris enters the
    heliocentric rows only.  For arrays of any lengths, every row of a
    returned pair has that form at the time and position broadcasting puts
    there. *)
Theorem get_jwst_position2_channels times jwstpos jpl :
  (length jwstpos = length times →
   ∃ bary helio,
     get_jwst_position2 times jwstpos jpl = Ok (bary, helio) ∧
     length bary = length times ∧ length helio = length times ∧
     ∀ i t p, times !! i = Some t → jwstpos !! i = Some p →
       bary !! i =
         Some (vadd (vdiv (get_body_barycentric jpl Earth t) (of_Z 1000)) p) ∧
       helio !! i =
         Some (vadd (vdiv (vsub (get_body_barycentric jpl Earth t)
                                (get_body_barycentric jpl Sun t))
                          (of_Z 1000)) p)) ∧
  (∀ bary helio i,
     get_jwst_position2 times jwstpos jpl = Ok (bary, helio) →
     (∀ b, bary !! i = Some b →
        ∃ t p, bcast times i = Some t ∧ bcast jwstpos i = Some p ∧
          b = vadd (vdiv (get_body_barycentric jpl Earth t) (of_Z 1000)) p) ∧
     (∀ h, helio !! i = Some h →
        ∃ t p, bcast times i = Some t ∧ bcast jwstpos i = Some p ∧
          h = vadd (vdiv (vsub (get_body_barycentric jpl Earth t)
                               (get_body_barycentric jpl Sun t))
                         (of_Z 1000)) p)).
Proof.
  split.
  - intros Hlen. eexists _, _. split; [by apply get_jwst_position2_rows|].
    rewrite !length_zip_with, !length_fmap, Hlen, Nat.min_id.
    repeat split; try done.
    all: rewrite lookup_zip_with, list_lookup_fmap; by simplify_option_eq.
  - intros bary helio i. apply get_jwst_position2_broadcast.
Qed.

End Positions.

(** ** The light-time correction *)

Section LightTime.
Context {F : Type} {Sc : Scalar F} {Ex : Externals F}.
Local Open Scope scalar_scope.

Lemma compute_bary_helio_time2_rows targetcoord times jwstpos jpl u :
  get_target_vector2 targetcoord = Ok u →
  length jwstpos = length times →
  compute_bary_helio_time2 targetcoord times jwstpos jpl =
    Ok (zip_with fadd times
          (light_days u <$> zip_with vadd (bary_earth_km jpl <$> times) jwstpos),
        zip_with fadd times
          (light_days u <$> zip_with vadd (sun_earth_km jpl <$> times) jwstpos)).
Proof.
  intros Hu Hlen. unfold compute_bary_helio_time2.
  rewrite Hu, get_jwst_position2_rows by done. simpl.
  rewrite !broadcast_same_length by solve_length. simpl.
  by rewrite <- !list_fmap_compose.
Qed.

(** Whatever the shapes, a returned time is the time broadcasting puts at
    that row plus the correction for the platform vector of that row. *)
Lemma compute_bary_helio_time2_broadcast targetcoord times jwstpos jpl bary helio :
  compute_bary_helio_time2 targetcoord times jwstpos jpl = Ok (bary, helio) →
  ∃ u bv hv,
    get_target_vector2 targetcoord = Ok u ∧
    get_jwst_position2 times jwstpos jpl = Ok (bv, hv) ∧
    ∀ i,
      (∀ tb, bary !! i = Some tb →
         ∃ t vb, bcast times i = Some t ∧ bcast bv i = Some vb ∧
                 tb = t + light_days u vb) ∧
      (∀ th, helio !! i = Some th →
         ∃ t vh, bcast times i = Some t ∧ bcast hv i = Some vh ∧
                 th = t + light_days u vh).
Proof.
  unfold compute_bary_helio_time2.
  destruct (get_target_vector2 targetcoord) as [e|u]; simpl; [done|].
  destruct (get_jwst_position2 times jwstpos jpl) as [e|[bv hv]]; simpl; [done|].
  rewrite <- !list_fmap_compose.
  set (cb := _ <$> bv). set (ch := _ <$> hv).
  destruct (broadcast fadd times cb) as [e|b0] eqn:Hb; simpl; [done|].
  destruct (broadcast fadd times ch) as [e|h0] eqn:Hh; simpl; [done|].
  unfold mret, result_ret, Ok. intros [= <- <-].
  exists u, bv, hv. do 2 (split; [done|]). intros i. split.
  - intros tb Hi.
    destruct (broadcast_lookup _ _ _ _ _ _ Hb Hi) as (t & d & Ht & Hd & ->).
    unfold cb in Hd. rewrite bcast_fmap in Hd.
    destruct (bcast bv i) as [vb|]; [|done].
    injection Hd as <-. by exists t, vb.
  - intros th Hi.
    destruct (broadcast_lookup _ _ _ _ _ _ Hh Hi) as (t & d & Ht & Hd & ->).
    unfold ch in Hd. rewrite bcast_fmap in Hd.
    destruct (bcast hv i) as [vh|]; [|done].
    injection Hd as <-. by exists t, vh.
Qed.

Lemma compute_bary_helio_time2_length targetcoord times jwstpos jpl b h :
  length jwstpos = length times →
  compute_bary_helio_time2 targetcoord times jwstpos jpl = Ok (b, h) →
  length b = length times ∧ length h = length times.
Proof.
  intros Hlen. destruct (get_target_vector2 targetcoord) as [e|u] eqn:Hu.
  - unfold compute_bary_helio_time2. by rewrite Hu.
  - rewrite (compute_bary_helio_time2_rows _ _ _ _ u) by done.
    intros [= <- <-]. split; solve_length.
Qed.

Lemma linear_pos_length tt_times eph_time jwst_pos jwst_vel :
  length (linear_pos tt_times eph_time jwst_pos jwst_vel) = length tt_times.
Proof.
  destruct jwst_pos as [[px py] pz], jwst_vel as [[vx vy] vz].
  unfold linear_pos. by rewrite length_fmap.
Qed.

End LightTime.

(** ** Real arithmetic *)

Section RealArithmetic.
Context {Ex : Externals R}.
Local Open Scope R_scope.

Lemma light_days_R (u v : vec3 R) :
  light_days u v = dot u v / 299792.458 / 86400.
Proof.
  unfold light_days, c_value. simpl.
  replace (299792458 / 1000) with 299792.458 by lra. reflexivity.
Qed.

(** C1, in real arithmetic.  With one platform position per time and a
    resolved target direction [u], both outputs of the fallback corrector
    exist, are parallel to the input times, and each corrected time is the
    input time plus [dot u v / c / 86400] days, [c = 299792.458] km/s,
    where [v] is the barycentric (respectively heliocentric) platform
    vector of that row; the corrected time minus the input time is that
    correction exactly.  For arrays of any lengths, every time of a
    returned pair has that form at the time and platform vector
    broadcasting puts there. *)
Theorem compute_bary_helio_time2_light_time
    (targetcoord : R * R) (times : list R) (jwstpos : list (vec3 R))
    (jpl : bool) :
  (∀ u, get_target_vector2 targetcoord = Ok u →
   length jwstpos = length times →
   ∃ bv hv bary helio,
     get_jwst_position2 times jwstpos jpl = Ok (bv, hv) ∧
     compute_bary_helio_time2 targetcoord times jwstpos jpl = Ok (bary, helio) ∧
     length bary = length times ∧ length helio = length times ∧
     ∀ i t, times !! i = Some t →
       ∃ vb vh tb th,
         bv !! i = Some vb ∧ hv !! i = Some vh ∧
         bary !! i = Some tb ∧ helio !! i = Some th ∧
         tb = t + dot u vb / 299792.458 / 86400 ∧
         th = t + dot u vh / 299792.458 / 86400 ∧
         tb - t = dot u vb / 299792.458 / 86400 ∧
         th - t = dot u vh / 299792.458 / 86400) ∧
  (∀ bary helio,
     compute_bary_helio_time2 targetcoord times jwstpos jpl = Ok (bary, helio) →
     ∃ u bv hv,
       get_target_vector2 targetcoord = Ok u ∧
       get_jwst_position2 times jwstpos jpl = Ok (bv, hv) ∧
       ∀ i,
         (∀ tb, bary !! i = Some tb →
            ∃ t vb, bcast times i = Some t ∧ bcast bv i = Some vb ∧
              tb = t + dot u vb / 299792.458 / 86400 ∧
              tb - t = dot u vb / 299792.458 / 86400) ∧
         (∀ th, helio !! i = Some th →
            ∃ t vh, bcast times i = Some t ∧ bcast hv i = Some vh ∧
              th = t + dot u vh / 299792.458 / 86400 ∧
              th - t = dot u vh / 299792.458 / 86400)).
Proof.
  split.
  - intros u Hu Hlen. eexists _, _, _, _.
    split; [by apply get_jwst_position2_rows|].
    split; [by apply compute_bary_helio_time2_rows|].
    split; [solve_length|]. split; [solve_length|].
    intros i t Ht.
    destruct (lookup_lt_is_Some_2 jwstpos i) as [p Hp].
    { rewrite Hlen. by eapply lookup_lt_Some. }
    eexists _, _, _, _.
    split; [rewrite lookup_zip_with, list_lookup_fmap, Ht, Hp; reflexivity|].
    split; [rewrite lookup_zip_with, list_lookup_fmap, Ht, Hp; reflexivity|].
    split.
    { rewrite lookup_zip_with, Ht, list_lookup_fmap, lookup_zip_with,
        list_lookup_fmap, Ht, Hp. reflexivity. }
    split.
    { rewrite lookup_zip_with, Ht, list_lookup_fmap, lookup_zip_with,
        list_lookup_fmap, Ht, Hp. reflexivity. }
    rewrite !light_days_R. simpl.
    repeat split; try reflexivity; lra.
  - intros bary helio Hrun.
    destruct (compute_bary_helio_time2_broadcast _ _ _ _ _ _ Hrun)
      as (u & bv & hv & Hu & Hpos & Hrows).
    exists u, bv, hv. do 2 (split; [done|]). intros i.
    destruct (Hrows i) as [Hb Hh]. split.
    + intros tb Hi. destruct (Hb tb Hi) as (t & vb & Ht & Hvb & ->).
      exists t, vb. rewrite light_days_R. simpl.
      repeat split; try done; lra.
    + intros th Hi. destruct (Hh th Hi) as (t & vh & Ht & Hvh & ->).
      exists t, vh. rewrite light_days_R. simpl.
      repeat split; try done; lra.
Qed.

(** The extrapolated row at each time, in real arithmetic. *)
Lemma linear_pos_lookup tt_times eph_time (p v : vec3 R) i t :
  tt_times !! i = Some t →
  linear_pos tt_times eph_time p v !! i =
    Some (p.1.1 + (t - eph_time) * v.1.1,
          p.1.2 + (t - eph_time) * v.1.2,
          p.2 + (t - eph_time) * v.2).
Proof.
  intros Ht. destruct p as [[px py] pz], v as [[vx vy] vz].
  unfold linear_pos. by rewrite list_lookup_fmap, Ht.
Qed.

Lemma linear_pos_epoch eph_time (p v : vec3 R) :
  linear_pos [eph_time] eph_time p v = [p].
Proof.
  destruct p as [[px py] pz], v as [[vx vy] vz]. simpl.
  do 2 f_equal; [f_equal|]; lra.
Qed.

Lemma linear_pos_next_day eph_time (p v : vec3 R) :
  linear_pos [eph_time + 1] eph_time p v = [vadd p v].
Proof.
  destruct p as [[px py] pz], v as [[vx vy] vz]. simpl.
  do 2 f_equal; [f_equal|]; lra.
Qed.

(** C2: at the epoch the extrapolated position is the reference
    position, but one day after the epoch [linear_pos] returns the
    position plus the velocity taken once: the day difference is
    multiplied by the km/s velocity as it is, with no factor 86400.  For
    the state with epoch 59000, position (1000000, 0, 0) km and velocity
    (1, 0, 0) km/s it returns (1000001, 0, 0) at MJD 59001, where
    position + velocity * 86400 is (1086400, 0, 0). *)
Theorem linear_pos_day_not_seconds :
  (∀ eph_time (p v : vec3 R), linear_pos [eph_time] eph_time p v = [p]) ∧
  (∀ eph_time (p v : vec3 R),
     linear_pos [eph_time + 1] eph_time p v = [vadd p v]) ∧
  linear_pos [59001] 59000 (1000000, 0, 0) (1, 0, 0) = [(1000001, 0, 0)] ∧
  linear_pos [59001] 59000 (1000000, 0, 0) (1, 0, 0)
    ≠ [(1000000 + 1 * 86400, 0 + 0 * 86400, 0 + 0 * 86400)] ∧
  Rabs (1000001 - (1000000 + 1 * 86400)) > 1e-9.
Proof.
  split; [apply linear_pos_epoch|]. split; [apply linear_pos_next_day|].
  assert (Hrun : linear_pos [59001] 59000 (1000000, 0, 0) (1, 0, 0)
                 = [(1000001, 0, 0)]).
  { simpl. do 2 f_equal; [f_equal|]; lra. }
  split; [exact Hrun|]. split.
  - rewrite Hrun. intros [= Hx _ _]. lra.
  - unfold Rabs. destruct (Rcase_abs _); lra.
Qed.

End RealArithmetic.

(** ** The target direction *)

Section TargetDirection.
Local Open Scope R_scope.

Lemma SkyCoord_R_in_range ra dec :
  -90 <= dec <= 90 →
  SkyCoord_R ra dec =
    Ok (cos (deg dec) * cos (deg ra), cos (deg dec) * sin (deg ra),
        sin (deg dec)).
Proof.
  intros [Hlo Hhi]. unfold SkyCoord_R.
  destruct (Rlt_dec dec (-90)); [lra|]. destruct (Rlt_dec 90 dec); [lra|].
  reflexivity.
Qed.

Lemma SkyCoord_R_out_of_range ra dec :
  dec < -90 ∨ 90 < dec → SkyCoord_R ra dec = Err (ValueError latitude_msg).
Proof.
  intros Hdec. unfold SkyCoord_R.
  destruct (Rlt_dec dec (-90)); [done|]. destruct (Rlt_dec 90 dec); [done|].
  lra.
Qed.

Lemma spherical_dot a b :
  dot (cos b * cos a, cos b * sin a, sin b)
      (cos b * cos a, cos b * sin a, sin b) = 1.
Proof.
  simpl. pose proof (sin2_cos2 a) as Ha. pose proof (sin2_cos2 b) as Hb.
  unfold Rsqr in Ha, Hb. nra.
Qed.

(** Dividing a vector by its own length gives a vector of length one. *)
Lemma normalise_unit (v : vec3 R) :
  0 < dot v v → norm (vdiv v (fsqrt (dot v v))) = 1.
Proof.
  intros Hpos. destruct v as [[x y] z]. unfold norm. simpl in *.
  set (s := x * x + y * y + z * z) in *.
  assert (Hs : sqrt s * sqrt s = s) by (apply sqrt_sqrt; lra).
  assert (Hn : 0 < sqrt s) by (by apply sqrt_lt_R0).
  replace (x / sqrt s * (x / sqrt s) + y / sqrt s * (y / sqrt s)
           + z / sqrt s * (z / sqrt s)) with (s / (sqrt s * sqrt s)).
  - rewrite Hs. replace (s / s) with 1 by (field; lra). apply sqrt_1.
  - unfold s in *. field. lra.
Qed.

(** C6: for a right ascension in [0, 360) and a declination in
    [-90, 90], the target direction resolver returns a vector, and its
    Euclidean norm is 1 in real arithmetic, hence within 1e-12 of 1. *)
Theorem get_target_vector2_unit time ephemeris tc (ra dec : R) :
  0 <= ra < 360 → -90 <= dec <= 90 →
  ∃ v, get_target_vector2 (Ex := astropy_R time ephemeris tc) (ra, dec) = Ok v ∧
       norm v = 1 ∧ Rabs (norm v - 1) <= 1e-12.
Proof.
  intros _ Hdec.
  set (V := (cos (deg dec) * cos (deg ra), cos (deg dec) * sin (deg ra),
             sin (deg dec)) : vec3 R).
  assert (Hn : norm (vdiv V (fsqrt (dot V V))) = 1).
  { apply normalise_unit. unfold V. rewrite spherical_dot. lra. }
  exists (vdiv V (fsqrt (dot V V))). split.
  { unfold get_target_vector2. simpl.
    rewrite SkyCoord_R_in_range by done. reflexivity. }
  split; [exact Hn|]. rewrite Hn.
  replace (1 - 1) with 0 by lra. rewrite Rabs_R0. lra.
Qed.

End TargetDirection.

(** ** Running the interpreter *)

Section Running.
Context {F : Type}.
Implicit Types w : World F.

Lemma Py_bind_run {A B} (m : Py F A) (f : A → Py F B) w :
  (m ≫= f) w = match m w with
               | (inl e, w') => (inl e, w')
               | (inr x, w') => f x w'
               end.
Proof. reflexivity. Qed.

Lemma Py_fmap_run {A B} (f : A → B) (m : Py F A) w :
  (f <$> m) w = match m w with
                | (inl e, w') => (inl e, w')
                | (inr x, w') => (inr (f x), w')
                end.
Proof. reflexivity. Qed.

Lemma logged_logged w a b : logged (logged w a) b = logged w (a ++ b).
Proof. unfold logged. simpl. by rewrite app_assoc. Qed.

Lemma logged_nil w : logged w [] = w.
Proof. destruct w. unfold logged. simpl. by rewrite app_nil_r. Qed.

Lemma header_get_run i key w : header_get i key w = (read_card w i key, w).
Proof.
  unfold header_get, read_card. rewrite Py_bind_run. unfold fd_get.
  destruct (fd w !! i) as [h|]; [|done].
  by destruct (cards (header h) !! key).
Qed.

Lemma data_field_run i name w :
  data_field i name w = (read_column w i name, w).
Proof.
  unfold data_field, read_column. rewrite Py_bind_run. unfold fd_get.
  destruct (fd w !! i) as [h|]; [|done].
  destruct (data h) as [t|]; [|done].
  by destruct (columns t !! name).
Qed.

Lemma table_data (h : HDU F) t : data h = Some t → table h = t.
Proof. unfold table. by intros ->. Qed.

Lemma data_of_rows (h : HDU F) : 0 < nrows (table h) → data h ≠ None.
Proof. unfold table. destruct (data h); [done|]. simpl. lia. Qed.

Lemma data_of_column (h : HDU F) name col :
  columns (table h) !! name = Some col → data h ≠ None.
Proof. unfold table. by destruct (data h). Qed.

(** Reading a column of an HDU that has data. *)
Lemma read_column_table w i name h :
  fd w !! i = Some h → data h ≠ None →
  read_column w i name =
    match columns (table h) !! name with
    | Some col => Ok col
    | None => Err (KeyError name)
    end.
Proof.
  intros Hh Hd. unfold read_column, table. rewrite Hh.
  by destruct (data h).
Qed.

End Running.

(** ** Locating the table *)

Section FindHdu.
Context {F : Type}.
Implicit Types w : World F.

Lemma find_hdu_loop_run name range hdunum w :
  (∀ i, i ∈ range → i < length (fd w)) →
  find_hdu_loop name range hdunum w =
    match hdunum, List.filter (is_named (fd w) name) range with
    | _, [] => (inr hdunum, w)
    | None, [i] => (inr (Some i), w)
    | _, _ => (inl (RuntimeError (two_hdus_msg name)), closed w)
    end.
Proof.
  revert hdunum. induction range as [|i range IH]; intros hdunum Hlt.
  { simpl. by destruct hdunum. }
  destruct (lookup_lt_is_Some_2 (fd w) i) as [h Hh].
  { apply Hlt. by constructor. }
  assert (Hi : is_named (fd w) name i
               = bool_decide (EXTNAME (header h) = Some name)).
  { unfold is_named. by rewrite Hh. }
  assert (Hrest : ∀ j, j ∈ range → j < length (fd w)).
  { intros j Hj. apply Hlt. by constructor. }
  simpl. rewrite Py_bind_run, Hi. unfold fd_get. rewrite Hh.
  destruct (decide (EXTNAME (header h) = Some name)) as [Hn|Hn].
  - rewrite bool_decide_eq_true_2 by done.
    destruct hdunum as [k|]; [reflexivity|].
    rewrite IH by done.
    destruct (List.filter _ range) as [|j [|j' rest]]; reflexivity.
  - rewrite bool_decide_eq_false_2 by done. by apply IH.
Qed.

Lemma seq_tail_lt (n i : nat) : i ∈ seq 1 (n - 1) → i < n.
Proof. rewrite elem_of_seq. lia. Qed.

(** The table is absent: no extension HDU has the name. *)
Lemma find_hdu_absent extname w :
  hdus_named (fd w) (upper extname) = [] →
  find_hdu extname w = (inl (RuntimeError (required_msg extname)), closed w).
Proof.
  intros Hnone. unfold find_hdu. rewrite Py_bind_run. unfold fd_len.
  rewrite Py_bind_run, find_hdu_loop_run by apply seq_tail_lt.
  unfold hdus_named in Hnone. by rewrite Hnone.
Qed.

(** The table is duplicated: two or more extension HDUs have the name. *)
Lemma find_hdu_duplicate extname w :
  2 ≤ length (hdus_named (fd w) (upper extname)) →
  find_hdu extname w =
    (inl (RuntimeError (two_hdus_msg (upper extname))), closed w).
Proof.
  intros Htwo. unfold find_hdu. rewrite Py_bind_run. unfold fd_len.
  rewrite Py_bind_run, find_hdu_loop_run by apply seq_tail_lt.
  unfold hdus_named in Htwo.
  destruct (List.filter _ _) as [|j [|j' rest]]; simpl in Htwo; [lia..|done].
Qed.

(** The table is there once, but has no rows. *)
Lemma find_hdu_empty extname w i h :
  hdus_named (fd w) (upper extname) = [i] →
  fd w !! i = Some h → data h ≠ None → nrows (table h) = 0 →
  find_hdu extname w = (inl (RuntimeError (required_msg extname)), closed w).
Proof.
  intros Hone Hh Hdata Hrows. unfold find_hdu. rewrite Py_bind_run. unfold fd_len.
  rewrite Py_bind_run, find_hdu_loop_run by apply seq_tail_lt.
  unfold hdus_named in Hone. rewrite Hone.
  rewrite Py_bind_run. unfold fd_get. rewrite Hh.
  unfold table in Hrows. destruct (data h) as [t|]; [|done]. simpl in Hrows.
  rewrite decide_True by lia. reflexivity.
Qed.

(** The name is there once, on an HDU without data: [len(None)] raises,
    and the file is not closed. *)
Lemma find_hdu_no_data extname w i h :
  hdus_named (fd w) (upper extname) = [i] →
  fd w !! i = Some h → data h = None →
  find_hdu extname w = (inl (TypeError len_none_msg), w).
Proof.
  intros Hone Hh Hdata. unfold find_hdu. rewrite Py_bind_run. unfold fd_len.
  rewrite Py_bind_run, find_hdu_loop_run by apply seq_tail_lt.
  unfold hdus_named in Hone. rewrite Hone.
  rewrite Py_bind_run. unfold fd_get. rewrite Hh, Hdata. reflexivity.
Qed.

(** The table is there once and has rows. *)
Lemma find_hdu_found extname w i h :
  hdus_named (fd w) (upper extname) = [i] →
  fd w !! i = Some h → 0 < nrows (table h) →
  find_hdu extname w = (inr i, w).
Proof.
  intros Hone Hh Hrows. unfold find_hdu. rewrite Py_bind_run. unfold fd_len.
  rewrite Py_bind_run, find_hdu_loop_run by apply seq_tail_lt.
  unfold hdus_named in Hone. rewrite Hone.
  rewrite Py_bind_run. unfold fd_get. rewrite Hh.
  unfold table in Hrows. destruct (data h) as [t|]; simpl in Hrows; [|lia].
  rewrite decide_False by lia. reflexivity.
Qed.

Lemma hdus_named_lookup (hdus : list (HDU F)) name i :
  i ∈ hdus_named hdus name →
  ∃ h, hdus !! i = Some h ∧ EXTNAME (header h) = Some name.
Proof.
  unfold hdus_named. rewrite list_elem_of_In, List.filter_In.
  intros [_ Hi]. unfold is_named in Hi.
  destruct (hdus !! i) as [h|]; [|done].
  exists h. split; [done|]. by apply bool_decide_eq_true in Hi.
Qed.

End FindHdu.

(** ** The stages of [utc_tdb] *)

Section Stages.
Context {F : Type} {Sc : Scalar F} {Ex : Externals F}.
Implicit Types w : World F.

Lemma get_jwst_keywords_run w : get_jwst_keywords w = (keywords w, w).
Proof.
  unfold get_jwst_keywords, keywords.
  rewrite Py_bind_run, header_get_run.
  destruct (read_card w 0 "eph_time") as [ex|eph]; [reflexivity|].
  rewrite Py_bind_run. unfold lift at 1. simpl.
  destruct (Time_utc_tt eph) as [ex|eph_time]; [reflexivity|]. simpl.
  repeat (rewrite Py_bind_run, header_get_run;
          match goal with
          | |- context [read_card w 0 ?k] =>
              destruct (read_card w 0 k); simpl; [reflexivity|]
          end).
  reflexivity.
Qed.

Lemma utc_tdb_stages filename w :
  utc_tdb filename w = utc_tdb_staged filename w.
Proof.
  unfold utc_tdb, utc_tdb_staged.
  rewrite Py_bind_run. unfold log_at at 1.
  set (w1 := logged w _).
  rewrite Py_bind_run, header_get_run.
  change (read_card w1 0 "targ_ra") with (read_card w 0 "targ_ra").
  destruct (read_card w 0 "targ_ra") as [ex|ra]; [reflexivity|].
  rewrite Py_bind_run, header_get_run.
  change (read_card w1 0 "targ_dec") with (read_card w 0 "targ_dec").
  destruct (read_card w 0 "targ_dec") as [ex|dec]; [reflexivity|].
  rewrite Py_bind_run. unfold try_except at 1. rewrite Py_fmap_run.
  destruct (find_hdu "int_times" w1) as [[ex|hdunum] w2].
  { destruct ex; try reflexivity. }
  unfold tt_columns.
  rewrite Py_bind_run, data_field_run.
  destruct (read_column w2 hdunum "int_start_MJD_UTC") as [ex|cs];
    [reflexivity|]. simpl.
  rewrite Py_bind_run. unfold lift at 1.
  destruct (mapM Time_utc_tt cs) as [ex|ts]; [reflexivity|]. simpl.
  rewrite Py_bind_run, data_field_run.
  destruct (read_column w2 hdunum "int_mid_MJD_UTC") as [ex|cm];
    [reflexivity|]. simpl.
  rewrite Py_bind_run. unfold lift at 1.
  destruct (mapM Time_utc_tt cm) as [ex|tm]; [reflexivity|]. simpl.
  rewrite Py_bind_run, data_field_run.
  destruct (read_column w2 hdunum "int_end_MJD_UTC") as [ex|ce];
    [reflexivity|]. simpl.
  rewrite Py_bind_run. unfold lift at 1.
  destruct (mapM Time_utc_tt ce) as [ex|te]; [reflexivity|]. simpl.
  rewrite Py_bind_run.
  unfold provider, provider_log.
  destruct timeconversion as [svc|].
  - rewrite Py_bind_run. unfold log_at at 1.
    set (w3 := logged w2 _).
    rewrite Py_bind_run. unfold lift at 1.
    destruct (svc (ra, dec) ts) as [ex|[s hs]]; [reflexivity|]. simpl.
    rewrite Py_bind_run. unfold lift at 1.
    destruct (svc (ra, dec) tm) as [ex|[m hm]]; [reflexivity|]. simpl.
    rewrite Py_bind_run. unfold lift at 1.
    destruct (svc (ra, dec) te) as [ex|[e he]]; [reflexivity|]. simpl.
    fold (write_back hdunum s m e).
    rewrite Py_bind_run.
    destruct (write_back hdunum s m e w3) as [[ex|missing] w4];
      [reflexivity|].
    rewrite Py_bind_run. unfold fd_close at 1.
    rewrite Py_bind_run. unfold missing_log.
    destruct missing; [|by rewrite logged_nil].
    rewrite Py_bind_run. unfold log_at. by rewrite logged_logged.
  - rewrite Py_bind_run. unfold log_at at 1.
    rewrite Py_bind_run. unfold log_at at 1.
    rewrite logged_logged. simpl app.
    set (w3 := logged w2 _).
    rewrite Py_bind_run, get_jwst_keywords_run.
    change (keywords w3) with (keywords w2).
    destruct (keywords w2) as [ex|[[eph_time jwst_pos] jwst_vel]];
      [reflexivity|]. simpl.
    rewrite Py_bind_run. unfold lift at 1.
    destruct (compute_bary_helio_time2 (ra, dec) ts _ false)
      as [ex|[s hs]]; [reflexivity|]. simpl.
    rewrite Py_bind_run. unfold lift at 1.
    destruct (compute_bary_helio_time2 (ra, dec) tm _ false)
      as [ex|[m hm]]; [reflexivity|]. simpl.
    rewrite Py_bind_run. unfold lift at 1.
    destruct (compute_bary_helio_time2 (ra, dec) te _ false)
      as [ex|[e he]]; [reflexivity|]. simpl.
    fold (write_back hdunum s m e).
    rewrite Py_bind_run.
    destruct (write_back hdunum s m e w3) as [[ex|missing] w4];
      [reflexivity|].
    rewrite Py_bind_run. unfold fd_close at 1.
    rewrite Py_bind_run. unfold missing_log.
    destruct missing; [|by rewrite logged_nil].
    rewrite Py_bind_run. unfold log_at. by rewrite logged_logged.
Qed.

End Stages.

(** ** The write-back *)

Section WriteBack.
Context {F : Type}.
Implicit Types w : World F.

Lemma assign_slice_same_length (col values : list F) :
  length values = length col → assign_slice col values = Ok values.
Proof. intros Hlen. unfold assign_slice. by rewrite decide_True. Qed.

Lemma data_field_assign_missing i name values w h :
  fd w !! i = Some h → data h ≠ None → columns (table h) !! name = None →
  data_field_assign i name values w = (inl (KeyError name), w).
Proof.
  intros Hh Hdata Hcol. unfold data_field_assign.
  rewrite Py_bind_run, data_field_run.
  by rewrite (read_column_table _ _ _ h), Hcol.
Qed.

Lemma data_field_assign_written i name values w h col :
  fd w !! i = Some h → columns (table h) !! name = Some col →
  length values = length col →
  data_field_assign i name values w =
    (inr (), with_fd w (<[i := set_column h name values]> (fd w))).
Proof.
  intros Hh Hcol Hlen. unfold data_field_assign.
  rewrite Py_bind_run, data_field_run.
  rewrite (read_column_table _ _ _ h), Hcol
    by (done || by eapply data_of_column). simpl.
  rewrite Py_bind_run. unfold lift.
  rewrite assign_slice_same_length by done. simpl.
  unfold fd_set_column. by rewrite Hh.
Qed.

Lemma set_column_lookup_ne (h : HDU F) name name' col :
  name ≠ name' →
  columns (table (set_column h name col)) !! name' = columns (table h) !! name'.
Proof. intros Hne. simpl. by rewrite lookup_insert_ne. Qed.

Lemma set_column_lookup (h : HDU F) name col :
  columns (table (set_column h name col)) !! name = Some col.
Proof. simpl. by rewrite lookup_insert_eq. Qed.

Lemma with_fd_lookup w hdus i : fd (with_fd w hdus) !! i = hdus !! i.
Proof. reflexivity. Qed.

Lemma with_fd_with_fd w a b : with_fd (with_fd w a) b = with_fd w b.
Proof. reflexivity. Qed.

(** The first column is absent: nothing is written. *)
Lemma write_back_start_missing hdunum s m e w h :
  fd w !! hdunum = Some h → data h ≠ None →
  columns (table h) !! "int_start_BJD_TDB" = None →
  write_back hdunum s m e w = (inr true, w).
Proof.
  intros Hh Hdata Hs. unfold write_back, try_except.
  rewrite Py_bind_run, (data_field_assign_missing _ _ _ _ h) by done.
  reflexivity.
Qed.

(** The first column is there and the second is absent: the first has
    been written when the KeyError is caught. *)
Lemma write_back_mid_missing hdunum s m e w h cs :
  fd w !! hdunum = Some h →
  columns (table h) !! "int_start_BJD_TDB" = Some cs → length s = length cs →
  columns (table h) !! "int_mid_BJD_TDB" = None →
  write_back hdunum s m e w =
    (inr true,
     with_fd w (<[hdunum := set_column h "int_start_BJD_TDB" s]> (fd w))).
Proof.
  intros Hh Hs Hls Hm. unfold write_back, try_except.
  rewrite Py_bind_run, (data_field_assign_written _ _ _ _ h cs) by done.
  set (h1 := set_column h "int_start_BJD_TDB" s).
  set (w1 := with_fd w _).
  assert (Hh1 : fd w1 !! hdunum = Some h1).
  { unfold w1. rewrite with_fd_lookup. apply list_lookup_insert_eq.
    by eapply lookup_lt_Some. }
  rewrite Py_bind_run, (data_field_assign_missing _ _ _ _ h1); [done..|].
  unfold h1. by rewrite set_column_lookup_ne.
Qed.

(** The first two columns are there and the third is absent: the first
    two have been written when the KeyError is caught. *)
Lemma write_back_end_missing hdunum s m e w h cs cm :
  fd w !! hdunum = Some h →
  columns (table h) !! "int_start_BJD_TDB" = Some cs → length s = length cs →
  columns (table h) !! "int_mid_BJD_TDB" = Some cm → length m = length cm →
  columns (table h) !! "int_end_BJD_TDB" = None →
  write_back hdunum s m e w =
    (inr true,
     with_fd w (<[hdunum := set_column (set_column h "int_start_BJD_TDB" s)
                              "int_mid_BJD_TDB" m]> (fd w))).
Proof.
  intros Hh Hs Hls Hm Hlm He. unfold write_back, try_except.
  rewrite Py_bind_run, (data_field_assign_written _ _ _ _ h cs) by done.
  set (h1 := set_column h "int_start_BJD_TDB" s).
  set (w1 := with_fd w _).
  assert (Hh1 : fd w1 !! hdunum = Some h1).
  { unfold w1. rewrite with_fd_lookup. apply list_lookup_insert_eq.
    by eapply lookup_lt_Some. }
  rewrite Py_bind_run, (data_field_assign_written _ _ _ _ h1 cm); [|done|..].
  2:{ unfold h1. by rewrite set_column_lookup_ne. }
  2:{ done. }
  set (h2 := set_column h1 "int_mid_BJD_TDB" m).
  set (w2 := with_fd w1 _).
  assert (Hh2 : fd w2 !! hdunum = Some h2).
  { unfold w2. rewrite with_fd_lookup. apply list_lookup_insert_eq.
    eapply lookup_lt_Some, Hh1. }
  rewrite Py_bind_run, (data_field_assign_missing _ _ _ _ h2); [|done|done|].
  2:{ unfold h2, h1. by rewrite !set_column_lookup_ne. }
  unfold w2, w1. rewrite with_fd_with_fd. simpl fd.
  by rewrite list_insert_insert_eq.
Qed.

(** All three columns are there: all three are written. *)
Lemma write_back_all hdunum s m e w h cs cm ce :
  fd w !! hdunum = Some h →
  columns (table h) !! "int_start_BJD_TDB" = Some cs → length s = length cs →
  columns (table h) !! "int_mid_BJD_TDB" = Some cm → length m = length cm →
  columns (table h) !! "int_end_BJD_TDB" = Some ce → length e = length ce →
  write_back hdunum s m e w =
    (inr false,
     with_fd w (<[hdunum := set_column (set_column
                              (set_column h "int_start_BJD_TDB" s)
                              "int_mid_BJD_TDB" m) "int_end_BJD_TDB" e]>
                 (fd w))).
Proof.
  intros Hh Hs Hls Hm Hlm He Hle. unfold write_back, try_except.
  rewrite Py_bind_run, (data_field_assign_written _ _ _ _ h cs) by done.
  set (h1 := set_column h "int_start_BJD_TDB" s).
  set (w1 := with_fd w _).
  assert (Hh1 : fd w1 !! hdunum = Some h1).
  { unfold w1. rewrite with_fd_lookup. apply list_lookup_insert_eq.
    by eapply lookup_lt_Some. }
  rewrite Py_bind_run, (data_field_assign_written _ _ _ _ h1 cm); [|done|..].
  2:{ unfold h1. by rewrite set_column_lookup_ne. }
  2:{ done. }
  set (h2 := set_column h1 "int_mid_BJD_TDB" m).
  set (w2 := with_fd w1 _).
  assert (Hh2 : fd w2 !! hdunum = Some h2).
  { unfold w2. rewrite with_fd_lookup. apply list_lookup_insert_eq.
    eapply lookup_lt_Some, Hh1. }
  rewrite Py_bind_run, (data_field_assign_written _ _ _ _ h2 ce); [|done|..].
  2:{ unfold h2, h1. by rewrite !set_column_lookup_ne. }
  2:{ done. }
  unfold w2, w1. simpl.
  by rewrite !list_insert_insert_eq.
Qed.

End WriteBack.

(** ** The orchestrator *)

Section Orchestrator.
Context {F : Type} {Sc : Scalar F} {Ex : Externals F}.
Implicit Types w : World F.

Lemma find_hdu_missing w :
  table_missing (fd w) →
  ∃ msg, find_hdu "int_times" w = (inl (RuntimeError msg), closed w) ∧
         (msg = required_msg "int_times" ∨ msg = two_hdus_msg "INT_TIMES").
Proof.
  intros [Habs|[(i & h & Hone & Hh & Hdata & Hrows)|Htwo]].
  - eexists. split; [by apply find_hdu_absent|by left].
  - eexists. split; [by eapply find_hdu_empty|by left].
  - eexists. split; [by apply find_hdu_duplicate|by right].
Qed.

Lemma find_hdu_table w i h :
  table_at (fd w) i h → find_hdu "int_times" w = (inr i, w).
Proof. intros (Hone & Hh & Hrows). by eapply find_hdu_found. Qed.

(** C3, as the code has it: when the primary header carries [targ_ra]
    and [targ_dec] and the INT_TIMES table is absent, is a table with no
    row, or is duplicated, [utc_tdb] raises nothing, returns
    (0.0, 0.0, 0.0), has logged the RuntimeError's message as a warning,
    and has closed the file without changing it.  When the only
    INT_TIMES extension has no data, the TypeError of [len(None)] is not
    caught: [utc_tdb] raises it, with the file left open. *)
Theorem utc_tdb_missing_table (filename : string) w (ra dec : F) :
  read_card w 0 "targ_ra" = Ok ra →
  read_card w 0 "targ_dec" = Ok dec →
  (table_missing (fd w) →
   ∃ msg,
     utc_tdb filename w =
       (inr sentinel,
        closed (logged w [processing filename; (WARNING, msg)])) ∧
     (msg = required_msg "int_times" ∨ msg = two_hdus_msg "INT_TIMES")) ∧
  (∀ i h, table_without_data (fd w) i h →
     utc_tdb filename w =
       (inl (TypeError len_none_msg), logged w [processing filename])).
Proof.
  intros Hra Hdec. split.
  - intros Hmiss.
    destruct (find_hdu_missing (logged w [processing filename]) Hmiss)
      as (msg & Hfind & Hmsg).
    exists msg. split; [|done].
    rewrite utc_tdb_stages. unfold utc_tdb_staged.
    rewrite Hra, Hdec. unfold Ok. cbv beta iota.
    fold (processing filename). rewrite Hfind.
    unfold closed, logged. simpl. by rewrite <- app_assoc.
  - intros i h (Hone & Hh & Hdata).
    rewrite utc_tdb_stages. unfold utc_tdb_staged.
    rewrite Hra, Hdec. unfold Ok. cbv beta iota.
    fold (processing filename).
    by rewrite (find_hdu_no_data "int_times" _ i h).
Qed.

(** What [utc_tdb] does once the table is found, the times are
    converted and the provider has answered. *)
Lemma utc_tdb_computed (filename : string) w ra dec i h ts tm te s m e :
  read_card w 0 "targ_ra" = Ok ra →
  read_card w 0 "targ_dec" = Ok dec →
  table_at (fd w) i h →
  tt_columns w i = Ok (ts, tm, te) →
  provider w (ra, dec) ts tm te = Ok (s, m, e) →
  utc_tdb filename w =
    match write_back i s m e
            (logged w (processing filename :: provider_log)) with
    | (inl ex, w4) => (inl ex, w4)
    | (inr missing, w4) =>
        (inr (PyArray s, PyArray m, PyArray e),
         logged (closed w4) (missing_log missing))
    end.
Proof.
  intros Hra Hdec Htab Htt Hprov.
  rewrite utc_tdb_stages. unfold utc_tdb_staged.
  rewrite Hra, Hdec. unfold Ok. cbv beta iota.
  fold (processing filename).
  rewrite (find_hdu_table _ i h) by done.
  change (tt_columns (logged w [processing filename]) i)
    with (tt_columns w i). rewrite Htt. unfold Ok. cbv beta iota.
  change (provider (logged w [processing filename]) (ra, dec) ts tm te)
    with (provider w (ra, dec) ts tm te). rewrite Hprov.
  unfold Ok. cbv beta iota. by rewrite logged_logged.
Qed.

(** C9: when the table is found, the computation succeeds and the three
    TDB output columns are absent, [utc_tdb] raises nothing, returns the
    three computed arrays, says in two warnings that the table was not
    updated, and closes the file with every HDU as it was. *)
Theorem utc_tdb_missing_output_columns
    (filename : string) w ra dec i h ts tm te s m e :
  read_card w 0 "targ_ra" = Ok ra →
  read_card w 0 "targ_dec" = Ok dec →
  table_at (fd w) i h →
  tt_columns w i = Ok (ts, tm, te) →
  provider w (ra, dec) ts tm te = Ok (s, m, e) →
  columns (table h) !! "int_start_BJD_TDB" = None →
  columns (table h) !! "int_mid_BJD_TDB" = None →
  columns (table h) !! "int_end_BJD_TDB" = None →
  ∃ w',
    utc_tdb filename w = (inr (PyArray s, PyArray m, PyArray e), w') ∧
    fd w' = fd w ∧ fd_closed w' = true ∧
    log w' = log w ++ processing filename :: provider_log ++
      [(WARNING, "One or more of the *BJD_TDB columns do not exist,");
       (WARNING, "so the INT_TIMES table was not updated.")].
Proof.
  intros Hra Hdec Htab Htt Hprov Hs _ _. eexists. split.
  { rewrite (utc_tdb_computed _ _ ra dec i h ts tm te s m e) by done.
    destruct Htab as (_ & Hh & Hrows).
    rewrite (write_back_start_missing _ _ _ _ _ h);
      [reflexivity|done|by apply data_of_rows|done]. }
  simpl. repeat split. by rewrite <- app_assoc.
Qed.

(** C10: when the table is found, the computation succeeds and the start
    TDB column is there with one row per computed time, the columns are
    written in the order start, mid, end up to the first absent one: with
    the mid column absent the start column has been overwritten, and with
    the mid column there and the end column absent both have been, in the
    file that [utc_tdb] closes while it returns the computed arrays and
    says that the table was not updated. *)
Theorem utc_tdb_partial_write_back
    (filename : string) w ra dec i h ts tm te s m e cs :
  read_card w 0 "targ_ra" = Ok ra →
  read_card w 0 "targ_dec" = Ok dec →
  table_at (fd w) i h →
  tt_columns w i = Ok (ts, tm, te) →
  provider w (ra, dec) ts tm te = Ok (s, m, e) →
  columns (table h) !! "int_start_BJD_TDB" = Some cs → length s = length cs →
  (columns (table h) !! "int_mid_BJD_TDB" = None →
   ∃ w' h',
     utc_tdb filename w = (inr (PyArray s, PyArray m, PyArray e), w') ∧
     fd_closed w' = true ∧
     (WARNING, "so the INT_TIMES table was not updated.") ∈ log w' ∧
     fd w' = <[i := h']> (fd w) ∧
     columns (table h') !! "int_start_BJD_TDB" = Some s ∧
     columns (table h') !! "int_mid_BJD_TDB" = None) ∧
  (∀ cm,
   columns (table h) !! "int_mid_BJD_TDB" = Some cm → length m = length cm →
   columns (table h) !! "int_end_BJD_TDB" = None →
   ∃ w' h',
     utc_tdb filename w = (inr (PyArray s, PyArray m, PyArray e), w') ∧
     fd_closed w' = true ∧
     (WARNING, "so the INT_TIMES table was not updated.") ∈ log w' ∧
     fd w' = <[i := h']> (fd w) ∧
     columns (table h') !! "int_start_BJD_TDB" = Some s ∧
     columns (table h') !! "int_mid_BJD_TDB" = Some m ∧
     columns (table h') !! "int_end_BJD_TDB" = None).
Proof.
  intros Hra Hdec Htab Htt Hprov Hs Hls.
  pose proof (utc_tdb_computed filename _ ra dec i h ts tm te s m e
                Hra Hdec Htab Htt Hprov) as Hrun.
  destruct Htab as (_ & Hh & _). split.
  - intros Hm. eexists _, (set_column h "int_start_BJD_TDB" s). split.
    { rewrite Hrun.
      rewrite (write_back_mid_missing _ _ _ _ _ h cs); [reflexivity|done..]. }
    simpl. repeat split.
    + rewrite !elem_of_app. right. by do 2 constructor.
    + by rewrite lookup_insert_eq.
    + by rewrite lookup_insert_ne.
  - intros cm Hm Hlm He.
    eexists _, (set_column (set_column h "int_start_BJD_TDB" s)
                  "int_mid_BJD_TDB" m). split.
    { rewrite Hrun.
      rewrite (write_back_end_missing _ _ _ _ _ h cs cm);
        [reflexivity|done..]. }
    simpl. repeat split.
    + rewrite !elem_of_app. right. by do 2 constructor.
    + rewrite lookup_insert_ne by done. by rewrite lookup_insert_eq.
    + by rewrite lookup_insert_eq.
    + by rewrite !lookup_insert_ne.
Qed.

End Orchestrator.

(** ** What is returned *)

Section Returned.
Context {F : Type} {Sc : Scalar F} {Ex : Externals F}.
Implicit Types w : World F.

Lemma find_hdu_int_times w :
  (∃ i h, table_at (fd w) i h ∧ find_hdu "int_times" w = (inr i, w)) ∨
  (table_missing (fd w) ∧
   ∃ msg, find_hdu "int_times" w = (inl (RuntimeError msg), closed w)) ∨
  (∃ i h, table_without_data (fd w) i h ∧
          find_hdu "int_times" w = (inl (TypeError len_none_msg), w)).
Proof.
  unfold table_at, table_missing, table_without_data.
  destruct (hdus_named (fd w) "INT_TIMES") as [|i [|j rest]] eqn:Hn.
  - right; left. split; [by left|]. eexists. by apply find_hdu_absent.
  - destruct (hdus_named_lookup (fd w) "INT_TIMES" i) as (h & Hh & Hname).
    { rewrite Hn. by constructor. }
    destruct (decide (data h = None)) as [Hd|Hd].
    { right; right. exists i, h. split; [done|]. by eapply find_hdu_no_data. }
    destruct (decide (nrows (table h) = 0)) as [Hz|Hz].
    + right; left. split; [right; left; by exists i, h|].
      eexists. by eapply find_hdu_empty.
    + left. exists i, h. split; [repeat split; [done|lia]|].
      eapply find_hdu_found; eauto. lia.
  - right; left. split; [right; right; simpl; lia|].
    eexists. apply find_hdu_duplicate.
    change (upper "int_times") with "INT_TIMES". rewrite Hn. simpl. lia.
Qed.

(** A returned value is the sentinel of a missing table, or the three
    arrays the provider gave for the three converted columns. *)
Lemma utc_tdb_returned (filename : string) w r w' :
  utc_tdb filename w = (inr r, w') →
  (table_missing (fd w) ∧ r = sentinel) ∨
  ∃ ra dec i h ts tm te s m e,
    read_card w 0 "targ_ra" = Ok ra ∧ read_card w 0 "targ_dec" = Ok dec ∧
    table_at (fd w) i h ∧ tt_columns w i = Ok (ts, tm, te) ∧
    provider w (ra, dec) ts tm te = Ok (s, m, e) ∧
    r = (PyArray s, PyArray m, PyArray e).
Proof.
  rewrite utc_tdb_stages. unfold utc_tdb_staged.
  destruct (read_card w 0 "targ_ra") as [ex|ra] eqn:Hra; [done|].
  destruct (read_card w 0 "targ_dec") as [ex|dec] eqn:Hdec; [done|].
  set (w1 := logged w _).
  destruct (find_hdu_int_times w1)
    as [(i & h & Htab & ->)|[(Hmiss & msg & ->)|(i & h & _ & ->)]].
  - change (tt_columns w1 i) with (tt_columns w i).
    change (provider w1 (ra, dec)) with (provider w (ra, dec)).
    destruct (tt_columns w i) as [ex|[[ts tm] te]] eqn:Htt; [done|].
    destruct (provider w (ra, dec) ts tm te) as [ex|[[s m] e]] eqn:Hprov;
      [done|].
    destruct (write_back i s m e _) as [[ex|missing] w4]; [done|].
    intros [= <- _]. right. by exists ra, dec, i, h, ts, tm, te, s, m, e.
  - intros [= <- _]. by left.
  - done.
Qed.

Lemma tt_columns_read w i h ts tm te :
  fd w !! i = Some h → tt_columns w i = Ok (ts, tm, te) →
  ∃ cs cm ce,
    columns (table h) !! "int_start_MJD_UTC" = Some cs ∧
    columns (table h) !! "int_mid_MJD_UTC" = Some cm ∧
    columns (table h) !! "int_end_MJD_UTC" = Some ce ∧
    to_tt (s := array) cs = Ok ts ∧ to_tt (s := array) cm = Ok tm ∧
    to_tt (s := array) ce = Ok te.
Proof.
  intros Hh. unfold tt_columns, read_column, table. rewrite Hh.
  destruct (data h) as [t|]; [|done]. simpl.
  destruct (columns t !! "int_start_MJD_UTC") as [cs|]; [|done].
  simpl. destruct (mapM Time_utc_tt cs) as [ex|ts'] eqn:Hs; [done|].
  destruct (columns t !! "int_mid_MJD_UTC") as [cm|]; [|done].
  simpl. destruct (mapM Time_utc_tt cm) as [ex|tm'] eqn:Hm; [done|].
  destruct (columns t !! "int_end_MJD_UTC") as [ce|]; [|done].
  simpl. destruct (mapM Time_utc_tt ce) as [ex|te'] eqn:He; [done|].
  simpl. intros [= <- <- <-]. by exists cs, cm, ce.
Qed.

Lemma to_tt_array_length (a r : list F) :
  to_tt (s := array) a = Ok r → length r = length a.
Proof. apply mapM_result_length. Qed.

Lemma linear_pos_extrapolated tt_times eph_time jwst_pos jwst_vel :
  linear_pos tt_times eph_time jwst_pos jwst_vel =
    extrapolated (eph_time, jwst_pos, jwst_vel) <$> tt_times.
Proof. by destruct jwst_pos as [[px py] pz], jwst_vel as [[vx vy] vz]. Qed.

Lemma fallback_bary_rows targetcoord kw tt_times s :
  fallback_bary targetcoord kw tt_times = Ok s →
  ∃ u, get_target_vector2 targetcoord = Ok u ∧
       s = corrected_bary u kw <$> tt_times.
Proof.
  destruct kw as [[eph_time jwst_pos] jwst_vel]. unfold fallback_bary.
  destruct (get_target_vector2 targetcoord) as [ex|u] eqn:Hu.
  { unfold compute_bary_helio_time2. by rewrite Hu. }
  rewrite (compute_bary_helio_time2_rows _ _ _ _ u)
    by (done || apply linear_pos_length).
  intros [= <-]. exists u. split; [done|].
  rewrite linear_pos_extrapolated. unfold corrected_bary.
  induction tt_times as [|t l IH]; simpl; [done|]. by f_equal.
Qed.

Lemma fallback_column_of targetcoord kw cs ts s u :
  to_tt (s := array) cs = Ok ts →
  get_target_vector2 targetcoord = Ok u →
  fallback_bary targetcoord kw ts = Ok s →
  fallback_column u kw cs s.
Proof.
  intros Hts Hu Hs.
  destruct (fallback_bary_rows _ _ _ _ Hs) as (u' & Hu' & ->).
  assert (u' = u) as -> by (rewrite Hu in Hu'; by injection Hu').
  split; [rewrite length_fmap; by eapply mapM_result_length|].
  intros j c Hc.
  destruct (mapM_result_lookup _ _ _ _ _ Hts Hc) as (t & Ht & Hj).
  exists t. split; [done|]. by rewrite list_lookup_fmap, Hj.
Qed.

(** C5: whatever [utc_tdb] returns without raising is either the
    sentinel of a missing table or the triple of arrays obtained, for the
    start, mid and end UTC columns converted to TT, as element [0] of the
    provider's answer: of [timeconversion.compute_bary_helio_time] when
    the module was imported, of [compute_bary_helio_time2] on the
    linearly extrapolated positions otherwise.  In the fallback path each
    array has one entry per row of its UTC column, in the same order: the
    TT time of that row plus the light time of the barycentric platform
    vector at that time, in which the Sun's ephemeris has no part; with
    the imported module each array is as long as its column whenever the
    module answers with arrays as long as its input. *)
Theorem utc_tdb_returns_barycentric (filename : string) w r w' :
  utc_tdb filename w = (inr r, w') →
  (table_missing (fd w) ∧ r = sentinel) ∨
  ∃ ra dec i h cs cm ce ts tm te s m e,
    read_card w 0 "targ_ra" = Ok ra ∧ read_card w 0 "targ_dec" = Ok dec ∧
    table_at (fd w) i h ∧
    columns (table h) !! "int_start_MJD_UTC" = Some cs ∧
    columns (table h) !! "int_mid_MJD_UTC" = Some cm ∧
    columns (table h) !! "int_end_MJD_UTC" = Some ce ∧
    to_tt (s := array) cs = Ok ts ∧ to_tt (s := array) cm = Ok tm ∧
    to_tt (s := array) ce = Ok te ∧
    r = (PyArray s, PyArray m, PyArray e) ∧
    match timeconversion with
    | Some compute_bary_helio_time =>
        fst <$> compute_bary_helio_time (ra, dec) ts = Ok s ∧
        fst <$> compute_bary_helio_time (ra, dec) tm = Ok m ∧
        fst <$> compute_bary_helio_time (ra, dec) te = Ok e ∧
        ((∀ c t b hl, compute_bary_helio_time c t = Ok (b, hl) →
                      length b = length t) →
         length s = length cs ∧ length m = length cm ∧
         length e = length ce)
    | None =>
        ∃ eph_time jwst_pos jwst_vel u,
          keywords w = Ok (eph_time, jwst_pos, jwst_vel) ∧
          get_target_vector2 (ra, dec) = Ok u ∧
          fst <$> compute_bary_helio_time2 (ra, dec) ts
                    (linear_pos ts eph_time jwst_pos jwst_vel) false = Ok s ∧
          fst <$> compute_bary_helio_time2 (ra, dec) tm
                    (linear_pos tm eph_time jwst_pos jwst_vel) false = Ok m ∧
          fst <$> compute_bary_helio_time2 (ra, dec) te
                    (linear_pos te eph_time jwst_pos jwst_vel) false = Ok e ∧
          fallback_column u (eph_time, jwst_pos, jwst_vel) cs s ∧
          fallback_column u (eph_time, jwst_pos, jwst_vel) cm m ∧
          fallback_column u (eph_time, jwst_pos, jwst_vel) ce e
    end.
Proof.
  intros Hrun.
  destruct (utc_tdb_returned _ _ _ _ Hrun)
    as [?|(ra & dec & i & h & ts & tm & te & s & m & e
           & Hra & Hdec & Htab & Htt & Hprov & ->)]; [by left|].
  right.
  destruct (tt_columns_read w i h ts tm te)
    as (cs & cm & ce & Hcs & Hcm & Hce & Hts & Htm & Hte); [apply Htab|done|].
  exists ra, dec, i, h, cs, cm, ce, ts, tm, te, s, m, e.
  do 10 (split; [done|]).
  pose proof (to_tt_array_length _ _ Hts) as Hls.
  pose proof (to_tt_array_length _ _ Htm) as Hlm.
  pose proof (to_tt_array_length _ _ Hte) as Hle.
  unfold provider in Hprov. destruct timeconversion as [svc|].
  - destruct (svc (ra, dec) ts) as [ex|[s' hs]] eqn:Hs; [done|].
    destruct (svc (ra, dec) tm) as [ex|[m' hm]] eqn:Hm; [done|].
    destruct (svc (ra, dec) te) as [ex|[e' he]] eqn:He; [done|].
    simpl in Hprov. injection Hprov as <- <- <-.
    do 3 (split; [done|]). intros Hpar.
    rewrite (Hpar _ _ _ _ Hs), (Hpar _ _ _ _ Hm), (Hpar _ _ _ _ He).
    by rewrite Hls, Hlm, Hle.
  - destruct (keywords w) as [ex|kw]; [done|].
    cbv beta iota delta [mbind result_bind] in Hprov.
    destruct (fallback_bary (ra, dec) kw ts) as [ex|s'] eqn:Hs; [done|].
    destruct (fallback_bary (ra, dec) kw tm) as [ex|m'] eqn:Hm; [done|].
    destruct (fallback_bary (ra, dec) kw te) as [ex|e'] eqn:He; [done|].
    injection Hprov as <- <- <-.
    destruct (fallback_bary_rows _ _ _ _ Hs) as (u & Hu & _).
    pose proof (fallback_column_of _ _ _ _ _ _ Hts Hu Hs) as Hfs.
    pose proof (fallback_column_of _ _ _ _ _ _ Htm Hu Hm) as Hfm.
    pose proof (fallback_column_of _ _ _ _ _ _ Hte Hu He) as Hfe.
    destruct kw as [[eph_time jwst_pos] jwst_vel].
    by exists eph_time, jwst_pos, jwst_vel, u.
Qed.

(** In the fallback path an exception of the target resolver goes to
    the caller. *)
Lemma utc_tdb_resolver_raises (filename : string) w ra dec i h ts tm te kw ex :
  timeconversion = None →
  read_card w 0 "targ_ra" = Ok ra →
  read_card w 0 "targ_dec" = Ok dec →
  table_at (fd w) i h →
  tt_columns w i = Ok (ts, tm, te) →
  keywords w = Ok kw →
  get_target_vector2 (ra, dec) = Err ex →
  utc_tdb filename w =
    (inl ex, logged w (processing filename :: provider_log)).
Proof.
  intros Htc Hra Hdec Htab Htt Hkw Hvec.
  rewrite utc_tdb_stages. unfold utc_tdb_staged.
  rewrite Hra, Hdec. unfold Ok. cbv beta iota.
  fold (processing filename).
  rewrite (find_hdu_table _ i h) by done.
  change (tt_columns (logged w [processing filename]) i)
    with (tt_columns w i). rewrite Htt. unfold Ok. cbv beta iota.
  change (provider (logged w [processing filename]) (ra, dec) ts tm te)
    with (provider w (ra, dec) ts tm te).
  assert (Hprov : provider w (ra, dec) ts tm te = Err ex).
  { unfold provider. rewrite Htc, Hkw. simpl.
    destruct kw as [[eph_time jwst_pos] jwst_vel].
    unfold fallback_bary, compute_bary_helio_time2. by rewrite Hvec. }
  rewrite Hprov. unfold Err. cbv beta iota. by rewrite logged_logged.
Qed.

(** In the fallback path arrays are returned only when the target
    direction was resolved. *)
Lemma utc_tdb_arrays_resolved (filename : string) w ra dec r w' :
  timeconversion = None →
  read_card w 0 "targ_ra" = Ok ra →
  read_card w 0 "targ_dec" = Ok dec →
  utc_tdb filename w = (inr r, w') →
  (table_missing (fd w) ∧ r = sentinel) ∨
  ∃ u, get_target_vector2 (ra, dec) = Ok u.
Proof.
  intros Htc Hra Hdec Hrun.
  destruct (utc_tdb_returned _ _ _ _ Hrun)
    as [?|(ra' & dec' & i & h & ts & tm & te & s & m & e
           & Hra' & Hdec' & Htab & Htt & Hprov & ->)]; [by left|].
  right.
  assert (ra' = ra) as -> by (rewrite Hra in Hra'; by injection Hra').
  assert (dec' = dec) as -> by (rewrite Hdec in Hdec'; by injection Hdec').
  unfold provider in Hprov. rewrite Htc in Hprov.
  destruct (keywords w) as [ex|kw]; [done|].
  cbv beta iota delta [mbind result_bind] in Hprov.
  destruct (fallback_bary (ra, dec) kw ts) as [ex|s'] eqn:Hs; [done|].
  destruct (fallback_bary_rows _ _ _ _ Hs) as (u & Hu & _). by exists u.
Qed.

(** [to_tt] adds no check of its own.  On a float it is the library's
    conversion, with its result or its exception; on an array it converts
    element by element, returns an array of the same length when every
    element converts, and raises when some element does. *)
Lemma to_tt_delegates :
  (∀ x : F, to_tt (s := scalar) x = Time_utc_tt x) ∧
  (∀ (a : list F) (g : F → F),
     (∀ x, x ∈ a → Time_utc_tt x = Ok (g x)) →
     to_tt (s := array) a = Ok (g <$> a)) ∧
  (∀ a r : list F, to_tt (s := array) a = Ok r →
     length r = length a ∧
     ∀ i x, a !! i = Some x → ∃ y, Time_utc_tt x = Ok y ∧ r !! i = Some y) ∧
  (∀ (a : list F) ex, to_tt (s := array) a = Err ex →
     ∃ x, x ∈ a ∧ Time_utc_tt x = Err ex).
Proof.
  split; [done|]. split; [intros a g; apply mapM_result_total|]. split.
  - intros a r Hr. split; [by eapply mapM_result_length|].
    intros i x Hx. by eapply mapM_result_lookup.
  - intros a ex. simpl. induction a as [|x a IH]; simpl; [done|].
    destruct (Time_utc_tt x) as [ex'|y] eqn:Hx; simpl.
    + intros [= <-]. exists x. split; [by constructor|done].
    + destruct (mapM Time_utc_tt a) as [ex'|k]; simpl; [|done].
      intros [= <-]. destruct IH as (x' & Hin & Hx'); [done|].
      exists x'. split; [by constructor|done].
Qed.

End Returned.

(** ** Invalid coordinates *)

Section InvalidCoordinate.
Context (time : R → result R) (ephemeris : bool → body → R → vec3 R).
Local Open Scope R_scope.
Local Abbreviation fallback := (fallback_R time ephemeris).

(** C8: for a declination outside [-90, 90] the target resolver raises
    (astropy's ValueError for the latitude).  In the fallback path a call
    of [utc_tdb] on a file with that declination which has found the
    table, converted the times and read the platform keywords ends with
    that exception; and whatever such a call returns without raising is
    the sentinel of a missing table, never computed arrays. *)
Theorem utc_tdb_invalid_declination
    (filename : string) (w : World R) ra dec :
  dec < -90 ∨ 90 < dec →
  read_card w 0 "targ_ra" = Ok ra →
  read_card w 0 "targ_dec" = Ok dec →
  get_target_vector2 (Ex := fallback) (ra, dec)
    = Err (ValueError latitude_msg) ∧
  (∀ i h ts tm te kw,
     table_at (fd w) i h →
     tt_columns (Ex := fallback) w i = Ok (ts, tm, te) →
     keywords (Ex := fallback) w = Ok kw →
     utc_tdb (Ex := fallback) filename w =
       (inl (ValueError latitude_msg),
        logged w (processing filename :: provider_log (Ex := fallback)))) ∧
  (∀ r w', utc_tdb (Ex := fallback) filename w = (inr r, w') →
           table_missing (fd w) ∧ r = sentinel).
Proof.
  intros Hdec Hra Hd.
  assert (Hvec : get_target_vector2 (Ex := fallback) (ra, dec)
                 = Err (ValueError latitude_msg)).
  { unfold get_target_vector2. simpl.
    by rewrite SkyCoord_R_out_of_range. }
  split; [exact Hvec|]. split.
  - intros i h ts tm te kw Htab Htt Hkw.
    by eapply utc_tdb_resolver_raises.
  - intros r w' Hrun.
    destruct (utc_tdb_arrays_resolved (Ex := fallback) filename w ra dec r w')
      as [?|[u Hu]]; try done.
    rewrite Hvec in Hu. discriminate Hu.
Qed.

End InvalidCoordinate.

(** ** The outcomes of [find_hdu] *)

Section FindHduOutcomes.
Context {F : Type}.
Implicit Types w : World F.

Lemma upper_upper s : upper (upper s) = upper s.
Proof.
  induction s as [|c s IH]; simpl; [done|]. f_equal; [|done].
  by destruct c as [[] [] [] [] [] [] [] []].
Qed.

Lemma messages_differ a b : two_hdus_msg a ≠ required_msg b.
Proof. done. Qed.

(** [find_hdu] by the extensions that carry the name. *)
Lemma find_hdu_run extname w :
  find_hdu extname w =
    match hdus_named (fd w) (upper extname) with
    | [] => (inl (RuntimeError (required_msg extname)), closed w)
    | [i] =>
        match fd w !! i with
        | Some h =>
            match data h with
            | None => (inl (TypeError len_none_msg), w)
            | Some t =>
                if decide (nrows t < 1)
                then (inl (RuntimeError (required_msg extname)), closed w)
                else (inr i, w)
            end
        | None => (inl IndexError, w)
        end
    | _ => (inl (RuntimeError (two_hdus_msg (upper extname))), closed w)
    end.
Proof.
  unfold find_hdu. rewrite Py_bind_run. unfold fd_len.
  rewrite Py_bind_run, find_hdu_loop_run by apply seq_tail_lt.
  unfold hdus_named.
  destruct (List.filter _ _) as [|i [|j rest]]; [done| |done].
  rewrite Py_bind_run. unfold fd_get.
  destruct (fd w !! i) as [h|]; [|done].
  destruct (data h) as [t|]; [|done].
  by destruct (decide (nrows t < 1)).
Qed.

Lemma filter_singleton (P : nat → bool) (l : list nat) i :
  List.filter P l = [i] →
  i ∈ l ∧ P i = true ∧ ∀ j, j ∈ l → P j = true → j = i.
Proof.
  intros Hf. split; [|split].
  - apply list_elem_of_In.
    eapply (proj1 (List.filter_In P i l)). rewrite Hf. by left.
  - eapply (proj1 (List.filter_In P i l)). rewrite Hf. by left.
  - intros j Hj HP.
    assert (Hin : List.In j (List.filter P l)).
    { apply List.filter_In. split; [by apply list_elem_of_In|done]. }
    rewrite Hf in Hin. by destruct Hin as [->|[]].
Qed.

Lemma singleton_filter (P : nat → bool) (l : list nat) i :
  NoDup l → i ∈ l → P i = true → (∀ j, j ∈ l → P j = true → j = i) →
  List.filter P l = [i].
Proof.
  induction 1 as [|x l Hx Hnd IH]; intros Hi HP Huniq; [by inversion Hi|].
  simpl. destruct (P x) eqn:HPx.
  - assert (x = i) as -> by (apply Huniq; [by left|done]).
    f_equal. clear IH Hi.
    induction l as [|y l IHl]; [done|]. simpl.
    destruct (P y) eqn:HPy.
    + assert (y = i) as -> by (apply Huniq; [right; by left|done]).
      exfalso. apply Hx. by left.
    + apply IHl.
      * intros Hin. apply Hx. by right.
      * by inversion Hnd.
      * intros j Hj. apply Huniq. inversion Hj; subst; [by left|].
        right. by right.
  - apply IH.
    + inversion Hi; subst; [congruence|done].
    + done.
    + intros j Hj. apply Huniq. by right.
Qed.

Lemma is_named_true (hdus : list (HDU F)) name i :
  is_named hdus name i = true ↔
  ∃ h, hdus !! i = Some h ∧ EXTNAME (header h) = Some name.
Proof.
  unfold is_named. destruct (hdus !! i) as [h|]; split.
  - intros Hi. exists h. split; [done|]. by apply bool_decide_eq_true in Hi.
  - intros (h' & [= <-] & Hn). by apply bool_decide_eq_true.
  - done.
  - by intros (h' & ? & _).
Qed.

Lemma elem_of_seq_tail (n i : nat) : i ∈ seq 1 (n - 1) ↔ 1 ≤ i < n.
Proof. rewrite elem_of_seq. lia. Qed.

(** [find_hdu] returns [i] exactly when extension [i] is the only
    extension (index 1 onward) whose EXTNAME is the upper-cased name and
    its table has at least one row; the file is left as it was. *)
Theorem find_hdu_returns extname w i w' :
  find_hdu extname w = (inr i, w') ↔
  w' = w ∧ 1 ≤ i ∧
  (∃ h, fd w !! i = Some h ∧ EXTNAME (header h) = Some (upper extname) ∧
        1 ≤ nrows (table h)) ∧
  ∀ j h, 1 ≤ j → fd w !! j = Some h →
         EXTNAME (header h) = Some (upper extname) → j = i.
Proof.
  split.
  - rewrite find_hdu_run.
    destruct (hdus_named (fd w) (upper extname)) as [|i' [|j rest]] eqn:Hn;
      [done| |done].
    destruct (fd w !! i') as [h|] eqn:Hh; [|done].
    destruct (data h) as [t|] eqn:Hd; [|done].
    destruct (decide (nrows t < 1)) as [Hz|Hz]; [done|].
    intros [= <- <-]. split; [done|].
    destruct (filter_singleton _ _ _ Hn) as (Hi & HP & Huniq).
    apply elem_of_seq_tail in Hi.
    apply is_named_true in HP as (h' & Hh' & Hname).
    rewrite Hh in Hh'. injection Hh' as <-.
    split; [lia|]. split.
    { exists h. rewrite (table_data h t) by done.
      split; [done|]. split; [done|lia]. }
    intros j hj Hj Hhj Hnj. apply Huniq.
    + apply elem_of_seq_tail. split; [done|]. by eapply lookup_lt_Some.
    + apply is_named_true. by exists hj.
  - intros (-> & Hi & (h & Hh & Hname & Hrows) & Huniq).
    eapply find_hdu_found; [|done|lia].
    apply singleton_filter.
    + apply NoDup_seq.
    + apply elem_of_seq_tail. split; [done|]. by eapply lookup_lt_Some.
    + apply is_named_true. by exists h.
    + intros j Hj HP. apply elem_of_seq_tail in Hj.
      apply is_named_true in HP as (hj & Hhj & Hnj).
      eapply Huniq; [lia|done..].
Qed.

(** [find_hdu] raises in three ways.  It raises RuntimeError after
    closing the file, with the duplicate message and the upper-cased name
    when two or more extensions carry the name, and with the
    required-table message and the name as given when none does or the
    only one is a table with no row.  When the only extension of the name
    has no data, [len(None)] raises TypeError and the file is left as it
    was, not closed. *)
Theorem find_hdu_raises extname w ex w' :
  find_hdu extname w = (inl ex, w') ↔
  (w' = closed w ∧ ex = RuntimeError (two_hdus_msg (upper extname)) ∧
   2 ≤ length (hdus_named (fd w) (upper extname))) ∨
  (w' = closed w ∧ ex = RuntimeError (required_msg extname) ∧
   (hdus_named (fd w) (upper extname) = [] ∨
    ∃ i h, hdus_named (fd w) (upper extname) = [i] ∧ fd w !! i = Some h ∧
           data h ≠ None ∧ nrows (table h) = 0)) ∨
  (w' = w ∧ ex = TypeError len_none_msg ∧
   ∃ i h, hdus_named (fd w) (upper extname) = [i] ∧ fd w !! i = Some h ∧
          data h = None).
Proof.
  split.
  - rewrite find_hdu_run.
    destruct (hdus_named (fd w) (upper extname)) as [|i [|j rest]] eqn:Hn.
    + intros [= <- <-]. right; left. repeat split. by left.
    + destruct (hdus_named_lookup (fd w) (upper extname) i) as (h & Hh & _).
      { rewrite Hn. by constructor. }
      rewrite Hh. destruct (data h) as [t|] eqn:Hd.
      * destruct (decide (nrows t < 1)) as [Hz|Hz]; [|done].
        intros [= <- <-]. right; left. repeat split. right.
        exists i, h. rewrite (table_data h t) by done.
        repeat split; [done|congruence|lia].
      * intros [= <- <-]. right; right. repeat split. by exists i, h.
    + intros [= <- <-]. left. repeat split. simpl. lia.
  - intros [(-> & -> & Htwo)|[(-> & -> & [Habs|(i & h & Hn & Hh & Hd & Hz)])|
                              (-> & -> & i & h & Hn & Hh & Hd)]].
    + by apply find_hdu_duplicate.
    + by apply find_hdu_absent.
    + by eapply find_hdu_empty.
    + by eapply find_hdu_no_data.
Qed.

(** [find_hdu] is insensitive to the case of its argument: two names with
    the same upper-case form find the same extension. *)
Theorem find_hdu_case_insensitive a b w i w' :
  upper a = upper b →
  find_hdu a w = (inr i, w') ↔ find_hdu b w = (inr i, w').
Proof.
  intros Hab. rewrite !find_hdu_run, Hab.
  destruct (hdus_named (fd w) (upper b)) as [|j [|k rest]]; [done| |done].
  destruct (fd w !! j) as [h|]; [|done].
  destruct (data h) as [t|]; [|done].
  by destruct (decide (nrows t < 1)).
Qed.

(** The primary HDU takes no part in the search: whatever stands at
    index 0, [find_hdu] finds the same extension or raises the same
    exception. *)
Theorem find_hdu_skips_primary extname w (h0 h0' : HDU F) rest :
  (find_hdu extname (with_fd w (h0 :: rest))).1 =
  (find_hdu extname (with_fd w (h0' :: rest))).1.
Proof.
  assert (Hnamed : hdus_named (h0 :: rest) (upper extname)
                   = hdus_named (h0' :: rest) (upper extname)).
  { unfold hdus_named. simpl length. apply List.filter_ext_in.
    intros j Hj. apply list_elem_of_In, elem_of_seq in Hj.
    unfold is_named. by destruct j as [|j]; [lia|]. }
  assert (Hlook : ∀ i, i ∈ hdus_named (h0 :: rest) (upper extname) →
                       (h0 :: rest) !! i = (h0' :: rest) !! i).
  { intros j Hj. unfold hdus_named in Hj.
    apply list_elem_of_In, List.filter_In in Hj as [Hj _].
    apply list_elem_of_In, elem_of_seq in Hj. by destruct j as [|j]; [lia|]. }
  rewrite !find_hdu_run. simpl fd. rewrite <- Hnamed.
  destruct (hdus_named (h0 :: rest) (upper extname)) as [|i [|j l]];
    [done| |done].
  rewrite <- Hlook by (by left).
  destruct ((h0 :: rest) !! i) as [h|]; [|done].
  destruct (data h) as [t|]; [|done].
  by destruct (decide (nrows t < 1)).
Qed.

End FindHduOutcomes.

(** ** The platform keywords *)

Section Keywords.
Context {F : Type} {Sc : Scalar F} {Ex : Externals F}.
Implicit Types w : World F.

(** [get_jwst_keywords] returns exactly when the primary header has the
    seven cards and the epoch converts: the epoch comes back converted to
    TT, the position and the velocity as the cards give them, and the
    file is left as it was. *)
Theorem get_jwst_keywords_returns w t x y z dx dy dz w' :
  get_jwst_keywords w = (inr (t, (x, y, z), (dx, dy, dz)), w') ↔
  w' = w ∧
  ∃ h e, fd w !! 0 = Some h ∧
    cards (header h) !! "eph_time" = Some e ∧ Time_utc_tt e = Ok t ∧
    cards (header h) !! "jwst_x" = Some x ∧
    cards (header h) !! "jwst_y" = Some y ∧
    cards (header h) !! "jwst_z" = Some z ∧
    cards (header h) !! "jwst_dx" = Some dx ∧
    cards (header h) !! "jwst_dy" = Some dy ∧
    cards (header h) !! "jwst_dz" = Some dz.
Proof.
  rewrite get_jwst_keywords_run. unfold keywords, read_card. split.
  - destruct (fd w !! 0) as [h|] eqn:Hh; [|done].
    destruct (cards (header h) !! "eph_time") as [e|] eqn:He; [|done]. simpl.
    destruct (Time_utc_tt e) as [ex|t'] eqn:Ht; [done|]. simpl.
    destruct (cards (header h) !! "jwst_x") as [x'|] eqn:Hx; [|done]. simpl.
    destruct (cards (header h) !! "jwst_y") as [y'|] eqn:Hy; [|done]. simpl.
    destruct (cards (header h) !! "jwst_z") as [z'|] eqn:Hz; [|done]. simpl.
    destruct (cards (header h) !! "jwst_dx") as [dx'|] eqn:Hdx; [|done]. simpl.
    destruct (cards (header h) !! "jwst_dy") as [dy'|] eqn:Hdy; [|done]. simpl.
    destruct (cards (header h) !! "jwst_dz") as [dz'|] eqn:Hdz; [|done]. simpl.
    unfold mret, result_ret, Ok. intros [= <- <- <- <- <- <- <- <-].
    split; [done|]. by exists h, e.
  - intros (-> & h & e & -> & -> & Ht & -> & -> & -> & -> & -> & ->).
    simpl. by rewrite Ht.
Qed.

(** When a card is absent, [get_jwst_keywords] raises KeyError for the
    first absent keyword in the order it reads them, provided the epoch,
    if present, converts; a conversion that raises is what the call
    raises, whichever later cards are absent.  The file is left as it
    was. *)
Theorem get_jwst_keywords_first_absent w h :
  fd w !! 0 = Some h →
  (∀ n k,
     list_find (λ k, cards (header h) !! k = None) keyword_names = Some (n, k) →
     (∀ e, cards (header h) !! "eph_time" = Some e →
           ∃ t, Time_utc_tt e = Ok t) →
     get_jwst_keywords w = (inl (KeyError k), w)) ∧
  (∀ e ex,
     cards (header h) !! "eph_time" = Some e → Time_utc_tt e = Err ex →
     get_jwst_keywords w = (inl ex, w)).
Proof.
  intros Hh. rewrite get_jwst_keywords_run. unfold keywords, read_card.
  rewrite Hh. split.
  - intros n k Hfind Hconv. unfold keyword_names in Hfind. simpl in Hfind.
    destruct (cards (header h) !! "eph_time") as [e|] eqn:He.
    2:{ rewrite decide_True in Hfind by done. by injection Hfind as <- <-. }
    destruct (Hconv e eq_refl) as [t Ht]. simpl. rewrite Ht. simpl.
    rewrite decide_False in Hfind by done. simpl in Hfind.
    repeat match type of Hfind with
    | context [decide (cards (header h) !! ?key = None)] =>
        destruct (cards (header h) !! key) eqn:?; simpl;
          [rewrite decide_False in Hfind by done; simpl in Hfind
          |rewrite decide_True in Hfind by done; simpl in Hfind;
           by injection Hfind as <- <-]
    end.
    done.
  - intros e ex -> Ht. simpl. by rewrite Ht.
Qed.

End Keywords.

(** ** Shapes and exceptions of the numeric functions *)



Section Shapes.
Context {F : Type} {Sc : Scalar F} {Ex : Externals F}.





End Shapes.

Section RealShapes.
Context {Ex : Externals R}.



End RealShapes.

(** ** Geometry in real arithmetic *)

Section RealGeometry.
Context {Ex : Externals R}.
Local Open Scope R_scope.

(** The two channels of [get_jwst_position2] differ, row by row, by the
    Sun's barycentric position in km, whatever the platform position. *)
Theorem get_jwst_position2_channel_difference
    (times : list R) (jwstpos : list (vec3 R)) jpl bary helio i b h :
  get_jwst_position2 times jwstpos jpl = Ok (bary, helio) →
  bary !! i = Some b → helio !! i = Some h →
  ∃ t, bcast times i = Some t ∧
       vsub b h = vdiv (get_body_barycentric jpl Sun t) 1000.
Proof.
  intros Hrun Hb Hh.
  destruct (get_jwst_position2_broadcast _ _ _ _ _ i Hrun) as [Hbary Hhelio].
  destruct (Hbary b Hb) as (t & p & Ht & Hp & ->).
  destruct (Hhelio h Hh) as (t' & p' & Ht' & Hp' & ->).
  rewrite Ht in Ht'. injection Ht' as <-.
  rewrite Hp in Hp'. injection Hp' as <-.
  exists t. split; [done|].
  unfold bary_earth_km, sun_earth_km.
  destruct (get_body_barycentric jpl Earth t) as [[ex ey] ez].
  destruct (get_body_barycentric jpl Sun t) as [[sx sy] sz].
  destruct p as [[px py] pz]. simpl.
  f_equal; [f_equal|]; field.
Qed.

(** With one platform position per time, the barycentric time minus the
    heliocentric time of a row is the light time of the Sun's barycentric
    position along the target direction: it does not depend on where the
    platform is. *)
Theorem compute_bary_helio_time2_channel_difference
    (targetcoord : R * R) (times : list R) (jwstpos : list (vec3 R)) jpl
    bary helio i tb th :
  length jwstpos = length times →
  compute_bary_helio_time2 targetcoord times jwstpos jpl = Ok (bary, helio) →
  bary !! i = Some tb → helio !! i = Some th →
  ∃ u t, get_target_vector2 targetcoord = Ok u ∧ times !! i = Some t ∧
    tb - th =
      dot u (vdiv (get_body_barycentric jpl Sun t) 1000) / 299792.458 / 86400.
Proof.
  intros Hlen Hrun Hb Hh.
  destruct (get_target_vector2 targetcoord) as [ex|u] eqn:Hu.
  { unfold compute_bary_helio_time2 in Hrun. by rewrite Hu in Hrun. }
  rewrite (compute_bary_helio_time2_rows _ _ _ _ u) in Hrun by done.
  injection Hrun as <- <-.
  rewrite lookup_zip_with, list_lookup_fmap, lookup_zip_with,
    list_lookup_fmap in Hb, Hh.
  destruct (times !! i) as [t|]; [|done].
  destruct (jwstpos !! i) as [p|]; [|done].
  cbn [fmap option_fmap option_map] in Hb, Hh.
  injection Hb as <-. injection Hh as <-.
  exists u, t. split; [done|]. split; [done|].
  replace (299792458 / 1000) with 299792.458 by lra.
  unfold bary_earth_km, sun_earth_km.
  destruct (get_body_barycentric jpl Earth t) as [[ex ey] ez].
  destruct (get_body_barycentric jpl Sun t) as [[sx sy] sz].
  destruct p as [[px py] pz], u as [[ux uy] uz]. simpl.
  field; repeat split; lra.
Qed.

(** Cauchy-Schwarz for a unit direction. *)
Lemma dot_unit_bound (u v : vec3 R) : norm u = 1 → Rabs (dot u v) <= norm v.
Proof.
  intros Hu. unfold norm in *. simpl in *.
  assert (Hu1 : dot u u = 1).
  { assert (H0 : 0 <= dot u u).
    { destruct u as [[x y] z]. simpl. nra. }
    rewrite <- (sqrt_sqrt (dot u u)) by done. rewrite Hu. lra. }
  assert (Hcs : dot u v * dot u v <= dot v v).
  { destruct u as [[a b] c], v as [[x y] z]. simpl in *.
    assert (H1 := Rle_0_sqr (a * y - b * x)).
    assert (H2 := Rle_0_sqr (a * z - c * x)).
    assert (H3 := Rle_0_sqr (b * z - c * y)).
    unfold Rsqr in *. 
    replace (x * x + y * y + z * z)
      with ((a * a + b * b + c * c) * (x * x + y * y + z * z))
      by (rewrite Hu1; lra).
    nra. }
  rewrite <- sqrt_Rsqr_abs. apply sqrt_le_1_alt. exact Hcs.
Qed.

(** Moving the reference state along the track changes nothing: the
    positions extrapolated from the epoch [e'] and the position the track
    has there are those extrapolated from the original state. *)
Theorem linear_pos_reanchor (tt_times : list R) e e' (p v p' : vec3 R) :
  linear_pos [e'] e p v = [p'] →
  linear_pos tt_times e' p' v = linear_pos tt_times e p v.
Proof.
  destruct p as [[px py] pz], v as [[vx vy] vz], p' as [[qx qy] qz].
  simpl. intros [= <- <- <-]. apply list_fmap_ext. intros _ t _. simpl.
  f_equal; [f_equal|]; lra.
Qed.

(** Between two of the times the extrapolated position moves by the time
    difference times the velocity, whatever the epoch and the reference
    position. *)
Theorem linear_pos_displacement (tt_times : list R) e (p v : vec3 R) i j t1 t2 :
  tt_times !! i = Some t1 → tt_times !! j = Some t2 →
  ∃ r1 r2,
    linear_pos tt_times e p v !! i = Some r1 ∧
    linear_pos tt_times e p v !! j = Some r2 ∧
    vsub r2 r1 = ((t2 - t1) * v.1.1, (t2 - t1) * v.1.2, (t2 - t1) * v.2).
Proof.
  intros H1 H2. rewrite (linear_pos_lookup _ _ _ _ _ _ H1),
    (linear_pos_lookup _ _ _ _ _ _ H2).
  eexists _, _. split; [done|]. split; [done|].
  destruct p as [[px py] pz], v as [[vx vy] vz]. simpl.
  f_equal; [f_equal|]; lra.
Qed.

(** Whatever non-zero vector the coordinate library returns, the resolver
    returns it scaled to length one and pointing the same way. *)
Theorem get_target_vector2_normalises (ra dec : R) (v : vec3 R) :
  SkyCoord_cartesian ra dec = Ok v → 0 < dot v v →
  ∃ u, get_target_vector2 (ra, dec) = Ok u ∧ norm u = 1 ∧
       dot u v = norm v ∧ v = (norm v * u.1.1, norm v * u.1.2, norm v * u.2).
Proof.
  intros Hv Hpos. exists (vdiv v (fsqrt (dot v v))).
  split; [unfold get_target_vector2; by rewrite Hv|].
  split; [by apply normalise_unit|].
  destruct v as [[x y] z]. unfold norm. simpl in *.
  remember (sqrt (x * x + y * y + z * z)) as n eqn:En.
  assert (Hs : n * n = x * x + y * y + z * z)
    by (rewrite En; apply sqrt_sqrt; lra).
  assert (Hn : 0 < n) by (rewrite En; by apply sqrt_lt_R0).
  split.
  - replace (x / n * x + y / n * y + z / n * z)
      with ((x * x + y * y + z * z) / n) by (field; lra).
    rewrite <- Hs. field. lra.
  - f_equal; [f_equal|]; field; lra.
Qed.

End RealGeometry.

Section RealDirection.
Local Open Scope R_scope.
Context (time : R → result R) (ephemeris : bool → body → R → vec3 R)
  (tc : option (R * R → list R → result (list R * list R))).
Local Abbreviation astropy := (astropy_R time ephemeris tc).

Lemma get_target_vector2_spherical (ra dec : R) :
  -90 <= dec <= 90 →
  get_target_vector2 (Ex := astropy) (ra, dec) =
    Ok (cos (deg dec) * cos (deg ra), cos (deg dec) * sin (deg ra),
        sin (deg dec)).
Proof.
  intros Hdec. unfold get_target_vector2. simpl.
  rewrite SkyCoord_R_in_range by done. simpl.
  pose proof (spherical_dot (deg ra) (deg dec)) as Hdot. simpl in Hdot.
  rewrite Hdot, sqrt_1. unfold mret, result_ret, Ok.
  do 2 f_equal; [f_equal|]; field.
Qed.

(** For a declination in [-90, 90], both ends included, the resolver
    returns the spherical direction itself,
    (cos dec cos ra, cos dec sin ra, sin dec), whatever the right
    ascension: the normalisation changes nothing. *)
Theorem get_target_vector2_direction (ra dec : R) :
  -90 <= dec <= 90 →
  get_target_vector2 (Ex := astropy) (ra, dec) =
    Ok (cos (deg dec) * cos (deg ra), cos (deg dec) * sin (deg ra),
        sin (deg dec)).
Proof. apply get_target_vector2_spherical. Qed.

(** With one platform position per time and a declination in range, a
    barycentric correction never exceeds the light time over the length
    of the platform's barycentric vector: |tb - t| <= |vb| / c / 86400. *)
Theorem compute_bary_helio_time2_bounded
    (ra dec : R) (times : list R) (jwstpos : list (vec3 R)) jpl
    bv hv bary helio i t vb tb :
  -90 <= dec <= 90 →
  length jwstpos = length times →
  get_jwst_position2 (Ex := astropy) times jwstpos jpl = Ok (bv, hv) →
  compute_bary_helio_time2 (Ex := astropy) (ra, dec) times jwstpos jpl
    = Ok (bary, helio) →
  times !! i = Some t → bv !! i = Some vb → bary !! i = Some tb →
  Rabs (tb - t) <= norm vb / 299792.458 / 86400.
Proof.
  intros Hdec Hlen Hpos Hrun Ht Hvb Htb.
  pose proof (get_target_vector2_spherical ra dec Hdec) as Hu.
  set (u := (cos (deg dec) * cos (deg ra), cos (deg dec) * sin (deg ra),
             sin (deg dec)) : vec3 R) in *.
  assert (Hunit : norm u = 1).
  { unfold norm, u. rewrite spherical_dot. apply sqrt_1. }
  rewrite get_jwst_position2_rows in Hpos by done.
  rewrite (compute_bary_helio_time2_rows _ _ _ _ u) in Hrun by done.
  injection Hpos as <- <-. injection Hrun as <- <-.
  rewrite lookup_zip_with, Ht in Htb.
  rewrite list_lookup_fmap, Hvb in Htb.
  assert (Htb' : Some (t + light_days u vb) = Some tb) by exact Htb.
  apply (inj Some) in Htb'. rewrite <- Htb', light_days_R.
  replace (t + dot u vb / 299792.458 / 86400 - t)
    with (dot u vb / 299792.458 / 86400) by lra.
  pose proof (dot_unit_bound u vb Hunit) as Hb.
  unfold Rdiv. rewrite !Rabs_mult.
  rewrite (Rabs_pos_eq (/ 299792.458)), (Rabs_pos_eq (/ 86400)).
  - apply Rmult_le_compat_r; [|apply Rmult_le_compat_r; [|done]].
    + left. apply Rinv_0_lt_compat. lra.
    + left. apply Rinv_0_lt_compat. lra.
  - left. apply Rinv_0_lt_compat. lra.
  - left. apply Rinv_0_lt_compat. lra.
Qed.

End RealDirection.

(** ** What [utc_tdb] leaves of the file *)

Section FrameLemmas.
Context {F : Type}.
Implicit Types w : World F.

Lemma only_tdb_changed_refl (h : HDU F) : only_tdb_changed h h.
Proof. by repeat split. Qed.

Lemma only_tdb_changed_trans (h1 h2 h3 : HDU F) :
  only_tdb_changed h1 h2 → only_tdb_changed h2 h3 → only_tdb_changed h1 h3.
Proof.
  intros (Hh & Hr & Hc & Hd & Hp) (Hh' & Hr' & Hc' & Hd' & Hp').
  split; [congruence|]. split; [congruence|]. split; [|split].
  - intros name Hn. rewrite Hc', Hc; done.
  - intros name. by rewrite Hd', Hd.
  - by rewrite Hp', Hp.
Qed.

Lemma assign_slice_length (col values new : list F) :
  assign_slice col values = Ok new → length new = length col.
Proof.
  unfold assign_slice.
  destruct (decide (length values = length col)) as [Hlen|Hlen].
  - by intros [= <-].
  - destruct values as [|v [|v' values]]; [done| |done].
    intros [= <-]. by rewrite length_fmap.
Qed.

Lemma only_tdb_changed_set_column (h : HDU F) name col new :
  name ∈ tdb_names → columns (table h) !! name = Some col →
  length new = length col →
  only_tdb_changed h (set_column h name new).
Proof.
  intros Hn Hcol Hlen. split; [done|]. split; [done|]. split; [|split].
  - intros name' Hn'. apply set_column_lookup_ne. by intros ->.
  - intros name'. destruct (decide (name = name')) as [<-|Hne].
    + rewrite set_column_lookup, Hcol. simpl. by rewrite Hlen.
    + by rewrite set_column_lookup_ne.
  - apply data_of_column in Hcol. by split.
Qed.

Lemma wrote_tdb_only_refl i w : wrote_tdb_only i w w.
Proof.
  repeat split. intros h Hh. exists h. split; [done|].
  apply only_tdb_changed_refl.
Qed.

Lemma wrote_tdb_only_trans i w1 w2 w3 :
  wrote_tdb_only i w1 w2 → wrote_tdb_only i w2 w3 → wrote_tdb_only i w1 w3.
Proof.
  intros (Hc & Hl & Hn & Ho & Hi) (Hc' & Hl' & Hn' & Ho' & Hi').
  split; [congruence|]. split; [congruence|]. split; [congruence|]. split.
  - intros j Hj. rewrite Ho', Ho; done.
  - intros h Hh. destruct (Hi h Hh) as (h2 & Hh2 & H12).
    destruct (Hi' h2 Hh2) as (h3 & Hh3 & H23).
    exists h3. split; [done|]. by eapply only_tdb_changed_trans.
Qed.

Lemma wrote_tdb_only_logged i w w' entries :
  wrote_tdb_only i w w' → wrote_tdb_only i (logged w entries) (logged w' entries).
Proof.
  intros (Hc & Hl & Hn & Ho & Hi). repeat split; simpl; try done.
  by rewrite Hl.
Qed.

(** One assignment to a TDB column, whatever its outcome. *)
Lemma data_field_assign_frame i name values w r w' :
  name ∈ tdb_names →
  data_field_assign i name values w = (r, w') → wrote_tdb_only i w w'.
Proof.
  intros Hname. unfold data_field_assign.
  rewrite Py_bind_run, data_field_run.
  destruct (fd w !! i) as [h|] eqn:Hh.
  2:{ unfold read_column. rewrite Hh. intros [= _ <-].
      apply wrote_tdb_only_refl. }
  destruct (decide (data h = None)) as [Hd|Hd].
  { unfold read_column. rewrite Hh, Hd. intros [= _ <-].
    apply wrote_tdb_only_refl. }
  rewrite (read_column_table _ _ _ h) by done.
  destruct (columns (table h) !! name) as [col|] eqn:Hcol.
  2:{ intros [= _ <-]. apply wrote_tdb_only_refl. }
  unfold Ok. cbv beta iota. rewrite Py_bind_run. unfold lift.
  destruct (assign_slice col values) as [ex|new] eqn:Hnew.
  { intros [= _ <-]. apply wrote_tdb_only_refl. }
  apply assign_slice_length in Hnew.
  unfold fd_set_column. rewrite Hh. intros [= _ <-].
  split; [done|]. split; [done|]. split.
  { simpl. by rewrite length_insert. }
  split.
  - intros j Hj. simpl. by rewrite list_lookup_insert_ne.
  - intros h0 Hh0. rewrite Hh0 in Hh. injection Hh as ->.
    exists (set_column h name new). split.
    + simpl. apply list_lookup_insert_eq. by eapply lookup_lt_Some.
    + by eapply only_tdb_changed_set_column.
Qed.

(** The guarded write-back, whatever its outcome. *)
Lemma write_back_frame i s m e w r w' :
  write_back i s m e w = (r, w') → wrote_tdb_only i w w'.
Proof.
  assert (Hs : "int_start_BJD_TDB" ∈ tdb_names)
    by (apply list_elem_of_In; simpl; tauto).
  assert (Hm : "int_mid_BJD_TDB" ∈ tdb_names)
    by (apply list_elem_of_In; simpl; tauto).
  assert (He : "int_end_BJD_TDB" ∈ tdb_names)
    by (apply list_elem_of_In; simpl; tauto).
  unfold write_back, try_except. rewrite Py_bind_run.
  destruct (data_field_assign i "int_start_BJD_TDB" s w) as [[ex|[]] w1] eqn:H1;
    apply (data_field_assign_frame _ _ _ _ _ _ Hs) in H1.
  { destruct ex; intros [= _ <-]; done. }
  rewrite Py_bind_run.
  destruct (data_field_assign i "int_mid_BJD_TDB" m w1) as [[ex|[]] w2] eqn:H2;
    apply (data_field_assign_frame _ _ _ _ _ _ Hm) in H2.
  { destruct ex; intros [= _ <-]; by eapply wrote_tdb_only_trans. }
  rewrite Py_bind_run.
  destruct (data_field_assign i "int_end_BJD_TDB" e w2) as [[ex|[]] w3] eqn:H3;
    apply (data_field_assign_frame _ _ _ _ _ _ He) in H3.
  { destruct ex; intros [= _ <-];
      (eapply wrote_tdb_only_trans; [by eapply wrote_tdb_only_trans|done]). }
  intros [= _ <-].
  eapply wrote_tdb_only_trans; [by eapply wrote_tdb_only_trans|done].
Qed.

End FrameLemmas.

Section Outcomes.
Context {F : Type} {Sc : Scalar F} {Ex : Externals F}.
Implicit Types w : World F.

(** Every outcome of [utc_tdb]: what is logged, whether the file is
    closed, and what has become of the HDUs. *)
Lemma utc_tdb_outcome (filename : string) w o w' :
  utc_tdb filename w = (o, w') →
  ∃ i rest,
    log w' = log w ++ processing filename :: rest ∧
    fd_closed w' = (if o is inr _ then true else fd_closed w) ∧
    length (fd w') = length (fd w) ∧
    (∀ j, j ≠ i → fd w' !! j = fd w !! j) ∧
    (∀ h, fd w !! i = Some h →
          ∃ h', fd w' !! i = Some h' ∧ only_tdb_changed h h') ∧
    (fd w' = fd w ∨ ∃ h, table_at (fd w) i h).
Proof.
  assert (Hsame : ∀ h : HDU F, fd w !! 0 = Some h →
            ∃ h', fd w !! 0 = Some h' ∧ only_tdb_changed h h').
  { intros h Hh. exists h. split; [done|]. apply only_tdb_changed_refl. }
  rewrite utc_tdb_stages. unfold utc_tdb_staged.
  fold (processing filename).
  destruct (read_card w 0 "targ_ra") as [ex|ra].
  { intros [= <- <-]. exists 0, []. simpl. repeat split; by auto. }
  destruct (read_card w 0 "targ_dec") as [ex|dec].
  { intros [= <- <-]. exists 0, []. simpl. repeat split; by auto. }
  set (w1 := logged w _).
  destruct (find_hdu_int_times w1)
    as [(i & h & Htab & ->)|[(Hmiss & msg & ->)|(i & h & _ & ->)]].
  2:{ intros [= <- <-]. exists 0, [(WARNING, msg)]. simpl.
      rewrite <- app_assoc. repeat split; by auto. }
  2:{ intros [= <- <-]. exists 0, []. simpl. repeat split; by auto. }
  change (tt_columns w1 i) with (tt_columns w i).
  assert (Hkept : ∀ h0 : HDU F, fd w !! i = Some h0 →
            ∃ h', fd w !! i = Some h' ∧ only_tdb_changed h0 h').
  { intros h0 Hh. exists h0. split; [done|]. apply only_tdb_changed_refl. }
  destruct (tt_columns w i) as [ex|[[ts tm] te]].
  { intros [= <- <-]. exists i, []. simpl. repeat split; by auto. }
  change (provider w1 (ra, dec)) with (provider w (ra, dec)).
  destruct (provider w (ra, dec) ts tm te) as [ex|[[s m] e]].
  { intros [= <- <-]. exists i, provider_log. simpl.
    rewrite <- app_assoc. repeat split; by auto. }
  destruct (write_back i s m e (logged w1 provider_log))
    as [[ex|missing] w4] eqn:Hwb;
    apply write_back_frame in Hwb as (Hc & Hl & Hn & Ho & Hi);
    simpl in Hc, Hl, Hn, Ho, Hi; intros [= <- <-].
  - exists i, provider_log. rewrite Hl, <- app_assoc.
    repeat split; try done. right. by exists h.
  - exists i, (provider_log ++ missing_log missing). simpl.
    rewrite Hl, <- !app_assoc. repeat split; try done. right. by exists h.
Qed.

(** [utc_tdb] closes the file exactly when it returns: every returned
    value, sentinel or arrays, leaves the file closed, and every raised
    exception leaves it as open or closed as it was. *)
Theorem utc_tdb_closes_when_it_returns (filename : string) w :
  (∀ r w', utc_tdb filename w = (inr r, w') → fd_closed w' = true) ∧
  (∀ ex w', utc_tdb filename w = (inl ex, w') → fd_closed w' = fd_closed w).
Proof.
  split.
  - intros r w' Hrun.
    by destruct (utc_tdb_outcome _ _ _ _ Hrun) as (i & rest & _ & Hc & _).
  - intros ex w' Hrun.
    by destruct (utc_tdb_outcome _ _ _ _ Hrun) as (i & rest & _ & Hc & _).
Qed.

(** Whatever [utc_tdb] does, it keeps what was logged and adds to it,
    first of all the Processing line with the file name. *)
Theorem utc_tdb_logs_processing_first (filename : string) w o w' :
  utc_tdb filename w = (o, w') →
  ∃ rest, log w' = log w ++ (INFO, "Processing file " +:+ filename) :: rest.
Proof.
  intros Hrun.
  destruct (utc_tdb_outcome _ _ _ _ Hrun) as (i & rest & Hl & _).
  by exists rest.
Qed.

(** Whatever [utc_tdb] does, return or raise, the file keeps its HDUs:
    each one keeps its header, its row count, its column names with the
    length of every column, and the contents of every column other than
    the three TDB columns; the primary HDU and every HDU not named
    INT_TIMES is untouched. *)
Theorem utc_tdb_touches_tdb_columns_only (filename : string) w o w' :
  utc_tdb filename w = (o, w') →
  length (fd w') = length (fd w) ∧
  ∀ j h, fd w !! j = Some h →
    ∃ h', fd w' !! j = Some h' ∧ only_tdb_changed h h' ∧
          (j = 0 ∨ EXTNAME (header h) ≠ Some "INT_TIMES" → h' = h).
Proof.
  intros Hrun.
  destruct (utc_tdb_outcome _ _ _ _ Hrun)
    as (i & rest & _ & _ & Hn & Ho & Hi & Hfd).
  split; [done|]. intros j h Hh.
  destruct Hfd as [Hfd|(hi & Hnamed & Hhi & Hrows)].
  { exists h. rewrite Hfd. split; [done|].
    split; [apply only_tdb_changed_refl|done]. }
  destruct (decide (j = i)) as [->|Hne].
  - destruct (Hi h Hh) as (h' & Hh' & Hch). exists h'.
    split; [done|]. split; [done|].
    destruct (filter_singleton _ _ _ Hnamed) as (Hin & HP & _).
    apply elem_of_seq_tail in Hin.
    apply is_named_true in HP as (h0 & Hh0 & Hname).
    rewrite Hh in Hh0. injection Hh0 as <-.
    intros [->|Hnot]; [lia|done].
  - exists h. rewrite Ho by done. split; [done|].
    split; [apply only_tdb_changed_refl|done].
Qed.

End Outcomes.

(** ** Exceptions and the complete update *)

Section Failures.
Context {F : Type} {Sc : Scalar F} {Ex : Externals F}.
Implicit Types w : World F.

(** The target cards are read first, and outside any handler: without
    [targ_ra], or with it and without [targ_dec], [utc_tdb] raises
    KeyError for that card whatever else the file holds, having logged
    the Processing line only and leaving the file open. *)
Theorem utc_tdb_missing_target_card (filename : string) w h :
  fd w !! 0 = Some h →
  (cards (header h) !! "targ_ra" = None →
   utc_tdb filename w =
     (inl (KeyError "targ_ra"), logged w [processing filename])) ∧
  (∀ ra, cards (header h) !! "targ_ra" = Some ra →
         cards (header h) !! "targ_dec" = None →
   utc_tdb filename w =
     (inl (KeyError "targ_dec"), logged w [processing filename])).
Proof.
  intros Hh. rewrite utc_tdb_stages. unfold utc_tdb_staged, read_card.
  rewrite Hh. split.
  - by intros ->.
  - by intros ra -> ->.
Qed.

(** When the table is found and one of the three UTC columns is absent,
    [utc_tdb] raises KeyError for the first absent one in the order
    start, mid, end, provided the columns before it convert: nothing but
    the Processing line is logged, no provider is consulted, and the file
    is left open and unchanged. *)
Theorem utc_tdb_missing_input_column
    (filename : string) w ra dec i h n k :
  read_card w 0 "targ_ra" = Ok ra →
  read_card w 0 "targ_dec" = Ok dec →
  table_at (fd w) i h →
  list_find (λ k, columns (table h) !! k = None) utc_names = Some (n, k) →
  (∀ name col, columns (table h) !! name = Some col →
               ∃ ts, to_tt (s := array) col = Ok ts) →
  utc_tdb filename w = (inl (KeyError k), logged w [processing filename]).
Proof.
  intros Hra Hdec Htab Hfind Hconv.
  rewrite utc_tdb_stages. unfold utc_tdb_staged.
  rewrite Hra, Hdec. unfold Ok. cbv beta iota.
  fold (processing filename).
  rewrite (find_hdu_table _ i h) by done.
  change (tt_columns (logged w [processing filename]) i)
    with (tt_columns w i).
  assert (Htt : tt_columns w i = Err (KeyError k)).
  { destruct Htab as (_ & Hh & Hrows). unfold tt_columns.
    rewrite !(read_column_table _ _ _ h) by (done || by apply data_of_rows).
    unfold utc_names in Hfind. simpl in Hfind.
    repeat match type of Hfind with
    | context [decide (columns (table h) !! ?key = None)] =>
        let col := fresh "col" in
        let Hc := fresh "Hc" in
        let Hts := fresh "Hts" in
        destruct (columns (table h) !! key) as [col|] eqn:Hc;
          [rewrite decide_False in Hfind by done; simpl in Hfind;
           destruct (Hconv _ _ Hc) as [? Hts]; simpl in Hts |- *;
           rewrite Hts; simpl
          |rewrite decide_True in Hfind by done; simpl in Hfind;
           by injection Hfind as <- <-]
    end.
    done. }
  by rewrite Htt.
Qed.

(** In the fallback path the platform keywords are read before the
    target is resolved: when reading them raises, [utc_tdb] raises the
    same exception after the two fallback warnings, whatever the target
    coordinates are, and leaves the file open and unchanged. *)
Theorem utc_tdb_missing_keyword
    (filename : string) w ra dec i h ts tm te ex :
  timeconversion = None →
  read_card w 0 "targ_ra" = Ok ra →
  read_card w 0 "targ_dec" = Ok dec →
  table_at (fd w) i h →
  tt_columns w i = Ok (ts, tm, te) →
  (get_jwst_keywords w).1 = inl ex →
  utc_tdb filename w =
    (inl ex,
     logged w
       [processing filename;
        (WARNING, "Couldn't import the timeconversion module;");
        (WARNING,
         "using astropy.coordinates, and JWST position and velocity keywords.")]).
Proof.
  intros Htc Hra Hdec Htab Htt Hkw.
  rewrite get_jwst_keywords_run in Hkw. simpl in Hkw.
  rewrite utc_tdb_stages. unfold utc_tdb_staged.
  rewrite Hra, Hdec. unfold Ok. cbv beta iota.
  fold (processing filename).
  rewrite (find_hdu_table _ i h) by done.
  change (tt_columns (logged w [processing filename]) i)
    with (tt_columns w i). rewrite Htt. unfold Ok. cbv beta iota.
  change (provider (logged w [processing filename]) (ra, dec) ts tm te)
    with (provider w (ra, dec) ts tm te).
  unfold provider, provider_log. rewrite Htc, Hkw. simpl.
  by rewrite logged_logged.
Qed.

(** When the table is found, the computation succeeds and the three TDB
    columns are there with as many rows as the arrays, [utc_tdb] writes
    the three arrays it returns into those columns, touches nothing else
    of the table, logs no warning about the update, and closes the file:
    reading the columns back gives the returned arrays. *)
Theorem utc_tdb_full_write_back
    (filename : string) w ra dec i h ts tm te s m e cs cm ce :
  read_card w 0 "targ_ra" = Ok ra →
  read_card w 0 "targ_dec" = Ok dec →
  table_at (fd w) i h →
  tt_columns w i = Ok (ts, tm, te) →
  provider w (ra, dec) ts tm te = Ok (s, m, e) →
  columns (table h) !! "int_start_BJD_TDB" = Some cs → length s = length cs →
  columns (table h) !! "int_mid_BJD_TDB" = Some cm → length m = length cm →
  columns (table h) !! "int_end_BJD_TDB" = Some ce → length e = length ce →
  ∃ w' h',
    utc_tdb filename w = (inr (PyArray s, PyArray m, PyArray e), w') ∧
    fd_closed w' = true ∧
    log w' = log w ++ processing filename :: provider_log ∧
    fd w' = <[i := h']> (fd w) ∧
    read_column w' i "int_start_BJD_TDB" = Ok s ∧
    read_column w' i "int_mid_BJD_TDB" = Ok m ∧
    read_column w' i "int_end_BJD_TDB" = Ok e ∧
    only_tdb_changed h h'.
Proof.
  intros Hra Hdec Htab Htt Hprov Hs Hls Hm Hlm He Hle.
  rewrite (utc_tdb_computed _ _ ra dec i h ts tm te s m e) by done.
  destruct Htab as (_ & Hh & _).
  rewrite (write_back_all _ _ _ _ _ h cs cm ce) by done.
  set (h' := set_column (set_column (set_column h "int_start_BJD_TDB" s)
                           "int_mid_BJD_TDB" m) "int_end_BJD_TDB" e).
  assert (Hh' : <[i := h']> (fd w) !! i = Some h').
  { apply list_lookup_insert_eq. by eapply lookup_lt_Some. }
  eexists _, h'. split; [reflexivity|].
  split; [done|]. split; [simpl; by rewrite app_nil_r|]. split; [done|].
  rewrite !(read_column_table _ _ _ h') by done.
  unfold h' at 1 2 3.
  rewrite set_column_lookup.
  rewrite (set_column_lookup_ne _ "int_end_BJD_TDB" "int_mid_BJD_TDB") by done.
  rewrite set_column_lookup.
  rewrite (set_column_lookup_ne _ "int_end_BJD_TDB" "int_start_BJD_TDB") by done.
  rewrite (set_column_lookup_ne _ "int_mid_BJD_TDB" "int_start_BJD_TDB") by done.
  rewrite set_column_lookup.
  do 3 (split; [done|]).
  set (h1 := set_column h "int_start_BJD_TDB" s).
  set (h2 := set_column h1 "int_mid_BJD_TDB" m).
  assert (H1 : only_tdb_changed h h1).
  { apply (only_tdb_changed_set_column h _ cs); [|done..].
    apply list_elem_of_In; simpl; tauto. }
  assert (H2 : only_tdb_changed h1 h2).
  { apply (only_tdb_changed_set_column h1 _ cm); [| |done].
    - apply list_elem_of_In; simpl; tauto.
    - unfold h1. by rewrite set_column_lookup_ne. }
  assert (H3 : only_tdb_changed h2 h').
  { apply (only_tdb_changed_set_column h2 _ ce); [| |done].
    - apply list_elem_of_In; simpl; tauto.
    - unfold h2, h1. by rewrite !set_column_lookup_ne. }
  exact (only_tdb_changed_trans _ _ _
           (only_tdb_changed_trans _ _ _ H1 H2) H3).
Qed.

End Failures.

(** ** Running again *)

Section Rerun.
Context {F : Type} {Sc : Scalar F} {Ex : Externals F}.
Implicit Types w : World F.

Lemma same_but_tdb_lookup (hdus hdus2 : list (HDU F)) j :
  same_but_tdb hdus hdus2 →
  option_Forall2 only_tdb_changed (hdus !! j) (hdus2 !! j).
Proof.
  intros [Hlen Hall]. destruct (hdus !! j) as [h|] eqn:Hh.
  - destruct (Hall j h Hh) as (h2 & -> & Hch). by constructor.
  - apply lookup_ge_None in Hh. rewrite (proj2 (lookup_ge_None hdus2 j)) by lia.
    constructor.
Qed.

Lemma same_but_tdb_read_card w w2 i key :
  same_but_tdb (fd w) (fd w2) → read_card w2 i key = read_card w i key.
Proof.
  intros Hs. unfold read_card.
  destruct (same_but_tdb_lookup _ _ i Hs) as [h h2 (Hh & _)|]; [|done].
  by rewrite Hh.
Qed.

Lemma same_but_tdb_read_column w w2 i name :
  same_but_tdb (fd w) (fd w2) → name ∉ tdb_names →
  read_column w2 i name = read_column w i name.
Proof.
  intros Hs Hn. unfold read_column.
  destruct (same_but_tdb_lookup _ _ i Hs)
    as [h h2 (_ & _ & Hc & _ & Hp)|]; [|done].
  specialize (Hc name Hn). unfold table in Hc.
  destruct (data h) as [t|], (data h2) as [t2|]; simpl in Hc.
  - by rewrite Hc.
  - discriminate (proj1 Hp eq_refl).
  - discriminate (proj2 Hp eq_refl).
  - done.
Qed.

Lemma same_but_tdb_hdus_named (hdus hdus2 : list (HDU F)) name :
  same_but_tdb hdus hdus2 → hdus_named hdus2 name = hdus_named hdus name.
Proof.
  intros Hs. unfold hdus_named. rewrite (proj1 Hs).
  apply List.filter_ext. intros j. unfold is_named.
  destruct (same_but_tdb_lookup _ _ j Hs) as [h h2 (Hh & _)|]; [|done].
  by rewrite Hh.
Qed.

Lemma same_but_tdb_find_hdu extname w w2 :
  same_but_tdb (fd w) (fd w2) →
  (find_hdu extname w2).1 = (find_hdu extname w).1 ∧
  ∀ i, (find_hdu extname w).1 = inr i →
       find_hdu extname w = (inr i, w) ∧ find_hdu extname w2 = (inr i, w2).
Proof.
  intros Hs. rewrite !find_hdu_run, (same_but_tdb_hdus_named _ _ _ Hs).
  destruct (hdus_named (fd w) (upper extname)) as [|i [|j l]]; [done| |done].
  destruct (same_but_tdb_lookup _ _ i Hs)
    as [h h2 (_ & Hr & _ & _ & Hp)|]; [|done].
  unfold table in Hr.
  destruct (data h) as [t|], (data h2) as [t2|]; simpl in Hr.
  - rewrite Hr. destruct (decide (nrows t < 1)); [done|].
    split; [done|]. simpl. by intros ? [= <-].
  - discriminate (proj1 Hp eq_refl).
  - discriminate (proj2 Hp eq_refl).
  - done.
Qed.

Lemma assign_slice_respects (col col2 values : list F) :
  length col = length col2 → assign_slice col2 values = assign_slice col values.
Proof.
  intros Hlen. unfold assign_slice. rewrite Hlen.
  destruct (decide (length values = length col2)); [done|].
  destruct values as [|v [|v' values]]; [done| |done].
  f_equal. clear n. revert col2 Hlen.
  induction col as [|x col IH]; intros [|y col2] Hlen; simpl in *; try done.
  f_equal. apply IH. lia.
Qed.

Lemma same_lengths_set_column (h h2 : HDU F) name new :
  same_lengths h h2 → same_lengths (set_column h name new) (set_column h2 name new).
Proof.
  intros [_ Hs]. split; [done|].
  intros name'. destruct (decide (name = name')) as [<-|Hne].
  - by rewrite !set_column_lookup.
  - rewrite !set_column_lookup_ne by done. apply Hs.
Qed.

(** One assignment gives the same outcome on two tables of the same
    column lengths, and leaves them so. *)
Lemma data_field_assign_respects i name values w w2 :
  option_Forall2 same_lengths (fd w !! i) (fd w2 !! i) →
  (data_field_assign i name values w2).1 = (data_field_assign i name values w).1 ∧
  option_Forall2 same_lengths
    (fd (data_field_assign i name values w).2 !! i)
    (fd (data_field_assign i name values w2).2 !! i).
Proof.
  intros Hs. unfold data_field_assign.
  rewrite !Py_bind_run, !data_field_run.
  destruct (fd w !! i) as [h|] eqn:Hh; destruct (fd w2 !! i) as [h2|] eqn:Hh2;
    inversion Hs as [? ? [Hp Hl]|]; subst.
  2:{ unfold read_column. rewrite Hh, Hh2. simpl. rewrite Hh, Hh2.
      split; [done|constructor]. }
  destruct (decide (data h = None)) as [Hd|Hd].
  { assert (Hd2 : data h2 = None) by (by apply Hp).
    unfold read_column. rewrite Hh, Hh2, Hd, Hd2. simpl. rewrite Hh, Hh2.
    split; [done|]. constructor. by split. }
  assert (Hd2 : data h2 ≠ None) by (intros ?; apply Hd; by apply Hp).
  rewrite (read_column_table w _ _ h), (read_column_table w2 _ _ h2) by done.
  pose proof (Hl name) as Hname.
  destruct (columns (table h) !! name) as [col|] eqn:Hc;
    destruct (columns (table h2) !! name) as [col2|] eqn:Hc2; try done.
  2:{ simpl. rewrite Hh, Hh2. split; [done|]. constructor. by split. }
  injection Hname as Hlen. unfold Ok. cbv beta iota.
  rewrite !Py_bind_run. unfold lift.
  rewrite (assign_slice_respects col col2) by done.
  destruct (assign_slice col values) as [ex|new].
  { simpl. rewrite Hh, Hh2. split; [done|]. constructor. by split. }
  unfold fd_set_column. rewrite Hh, Hh2. simpl. split; [done|].
  rewrite !list_lookup_insert_eq by (by eapply lookup_lt_Some).
  constructor. by apply same_lengths_set_column.
Qed.

Lemma write_back_respects i s m e w w2 :
  option_Forall2 same_lengths (fd w !! i) (fd w2 !! i) →
  (write_back i s m e w2).1 = (write_back i s m e w).1.
Proof.
  intros Hs. unfold write_back, try_except. rewrite !Py_bind_run.
  destruct (data_field_assign_respects i "int_start_BJD_TDB" s w w2 Hs)
    as [H1 Hs1].
  destruct (data_field_assign i "int_start_BJD_TDB" s w) as [r1 w1].
  destruct (data_field_assign i "int_start_BJD_TDB" s w2) as [r1' w1'].
  simpl in H1, Hs1. subst r1'. destruct r1 as [ex|[]].
  { by destruct ex. }
  rewrite !Py_bind_run.
  destruct (data_field_assign_respects i "int_mid_BJD_TDB" m w1 w1' Hs1)
    as [H2 Hs2].
  destruct (data_field_assign i "int_mid_BJD_TDB" m w1) as [r2 w2a].
  destruct (data_field_assign i "int_mid_BJD_TDB" m w1') as [r2' w2'].
  simpl in H2, Hs2. subst r2'. destruct r2 as [ex|[]].
  { by destruct ex. }
  rewrite !Py_bind_run.
  destruct (data_field_assign_respects i "int_end_BJD_TDB" e w2a w2' Hs2)
    as [H3 Hs3].
  destruct (data_field_assign i "int_end_BJD_TDB" e w2a) as [r3 w3].
  destruct (data_field_assign i "int_end_BJD_TDB" e w2') as [r3' w3'].
  simpl in H3, Hs3. subst r3'. destruct r3 as [ex|[]].
  { by destruct ex. }
  done.
Qed.

(** The value or exception of [utc_tdb] is the same on two files that
    differ in the contents of TDB columns only. *)
Lemma utc_tdb_respects (filename : string) w w2 :
  same_but_tdb (fd w) (fd w2) →
  (utc_tdb filename w2).1 = (utc_tdb filename w).1.
Proof.
  intros Hs. rewrite !utc_tdb_stages. unfold utc_tdb_staged.
  rewrite !(same_but_tdb_read_card w w2) by done.
  destruct (read_card w 0 "targ_ra") as [ex|ra]; [done|].
  destruct (read_card w 0 "targ_dec") as [ex|dec]; [done|].
  set (w1 := logged w _). set (w1' := logged w2 _).
  assert (Hs1 : same_but_tdb (fd w1) (fd w1')) by done.
  destruct (same_but_tdb_find_hdu "int_times" w1 w1' Hs1) as [Hf Hfound].
  destruct (find_hdu "int_times" w1) as [[ex|i] wa] eqn:Ha;
    destruct (find_hdu "int_times" w1') as [[ex'|i'] wb] eqn:Hb;
    simpl in Hf; try done.
  { injection Hf as ->. by destruct ex. }
  injection Hf as ->.
  destruct (Hfound i eq_refl) as [[= ->] [= ->]].
  assert (Htt : tt_columns w1' i = tt_columns w1 i).
  { unfold tt_columns.
    rewrite !(same_but_tdb_read_column w1 w1') by
      (done || (intros Hin; apply list_elem_of_In in Hin; simpl in Hin;
                intuition discriminate)).
    done. }
  rewrite Htt. destruct (tt_columns w1 i) as [ex|[[ts tm] te]]; [done|].
  assert (Hprov : provider w1' (ra, dec) ts tm te
                  = provider w1 (ra, dec) ts tm te).
  { unfold provider, keywords.
    by rewrite !(same_but_tdb_read_card w1 w1') by done. }
  rewrite Hprov.
  destruct (provider w1 (ra, dec) ts tm te) as [ex|[[s m] e]]; [done|].
  assert (Hwb : (write_back i s m e (logged w1' provider_log)).1
                = (write_back i s m e (logged w1 provider_log)).1).
  { apply write_back_respects. simpl.
    destruct (same_but_tdb_lookup _ _ i Hs)
      as [h h2 (_ & _ & _ & Hl & Hp)|]; constructor.
    split; [by rewrite Hp|]. intros name. symmetry. apply Hl. }
  destruct (write_back i s m e (logged w1 provider_log)) as [r4 w4].
  destruct (write_back i s m e (logged w1' provider_log)) as [r4' w4'].
  simpl in Hwb. subst r4'. by destruct r4.
Qed.

(** The contents of the TDB columns take no part in the result: on two
    files that differ in them only, [utc_tdb] returns the same value or
    raises the same exception. *)
Theorem utc_tdb_ignores_tdb_contents (filename : string) w w2 :
  length (fd w2) = length (fd w) →
  (∀ j h, fd w !! j = Some h →
          ∃ h2, fd w2 !! j = Some h2 ∧ only_tdb_changed h h2) →
  (utc_tdb filename w2).1 = (utc_tdb filename w).1.
Proof. intros Hlen Hall. by apply utc_tdb_respects. Qed.

(** Running [utc_tdb] again on the file it has left gives the same
    value, or the same exception, as the first run. *)
Theorem utc_tdb_rerun (filename : string) w o w' w2 :
  utc_tdb filename w = (o, w') → fd w2 = fd w' →
  (utc_tdb filename w2).1 = o.
Proof.
  intros Hrun Hfd.
  destruct (utc_tdb_outcome _ _ _ _ Hrun)
    as (i & rest & _ & _ & Hn & Ho & Hi & _).
  rewrite (utc_tdb_respects filename w w2), Hrun; [done|].
  rewrite Hfd. split; [done|]. intros j h Hh.
  destruct (decide (j = i)) as [->|Hne]; [by apply Hi|].
  exists h. rewrite Ho by done. split; [done|]. apply only_tdb_changed_refl.
Qed.

End Rerun.

(** ** The ephemeris in use *)

Section Ephemeris.
Context {F : Type} {Sc : Scalar F}.
Implicit Types w : World F.

Lemma compute_bary_helio_time2_default (Ex1 Ex2 : Externals F)
    targetcoord times jwstpos :
  SkyCoord_cartesian (Externals := Ex1) = SkyCoord_cartesian (Externals := Ex2) →
  (∀ b t, get_body_barycentric (Externals := Ex1) false b t =
          get_body_barycentric (Externals := Ex2) false b t) →
  compute_bary_helio_time2 (Ex := Ex1) targetcoord times jwstpos false =
  compute_bary_helio_time2 (Ex := Ex2) targetcoord times jwstpos false.
Proof.
  intros Hsky Heph.
  unfold compute_bary_helio_time2, get_target_vector2, get_jwst_position2.
  rewrite Hsky.
  rewrite (list_fmap_ext (get_body_barycentric (Externals := Ex1) false Earth)
             (get_body_barycentric (Externals := Ex2) false Earth) times)
    by (intros; apply Heph).
  rewrite (list_fmap_ext (get_body_barycentric (Externals := Ex1) false Sun)
             (get_body_barycentric (Externals := Ex2) false Sun) times)
    by (intros; apply Heph).
  done.
Qed.

(** [utc_tdb] always calls the fallback corrector with the default
    ephemeris: two sets of libraries that agree on the time conversion,
    the coordinates, the [timeconversion] module and the default
    ephemeris give the same outcome, whatever the JPL ephemeris holds. *)
Theorem utc_tdb_default_ephemeris (Ex1 Ex2 : Externals F) filename w :
  Time_utc_tt (Externals := Ex1) = Time_utc_tt (Externals := Ex2) →
  SkyCoord_cartesian (Externals := Ex1) = SkyCoord_cartesian (Externals := Ex2) →
  timeconversion (Externals := Ex1) = timeconversion (Externals := Ex2) →
  (∀ b t, get_body_barycentric (Externals := Ex1) false b t =
          get_body_barycentric (Externals := Ex2) false b t) →
  utc_tdb (Ex := Ex1) filename w = utc_tdb (Ex := Ex2) filename w.
Proof.
  intros Htime Hsky Htc Heph.
  rewrite !utc_tdb_stages. unfold utc_tdb_staged.
  assert (Htt : ∀ w0 i, tt_columns (Ex := Ex1) w0 i = tt_columns (Ex := Ex2) w0 i).
  { intros w0 i. unfold tt_columns, to_tt. by rewrite Htime. }
  assert (Hkw : ∀ w0, keywords (Ex := Ex1) w0 = keywords (Ex := Ex2) w0).
  { intros w0. unfold keywords, to_tt. by rewrite Htime. }
  assert (Hlog : provider_log (Ex := Ex1) = provider_log (Ex := Ex2)).
  { unfold provider_log. by rewrite Htc. }
  assert (Hprov : ∀ w0 c ts tm te,
            provider (Ex := Ex1) w0 c ts tm te = provider (Ex := Ex2) w0 c ts tm te).
  { intros w0 c ts tm te. unfold provider. rewrite Htc, Hkw.
    destruct (timeconversion (Externals := Ex2)); [done|].
    destruct (keywords w0) as [ex|[[eph p] v]]; [done|].
    unfold fallback_bary. simpl.
    by rewrite !(compute_bary_helio_time2_default Ex1 Ex2). }
  destruct (read_card w 0 "targ_ra") as [ex|ra]; [done|].
  destruct (read_card w 0 "targ_dec") as [ex|dec]; [done|].
  destruct (find_hdu "int_times" _) as [[ex|i] w2]; [done|].
  rewrite Htt. destruct (tt_columns w2 i) as [ex|[[ts tm] te]]; [done|].
  rewrite Hprov, Hlog. done.
Qed.

End Ephemeris.

(** ** The time conversion in binary64 *)

Section TimeValidation.
Import PrimFloat Binary64.
Local Open Scope float_scope.
Set Warnings "-inexact-float".
Context (middle : float → result float).
Local Abbreviation library := (astropy_sample middle).



End TimeValidation.

(** * Sample runs in binary64 *)

Section Binary64Runs.
Import PrimFloat Binary64.
Local Open Scope float_scope.
Set Warnings "-inexact-float".

Example linear_pos_binary64 :
  linear_pos [59001] 59000 (1000000, 0, 0) (1, 0, 0) = [(1000001, 0, 0)].
Proof. vm_compute. reflexivity. Qed.

Example utc_tdb_binary64 :
  utc_tdb "jw.fits"
    (opened [primary; int_times ["int_start_BJD_TDB"; "int_mid_BJD_TDB";
                                 "int_end_BJD_TDB"]]) =
    (inr (PyArray tdb_start, PyArray tdb_mid, PyArray tdb_end),
     {| fd := [primary;
               set_column (set_column (set_column (int_times [])
                 "int_start_BJD_TDB" tdb_start) "int_mid_BJD_TDB" tdb_mid)
                 "int_end_BJD_TDB" tdb_end];
        fd_closed := true;
        log := [(INFO, "Processing file jw.fits");
                (WARNING, "Couldn't import the timeconversion module;");
                (WARNING, "using astropy.coordinates, and JWST position and velocity keywords.")] |}).
Proof. vm_compute. reflexivity. Qed.

(** The C4 theorem at one time and one platform position. *)
Lemma get_jwst_position2_channels_sample :
  ∃ bary helio,
    get_jwst_position2 [59000] [(1000000, 0, 0)] false = Ok (bary, helio) ∧
    length bary = length [59000] ∧ length helio = length [59000] ∧
    ∀ i t p, [59000] !! i = Some t → [(1000000, 0, 0)] !! i = Some p →
      bary !! i =
        Some (vadd (vdiv (get_body_barycentric false Earth t) (of_Z 1000)) p) ∧
      helio !! i =
        Some (vadd (vdiv (vsub (get_body_barycentric false Earth t)
                               (get_body_barycentric false Sun t))
                         (of_Z 1000)) p).
Proof.
  apply (proj1 (get_jwst_position2_channels [59000] [(1000000, 0, 0)] false)).
  reflexivity.
Defined.

Example get_jwst_position2_binary64 :
  get_jwst_position2 [59000] [(1000000, 0, 0)] false =
    Ok ([(-25000000, 132000000, 57000000)],
        [(-24000000, 131500000, 56800000)]).
Proof. vm_compute. reflexivity. Qed.

(** The C3 theorem on a file that has only a primary HDU. *)
Lemma utc_tdb_missing_table_sample :
  ∃ msg,
    utc_tdb "jw.fits" (opened [primary]) =
      (inr sentinel,
       closed (logged (opened [primary])
                 [processing "jw.fits"; (WARNING, msg)])) ∧
    (msg = required_msg "int_times" ∨ msg = two_hdus_msg "INT_TIMES").
Proof.
  apply (proj1 (utc_tdb_missing_table "jw.fits" (opened [primary]) 0 0
                  eq_refl eq_refl)).
  left. reflexivity.
Defined.

(** C3 as stated fails: a file with no INT_TIMES extension whose primary
    header has no [targ_ra] card makes [utc_tdb] raise KeyError, and a
    file whose INT_TIMES extension has no data makes it raise
    TypeError. *)
Lemma utc_tdb_missing_table_raises :
  table_missing (fd (opened [bare])) ∧
  utc_tdb "jw.fits" (opened [bare]) =
    (inl (KeyError "targ_ra"),
     logged (opened [bare]) [processing "jw.fits"]) ∧
  hdus_named (fd (opened [primary; without_data])) "INT_TIMES" = [1%nat] ∧
  utc_tdb "jw.fits" (opened [primary; without_data]) =
    (inl (TypeError len_none_msg),
     logged (opened [primary; without_data]) [processing "jw.fits"]).
Proof. split; [left|repeat split]; reflexivity. Qed.

(** The C9 theorem on the sample file without TDB columns. *)
Lemma utc_tdb_missing_output_columns_sample :
  ∃ w',
    utc_tdb "jw.fits" (opened [primary; int_times []]) =
      (inr (PyArray tdb_start, PyArray tdb_mid, PyArray tdb_end), w') ∧
    fd w' = [primary; int_times []] ∧ fd_closed w' = true ∧
    log w' = [] ++ processing "jw.fits" :: provider_log ++
      [(WARNING, "One or more of the *BJD_TDB columns do not exist,");
       (WARNING, "so the INT_TIMES table was not updated.")].
Proof.
  apply (utc_tdb_missing_output_columns "jw.fits"
           (opened [primary; int_times []]) 0 0 1 (int_times [])
           tt_start tt_mid tt_end tdb_start tdb_mid tdb_end).
  - reflexivity.
  - reflexivity.
  - repeat split. simpl. lia.
  - vm_compute. reflexivity.
  - vm_compute. reflexivity.
  - reflexivity.
  - reflexivity.
  - reflexivity.
Defined.

(** The C10 theorem on the sample file whose end column is absent. *)
Lemma utc_tdb_partial_write_back_sample :
  ∃ w' h',
    utc_tdb "jw.fits"
      (opened [primary; int_times ["int_start_BJD_TDB"; "int_mid_BJD_TDB"]]) =
      (inr (PyArray tdb_start, PyArray tdb_mid, PyArray tdb_end), w') ∧
    fd_closed w' = true ∧
    (WARNING, "so the INT_TIMES table was not updated.") ∈ log w' ∧
    fd w' = <[1%nat := h']>
              [primary; int_times ["int_start_BJD_TDB"; "int_mid_BJD_TDB"]] ∧
    columns (table h') !! "int_start_BJD_TDB" = Some tdb_start ∧
    columns (table h') !! "int_mid_BJD_TDB" = Some tdb_mid ∧
    columns (table h') !! "int_end_BJD_TDB" = None.
Proof.
  refine (proj2 (utc_tdb_partial_write_back "jw.fits"
           (opened [primary; int_times ["int_start_BJD_TDB"; "int_mid_BJD_TDB"]])
           0 0 1 (int_times ["int_start_BJD_TDB"; "int_mid_BJD_TDB"])
           tt_start tt_mid tt_end tdb_start tdb_mid tdb_end [0; 0]
           _ _ _ _ _ _ _) [0; 0] _ _ _).
  - reflexivity.
  - reflexivity.
  - repeat split. simpl. lia.
  - vm_compute. reflexivity.
  - vm_compute. reflexivity.
  - reflexivity.
  - reflexivity.
  - reflexivity.
  - reflexivity.
  - reflexivity.
Defined.

Example utc_tdb_partial_binary64 :
  fd (utc_tdb "jw.fits"
        (opened [primary; int_times ["int_start_BJD_TDB"; "int_mid_BJD_TDB"]])).2
  = [primary;
     set_column (set_column (int_times []) "int_start_BJD_TDB" tdb_start)
       "int_mid_BJD_TDB" tdb_mid].
Proof. vm_compute. reflexivity. Qed.

(** The C5 theorem on the sample file with all its columns. *)
Lemma utc_tdb_returns_barycentric_sample :
  let w := opened [primary; int_times ["int_start_BJD_TDB"; "int_mid_BJD_TDB";
                                       "int_end_BJD_TDB"]] in
  utc_tdb "jw.fits" w =
    (inr (PyArray tdb_start, PyArray tdb_mid, PyArray tdb_end),
     (utc_tdb "jw.fits" w).2) ∧
  ((table_missing (fd w) ∧
    (PyArray tdb_start, PyArray tdb_mid, PyArray tdb_end) = sentinel) ∨
   ∃ ra dec i h cs cm ce ts tm te s m e,
     read_card w 0 "targ_ra" = Ok ra ∧ read_card w 0 "targ_dec" = Ok dec ∧
     table_at (fd w) i h ∧
     columns (table h) !! "int_start_MJD_UTC" = Some cs ∧
     columns (table h) !! "int_mid_MJD_UTC" = Some cm ∧
     columns (table h) !! "int_end_MJD_UTC" = Some ce ∧
     to_tt (s := array) cs = Ok ts ∧ to_tt (s := array) cm = Ok tm ∧
     to_tt (s := array) ce = Ok te ∧
     (PyArray tdb_start, PyArray tdb_mid, PyArray tdb_end)
       = (PyArray s, PyArray m, PyArray e) ∧
     ∃ eph_time jwst_pos jwst_vel u,
       keywords w = Ok (eph_time, jwst_pos, jwst_vel) ∧
       get_target_vector2 (ra, dec) = Ok u ∧
       fst <$> compute_bary_helio_time2 (ra, dec) ts
                 (linear_pos ts eph_time jwst_pos jwst_vel) false = Ok s ∧
       fst <$> compute_bary_helio_time2 (ra, dec) tm
                 (linear_pos tm eph_time jwst_pos jwst_vel) false = Ok m ∧
       fst <$> compute_bary_helio_time2 (ra, dec) te
                 (linear_pos te eph_time jwst_pos jwst_vel) false = Ok e ∧
       fallback_column u (eph_time, jwst_pos, jwst_vel) cs s ∧
       fallback_column u (eph_time, jwst_pos, jwst_vel) cm m ∧
       fallback_column u (eph_time, jwst_pos, jwst_vel) ce e).
Proof.
  intros w.
  assert (Hrun : utc_tdb "jw.fits" w =
            (inr (PyArray tdb_start, PyArray tdb_mid, PyArray tdb_end),
             (utc_tdb "jw.fits" w).2)).
  { vm_compute. reflexivity. }
  split; [exact Hrun|].
  exact (utc_tdb_returns_barycentric "jw.fits" w _ _ Hrun).
Defined.

(** C1 as stated fails in binary64: for the target (0, 0), the time
    MJD 59000 and the platform at the Earth's centre, the corrected
    barycentric time minus the input time differs from
    [dot u v / c / 86400] by more than 1e-12 days (the spacing of doubles
    near 59000 is 7.3e-12). *)
Lemma light_time_rounding_binary64 :
  get_target_vector2 (0, 0) = Ok (1, 0, 0) ∧
  get_jwst_position2 [59000] [(0, 0, 0)] false =
    Ok ([(-26000000, 132000000, 57000000)],
        [(-25000000, 131500000, 56800000)]) ∧
  compute_bary_helio_time2 (0, 0) [59000] [(0, 0, 0)] false =
    Ok ([58999.998996219161], [58999.999034826113]) ∧
  (c_value / of_Z 1000)%sc = 299792.458 ∧
  (1e-12 <? abs ((58999.998996219161 - 59000)
                 - dot (1, 0, 0) (-26000000, 132000000, 57000000)
                   / 299792.458 / 86400)) = true.
Proof. repeat split; vm_compute; reflexivity. Qed.



(** [find_hdu] on the sample file: extension 1 is the table. *)
Lemma find_hdu_returns_sample :
  find_hdu "int_times" (opened [primary; int_times []]) =
    (inr 1%nat, opened [primary; int_times []]).
Proof.
  apply (proj2 (find_hdu_returns "int_times" (opened [primary; int_times []])
                  1 (opened [primary; int_times []]))).
  split; [reflexivity|]. split; [lia|]. split.
  - exists (int_times []). repeat split. simpl. lia.
  - intros j h Hj Hh Hname.
    destruct j as [|[|j]]; [lia|reflexivity|discriminate Hh].
Defined.

(** [find_hdu] on a file whose INT_TIMES extension has no data: the file
    stays open. *)
Lemma find_hdu_raises_sample :
  find_hdu "int_times" (opened [primary; without_data]) =
    (inl (TypeError len_none_msg), opened [primary; without_data]).
Proof.
  apply (proj2 (find_hdu_raises "int_times"
                  (opened [primary; without_data]) _ _)).
  right. right. split; [reflexivity|]. split; [reflexivity|].
  exists 1%nat, without_data. repeat split.
Defined.

(** The name in mixed case finds the table as the lower-case name does. *)
Lemma find_hdu_case_insensitive_sample :
  find_hdu "Int_Times" (opened [primary; int_times []]) =
    (inr 1%nat, opened [primary; int_times []]) ↔
  find_hdu "int_times" (opened [primary; int_times []]) =
    (inr 1%nat, opened [primary; int_times []]).
Proof.
  apply (find_hdu_case_insensitive "Int_Times" "int_times"). reflexivity.
Defined.

(** The keywords of the sample primary header. *)
Lemma get_jwst_keywords_returns_sample :
  get_jwst_keywords (opened [primary]) =
    (inr (59000 + 69184 / 1000 / 86400, (1000000, 0, 0), (0.5, 0, 0)),
     opened [primary]).
Proof.
  apply (proj2 (get_jwst_keywords_returns (opened [primary])
                  _ _ _ _ _ _ _ (opened [primary]))).
  split; [reflexivity|]. exists primary, 59000. repeat split.
Defined.

(** The sample primary header without [jwst_y]. *)
Lemma get_jwst_keywords_first_absent_sample :
  get_jwst_keywords (opened [without_card "jwst_y"]) =
    (inl (KeyError "jwst_y"), opened [without_card "jwst_y"]).
Proof.
  apply (proj1 (get_jwst_keywords_first_absent
                  (opened [without_card "jwst_y"]) (without_card "jwst_y")
                  eq_refl) 2%nat "jwst_y").
  - vm_compute. reflexivity.
  - intros e He. vm_compute in He. injection He as <-.
    eexists. vm_compute. reflexivity.
Defined.

Local Abbreviation complete :=
  (int_times ["int_start_BJD_TDB"; "int_mid_BJD_TDB"; "int_end_BJD_TDB"]).
Local Abbreviation updated :=
  (set_column (set_column (set_column (int_times [])
     "int_start_BJD_TDB" tdb_start) "int_mid_BJD_TDB" tdb_mid)
     "int_end_BJD_TDB" tdb_end).

(** The sample run returns, and the file is closed. *)
Lemma utc_tdb_closes_when_it_returns_sample :
  fd_closed (utc_tdb "jw.fits" (opened [primary; complete])).2 = true.
Proof.
  apply (proj1 (utc_tdb_closes_when_it_returns "jw.fits"
                  (opened [primary; complete]))
           (PyArray tdb_start, PyArray tdb_mid, PyArray tdb_end)).
  vm_compute. reflexivity.
Defined.

(** The log of the sample run starts with the Processing line. *)
Lemma utc_tdb_logs_processing_first_sample :
  ∃ rest, log (utc_tdb "jw.fits" (opened [primary; complete])).2 =
          log (opened [primary; complete])
            ++ (INFO, "Processing file " +:+ "jw.fits") :: rest.
Proof.
  apply (utc_tdb_logs_processing_first "jw.fits" (opened [primary; complete])
           (inr (PyArray tdb_start, PyArray tdb_mid, PyArray tdb_end))).
  vm_compute. reflexivity.
Defined.

(** The sample run keeps the primary HDU and changes the TDB columns of
    the table only. *)
Lemma utc_tdb_touches_tdb_columns_only_sample :
  length (fd (utc_tdb "jw.fits" (opened [primary; complete])).2) =
    length (fd (opened [primary; complete])) ∧
  ∀ j h, fd (opened [primary; complete]) !! j = Some h →
    ∃ h', fd (utc_tdb "jw.fits" (opened [primary; complete])).2 !! j = Some h' ∧
          only_tdb_changed h h' ∧
          (j = 0%nat ∨ EXTNAME (header h) ≠ Some "INT_TIMES" → h' = h).
Proof.
  apply (utc_tdb_touches_tdb_columns_only "jw.fits" (opened [primary; complete])
           (inr (PyArray tdb_start, PyArray tdb_mid, PyArray tdb_end))).
  vm_compute. reflexivity.
Defined.

(** A primary header with no card: the first card read is missed. *)
Lemma utc_tdb_missing_target_card_sample :
  utc_tdb "jw.fits" (opened [bare; complete]) =
    (inl (KeyError "targ_ra"),
     logged (opened [bare; complete]) [processing "jw.fits"]).
Proof.
  apply (proj1 (utc_tdb_missing_target_card "jw.fits"
                  (opened [bare; complete]) bare eq_refl)).
  reflexivity.
Defined.

(** The sample table without its mid-time input column. *)
Lemma utc_tdb_missing_input_column_sample :
  utc_tdb "jw.fits"
    (opened [primary; without_column "int_mid_MJD_UTC" complete]) =
    (inl (KeyError "int_mid_MJD_UTC"),
     logged (opened [primary; without_column "int_mid_MJD_UTC" complete])
       [processing "jw.fits"]).
Proof.
  apply (utc_tdb_missing_input_column "jw.fits"
           (opened [primary; without_column "int_mid_MJD_UTC" complete])
           0 0 1 (without_column "int_mid_MJD_UTC" complete) 1).
  - reflexivity.
  - reflexivity.
  - repeat split. simpl. lia.
  - vm_compute. reflexivity.
  - intros name col Hc.
    change (columns (table (without_column "int_mid_MJD_UTC" complete)))
      with (delete "int_mid_MJD_UTC"
              (list_to_map
                 [("int_start_MJD_UTC", [59000; 59001]);
                  ("int_mid_MJD_UTC", [59000.25; 59001.25]);
                  ("int_end_MJD_UTC", [59000.5; 59001.5]);
                  ("int_start_BJD_TDB", [0; 0]);
                  ("int_mid_BJD_TDB", [0; 0]);
                  ("int_end_BJD_TDB", [0; 0])]
               : gmap string (list float))) in Hc.
    apply lookup_delete_Some in Hc as [_ Hc].
    apply elem_of_list_to_map_2, list_elem_of_In in Hc. simpl in Hc.
    repeat destruct Hc as [[= <- <-]|Hc]; try (eexists; vm_compute; reflexivity).
    destruct Hc.
Defined.

(** The sample file without the [jwst_y] card. *)
Lemma utc_tdb_missing_keyword_sample :
  utc_tdb "jw.fits" (opened [without_card "jwst_y"; complete]) =
    (inl (KeyError "jwst_y"),
     logged (opened [without_card "jwst_y"; complete])
       [processing "jw.fits";
        (WARNING, "Couldn't import the timeconversion module;");
        (WARNING,
         "using astropy.coordinates, and JWST position and velocity keywords.")]).
Proof.
  apply (utc_tdb_missing_keyword "jw.fits"
           (opened [without_card "jwst_y"; complete]) 0 0 1 complete
           tt_start tt_mid tt_end).
  - reflexivity.
  - reflexivity.
  - reflexivity.
  - repeat split. simpl. lia.
  - vm_compute. reflexivity.
  - vm_compute. reflexivity.
Defined.

(** The sample file with its three TDB columns. *)
Lemma utc_tdb_full_write_back_sample :
  ∃ w' h',
    utc_tdb "jw.fits" (opened [primary; complete]) =
      (inr (PyArray tdb_start, PyArray tdb_mid, PyArray tdb_end), w') ∧
    fd_closed w' = true ∧
    log w' = log (opened [primary; complete])
               ++ processing "jw.fits" :: provider_log ∧
    fd w' = <[1%nat := h']> (fd (opened [primary; complete])) ∧
    read_column w' 1 "int_start_BJD_TDB" = Ok tdb_start ∧
    read_column w' 1 "int_mid_BJD_TDB" = Ok tdb_mid ∧
    read_column w' 1 "int_end_BJD_TDB" = Ok tdb_end ∧
    only_tdb_changed complete h'.
Proof.
  apply (utc_tdb_full_write_back "jw.fits" (opened [primary; complete])
           0 0 1 complete tt_start tt_mid tt_end tdb_start tdb_mid tdb_end
           [0; 0] [0; 0] [0; 0]).
  - reflexivity.
  - reflexivity.
  - repeat split. simpl. lia.
  - vm_compute. reflexivity.
  - vm_compute. reflexivity.
  - reflexivity.
  - reflexivity.
  - reflexivity.
  - reflexivity.
  - reflexivity.
  - reflexivity.
Defined.

(** The sample file with other numbers in its start column. *)
Lemma utc_tdb_ignores_tdb_contents_sample :
  (utc_tdb "jw.fits"
     (opened [primary; set_column complete "int_start_BJD_TDB" [1; 2]])).1 =
  (utc_tdb "jw.fits" (opened [primary; complete])).1.
Proof.
  apply (utc_tdb_ignores_tdb_contents "jw.fits" (opened [primary; complete])
           (opened [primary; set_column complete "int_start_BJD_TDB" [1; 2]])).
  - reflexivity.
  - intros j h Hh. destruct j as [|[|j]]; [| |discriminate Hh];
      injection Hh as <-.
    + exists primary. split; [reflexivity|]. apply only_tdb_changed_refl.
    + exists (set_column complete "int_start_BJD_TDB" [1; 2]).
      split; [reflexivity|].
      apply (only_tdb_changed_set_column complete _ [0; 0]);
        [by constructor|reflexivity|reflexivity].
Defined.

(** A second run on the file the sample run has left. *)
Lemma utc_tdb_rerun_sample :
  (utc_tdb "jw.fits" (opened [primary; updated])).1 =
    inr (PyArray tdb_start, PyArray tdb_mid, PyArray tdb_end).
Proof.
  apply (utc_tdb_rerun "jw.fits" (opened [primary; complete])
           (inr (PyArray tdb_start, PyArray tdb_mid, PyArray tdb_end))
           {| fd := [primary; updated]; fd_closed := true;
              log := processing "jw.fits" :: provider_log |}
           (opened [primary; updated])).
  - vm_compute. reflexivity.
  - reflexivity.
Defined.

(** The sample run with a JPL ephemeris of zeros. *)
Lemma utc_tdb_default_ephemeris_sample :
  utc_tdb (Ex := fallback_sample) "jw.fits" (opened [primary; complete]) =
  utc_tdb (Ex := fallback_jpl_sample) "jw.fits" (opened [primary; complete]).
Proof.
  apply (utc_tdb_default_ephemeris fallback_sample fallback_jpl_sample).
  - reflexivity.
  - reflexivity.
  - reflexivity.
  - intros b t. reflexivity.
Defined.

End Binary64Runs.

(** * Sample runs in real arithmetic *)

Section RealSampleRuns.
Import RealSample.
Local Open Scope R_scope.

(** The C6 theorem at (ra, dec) = (30, 45). *)
Lemma get_target_vector2_unit_sample :
  ∃ v, get_target_vector2 (30, 45) = Ok v ∧
       norm v = 1 ∧ Rabs (norm v - 1) <= 1e-12.
Proof.
  apply (get_target_vector2_unit utc_tt_sample ephemeris_sample None 30 45); lra.
Defined.

Lemma get_target_vector2_origin : get_target_vector2 (0, 0) = Ok origin.
Proof.
  unfold get_target_vector2. simpl.
  rewrite SkyCoord_R_in_range by lra. reflexivity.
Qed.

(** The C1 theorem at one time and one platform position. *)
Lemma compute_bary_helio_time2_light_time_sample :
  ∃ bv hv bary helio,
    get_jwst_position2 [59000] [(1000000, 0, 0)] false = Ok (bv, hv) ∧
    compute_bary_helio_time2 (0, 0) [59000] [(1000000, 0, 0)] false
      = Ok (bary, helio) ∧
    length bary = length [59000] ∧ length helio = length [59000] ∧
    ∀ i t, [59000] !! i = Some t →
      ∃ vb vh tb th,
        bv !! i = Some vb ∧ hv !! i = Some vh ∧
        bary !! i = Some tb ∧ helio !! i = Some th ∧
        tb = t + dot origin vb / 299792.458 / 86400 ∧
        th = t + dot origin vh / 299792.458 / 86400 ∧
        tb - t = dot origin vb / 299792.458 / 86400 ∧
        th - t = dot origin vh / 299792.458 / 86400.
Proof.
  apply (proj1 (compute_bary_helio_time2_light_time
                  (0, 0) [59000] [(1000000, 0, 0)] false) origin).
  - exact get_target_vector2_origin.
  - reflexivity.
Defined.

(** The conversion at the times of the sample file. *)
Lemma utc_tt_sample_since_2017 (x : R) :
  57754 <= x <= 100000 → utc_tt_sample x = Ok (x + 69.184 / 86400).
Proof.
  intros Hx. unfold utc_tt_sample.
  destruct (Rlt_dec (x + 2400000.5) (-68569.5)); [lra|].
  destruct (Rlt_dec 1000000000 (x + 2400000.5)); [lra|].
  destruct (Rlt_dec x 36934); [lra|].
  destruct (Rle_dec 57754 x); [done|lra].
Qed.

Lemma tt_columns_sample dec :
  tt_columns (opened [primary dec; int_times]) 1 =
    Ok ([59000 + 69.184 / 86400], [59000.25 + 69.184 / 86400],
        [59000.5 + 69.184 / 86400]).
Proof.
  change (tt_columns (opened [primary dec; int_times]) 1)
    with (ts ← mapM utc_tt_sample [59000]; tm ← mapM utc_tt_sample [59000.25];
          te ← mapM utc_tt_sample [59000.5]; mret (ts, tm, te)).
  simpl. rewrite !utc_tt_sample_since_2017 by lra. reflexivity.
Qed.

Lemma keywords_sample dec :
  keywords (opened [primary dec; int_times]) =
    Ok (59000 + 69.184 / 86400, (1000000, 0, 0), (0.5, 0, 0)).
Proof.
  change (keywords (opened [primary dec; int_times]))
    with (eph_time ← utc_tt_sample 59000;
          mret (eph_time, (1000000, 0, 0), (0.5, 0, 0))).
  rewrite utc_tt_sample_since_2017 by lra. reflexivity.
Qed.

(** The C8 theorem on a file whose target declination is 100 degrees. *)
Lemma utc_tdb_invalid_declination_sample :
  get_target_vector2 (0, 100) = Err (ValueError latitude_msg) ∧
  utc_tdb "jw.fits" (opened [primary 100; int_times]) =
    (inl (ValueError latitude_msg),
     logged (opened [primary 100; int_times])
       (processing "jw.fits" :: provider_log)).
Proof.
  destruct (utc_tdb_invalid_declination utc_tt_sample ephemeris_sample "jw.fits"
              (opened [primary 100; int_times]) 0 100)
    as (Hvec & Hrun & _).
  - right. lra.
  - reflexivity.
  - reflexivity.
  - split; [exact Hvec|].
    eapply (Hrun 1%nat int_times).
    + repeat split. simpl. lia.
    + apply tt_columns_sample.
    + apply keywords_sample.
Defined.



(** The two channels at one time and one platform position. *)
Lemma get_jwst_position2_channel_difference_sample :
  ∃ t, bcast [59000] 0 = Some t ∧
       vsub (vadd (bary_earth_km false 59000) (1000000, 0, 0))
            (vadd (sun_earth_km false 59000) (1000000, 0, 0))
       = vdiv (get_body_barycentric false Sun t) 1000.
Proof.
  apply (get_jwst_position2_channel_difference [59000] [(1000000, 0, 0)] false
           [vadd (bary_earth_km false 59000) (1000000, 0, 0)]
           [vadd (sun_earth_km false 59000) (1000000, 0, 0)] 0).
  - reflexivity.
  - reflexivity.
  - reflexivity.
Defined.

(** The two corrected times at one time and one platform position. *)
Lemma compute_bary_helio_time2_channel_difference_sample :
  ∃ u t, get_target_vector2 (0, 0) = Ok u ∧ [59000] !! 0%nat = Some t ∧
    (59000 + light_days origin
               (vadd (bary_earth_km false 59000) (1000000, 0, 0)))
    - (59000 + light_days origin
                 (vadd (sun_earth_km false 59000) (1000000, 0, 0))) =
      dot u (vdiv (get_body_barycentric false Sun t) 1000)
        / 299792.458 / 86400.
Proof.
  apply (compute_bary_helio_time2_channel_difference
           (0, 0) [59000] [(1000000, 0, 0)] false
           [59000 + light_days origin
                      (vadd (bary_earth_km false 59000) (1000000, 0, 0))]
           [59000 + light_days origin
                      (vadd (sun_earth_km false 59000) (1000000, 0, 0))] 0).
  - reflexivity.
  - rewrite (compute_bary_helio_time2_rows _ _ _ _ origin);
      [reflexivity|exact get_target_vector2_origin|reflexivity].
  - reflexivity.
  - reflexivity.
Defined.

(** The track of the sample state, taken up again one day later. *)
Lemma linear_pos_reanchor_sample :
  linear_pos [59002] 59001 (1000000 + (59001 - 59000) * 1,
                            0 + (59001 - 59000) * 0,
                            0 + (59001 - 59000) * 0) (1, 0, 0) =
  linear_pos [59002] 59000 (1000000, 0, 0) (1, 0, 0).
Proof.
  apply (linear_pos_reanchor [59002] 59000 59001 (1000000, 0, 0) (1, 0, 0)).
  reflexivity.
Defined.

(** Two times half a day apart. *)
Lemma linear_pos_displacement_sample :
  ∃ r1 r2,
    linear_pos [59000; 59000.5] 59000 (1000000, 0, 0) (1, 0, 0) !! 0%nat
      = Some r1 ∧
    linear_pos [59000; 59000.5] 59000 (1000000, 0, 0) (1, 0, 0) !! 1%nat
      = Some r2 ∧
    vsub r2 r1 = ((59000.5 - 59000) * 1, (59000.5 - 59000) * 0,
                  (59000.5 - 59000) * 0).
Proof.
  apply (linear_pos_displacement [59000; 59000.5] 59000
           (1000000, 0, 0) (1, 0, 0) 0 1 59000 59000.5).
  - reflexivity.
  - reflexivity.
Defined.

(** The direction of (ra, dec) = (0, 0) through the coordinate model. *)
Lemma get_target_vector2_normalises_sample :
  ∃ u, get_target_vector2 (0, 0) = Ok u ∧ norm u = 1 ∧
       dot u (cos (deg 0) * cos (deg 0), cos (deg 0) * sin (deg 0),
              sin (deg 0))
       = norm (cos (deg 0) * cos (deg 0), cos (deg 0) * sin (deg 0),
               sin (deg 0)) ∧
       (cos (deg 0) * cos (deg 0), cos (deg 0) * sin (deg 0), sin (deg 0)) =
       (norm (cos (deg 0) * cos (deg 0), cos (deg 0) * sin (deg 0),
              sin (deg 0)) * u.1.1,
        norm (cos (deg 0) * cos (deg 0), cos (deg 0) * sin (deg 0),
              sin (deg 0)) * u.1.2,
        norm (cos (deg 0) * cos (deg 0), cos (deg 0) * sin (deg 0),
              sin (deg 0)) * u.2).
Proof.
  apply (get_target_vector2_normalises 0 0).
  - apply SkyCoord_R_in_range. lra.
  - rewrite spherical_dot. lra.
Defined.

(** The north pole is accepted. *)
Lemma get_target_vector2_direction_sample :
  get_target_vector2 (0, 90) =
    Ok (cos (deg 90) * cos (deg 0), cos (deg 90) * sin (deg 0), sin (deg 90)).
Proof.
  apply (get_target_vector2_direction utc_tt_sample ephemeris_sample None 0 90).
  lra.
Defined.

(** The bound at one time and one platform position. *)
Lemma compute_bary_helio_time2_bounded_sample :
  Rabs ((59000 + light_days
                   (cos (deg 0) * cos (deg 0), cos (deg 0) * sin (deg 0),
                    sin (deg 0))
                   (vadd (bary_earth_km false 59000) (1000000, 0, 0)))
        - 59000)
  <= norm (vadd (bary_earth_km false 59000) (1000000, 0, 0))
       / 299792.458 / 86400.
Proof.
  apply (compute_bary_helio_time2_bounded utc_tt_sample ephemeris_sample None
           0 0 [59000] [(1000000, 0, 0)] false
           [vadd (bary_earth_km false 59000) (1000000, 0, 0)]
           [vadd (sun_earth_km false 59000) (1000000, 0, 0)]
           [59000 + light_days
                      (cos (deg 0) * cos (deg 0), cos (deg 0) * sin (deg 0),
                       sin (deg 0))
                      (vadd (bary_earth_km false 59000) (1000000, 0, 0))]
           [59000 + light_days
                      (cos (deg 0) * cos (deg 0), cos (deg 0) * sin (deg 0),
                       sin (deg 0))
                      (vadd (sun_earth_km false 59000) (1000000, 0, 0))]
           0 59000).
  - lra.
  - reflexivity.
  - reflexivity.
  - rewrite (compute_bary_helio_time2_rows _ _ _ _
               (cos (deg 0) * cos (deg 0), cos (deg 0) * sin (deg 0),
                sin (deg 0)));
      [reflexivity| |reflexivity].
    apply (get_target_vector2_spherical utc_tt_sample ephemeris_sample None 0 0).
    lra.
  - reflexivity.
  - reflexivity.
  - reflexivity.
Defined.

End RealSampleRuns.

